(** * Complaint escalation: the routes of [routes/complaints.js]

    A shallow embedding of the complaint routes
    ([POST /], [POST /:id/escalate], [POST /:id/respond],
    [POST /:id/accept]) together with the constants of
    [config/constants.js] and the Complaint schema of the models.

    Conventions of the embedding.
    - Dates are milliseconds since the epoch ([Z]); an unset Date path of a
      document is [None] (JavaScript [undefined]).  The clock is read well
      within the range of JavaScript Dates: a computed date that falls
      outside it (an Invalid Date, which [save()] does not cast) is not
      part of the embedding.
    - A handler reads the clock several times ([new Date()]); the readings
      taken while serving one request are the single argument [now].
    - The two collections touched by the routes are finite maps: complaints
      by [_id], office performance records by the pair (office, officeRole)
      that every [OfficePerformance.findOne] of the routes queries by.
    - [averageResolutionTime] is a JavaScript number; its arithmetic is
      carried out in the rationals [Q].
    - A handler returns the next state of the store and the reply it sent. *)

From Stdlib Require Import ZArith QArith Lia.
From stdpp Require Import base option list gmap strings fin_maps.

Close Scope Q_scope.
Local Open Scope string_scope.

(** ** [config/constants.js] *)

Module USER_ROLES.
Inductive t :=
| CITIZEN
| STAKEHOLDER_OFFICE
| WEREDA_ANTI_CORRUPTION
| KIFLEKETEMA_ANTI_CORRUPTION
| KENTIBA_BIRO.

#[global] Instance eq_dec : EqDecision t.
Proof. solve_decision. Defined.
End USER_ROLES.

Module COMPLAINT_STAGES.
Inductive t :=
| STAKEHOLDER_FIRST
| STAKEHOLDER_SECOND
| WEREDA_FIRST
| WEREDA_SECOND
| KIFLEKETEMA_FIRST
| KIFLEKETEMA_SECOND
| KENTIBA.

#[global] Instance eq_dec : EqDecision t.
Proof. solve_decision. Defined.
End COMPLAINT_STAGES.

Module COMPLAINT_HANDLERS.
Inductive t :=
| STAKEHOLDER_OFFICE
| WEREDA_ANTI_CORRUPTION
| KIFLEKETEMA_ANTI_CORRUPTION
| KENTIBA_BIRO.

#[global] Instance eq_dec : EqDecision t.
Proof. solve_decision. Defined.

Definition to_nat (h : t) : nat :=
  match h with
  | STAKEHOLDER_OFFICE => 0
  | WEREDA_ANTI_CORRUPTION => 1
  | KIFLEKETEMA_ANTI_CORRUPTION => 2
  | KENTIBA_BIRO => 3
  end.

Definition of_nat (n : nat) : option t :=
  match n with
  | 0 => Some STAKEHOLDER_OFFICE
  | 1 => Some WEREDA_ANTI_CORRUPTION
  | 2 => Some KIFLEKETEMA_ANTI_CORRUPTION
  | 3 => Some KENTIBA_BIRO
  | _ => None
  end.

#[global] Instance countable : Countable t.
Proof. apply (inj_countable to_nat of_nat). by intros []. Defined.
End COMPLAINT_HANDLERS.

Module COMPLAINT_STATUS.
Inductive t :=
| PENDING
| IN_PROGRESS
| RESOLVED
| ESCALATED.

#[global] Instance eq_dec : EqDecision t.
Proof. solve_decision. Defined.
End COMPLAINT_STATUS.

(** Escalation timeframes (in milliseconds). *)
Module ESCALATION_TIMEFRAMES.
Definition STAKEHOLDER_RESPONSE : Z := 3 * 24 * 60 * 60 * 1000.
Definition WEREDA_RESPONSE : Z := 5 * 24 * 60 * 60 * 1000.
Definition KIFLEKETEMA_RESPONSE : Z := 7 * 24 * 60 * 60 * 1000.
End ESCALATION_TIMEFRAMES.

Abbreviation Stage := COMPLAINT_STAGES.t.
Abbreviation Handler := COMPLAINT_HANDLERS.t.
Abbreviation Status := COMPLAINT_STATUS.t.
Abbreviation Role := USER_ROLES.t.

(** ** The documents *)

(** The part of a User document the complaint routes query. *)
Record User := {
  uid : nat;
  role : Role;
  isApproved : bool
}.

(** An element of [escalationHistory]. *)
Record Escalation := {
  from : Handler;
  to : Handler;
  reason : string;
  date : Z
}.

(** An element of [responses]. *)
Record Response := {
  responder : nat;
  responderRole : Handler;
  response : option string;
  response_status : Status;
  internalComment : option string;
  createdAt : Z
}.

Record Resolution := {
  resolvedBy : nat;
  resolverRole : Handler;
  resolution_text : option string;
  resolvedAt : Z
}.

(** The names of the six response-due paths; the routes write them through
    a computed key ([complaint[dueDateField] = dueDate]). *)
Inductive DueField :=
| stakeholderFirstResponseDue
| stakeholderSecondResponseDue
| weredaFirstResponseDue
| weredaSecondResponseDue
| kifleketemaFirstResponseDue
| kifleketemaSecondResponseDue.

#[global] Instance DueField_eq_dec : EqDecision DueField.
Proof. solve_decision. Defined.

(** A Complaint document (ComplaintSchema). *)
Record Complaint := {
  user : nat;
  title : string;
  description : string;
  stakeholderOffice : nat;
  currentStage : Stage;
  currentHandler : Handler;
  status : Status;
  location : string;
  attachments : list string;
  submittedAt : Z;
  due_stakeholderFirst : option Z;
  due_stakeholderSecond : option Z;
  due_weredaFirst : option Z;
  due_weredaSecond : option Z;
  due_kifleketemaFirst : option Z;
  due_kifleketemaSecond : option Z;
  escalationHistory : list Escalation;
  responses : list Response;
  resolution : option Resolution;
  updatedAt : Z;
  additionalDetails : option string;
  relatedComplaint : option nat;
  secondStageComplaint : option nat
}.

(** Reading a due path, [complaint.<field>]. *)
Definition get_due (f : DueField) (c : Complaint) : option Z :=
  match f with
  | stakeholderFirstResponseDue => due_stakeholderFirst c
  | stakeholderSecondResponseDue => due_stakeholderSecond c
  | weredaFirstResponseDue => due_weredaFirst c
  | weredaSecondResponseDue => due_weredaSecond c
  | kifleketemaFirstResponseDue => due_kifleketemaFirst c
  | kifleketemaSecondResponseDue => due_kifleketemaSecond c
  end.

(** Writing one path of a document leaves the others as they are. *)
Definition set_currentStage (s : Stage) (c : Complaint) : Complaint :=
  {| user := user c; title := title c; description := description c;
     stakeholderOffice := stakeholderOffice c;
     currentStage := s;
     currentHandler := currentHandler c; status := status c;
     location := location c; attachments := attachments c;
     submittedAt := submittedAt c;
     due_stakeholderFirst := due_stakeholderFirst c;
     due_stakeholderSecond := due_stakeholderSecond c;
     due_weredaFirst := due_weredaFirst c;
     due_weredaSecond := due_weredaSecond c;
     due_kifleketemaFirst := due_kifleketemaFirst c;
     due_kifleketemaSecond := due_kifleketemaSecond c;
     escalationHistory := escalationHistory c; responses := responses c;
     resolution := resolution c; updatedAt := updatedAt c;
     additionalDetails := additionalDetails c;
     relatedComplaint := relatedComplaint c;
     secondStageComplaint := secondStageComplaint c |}.

Definition set_currentHandler (h : Handler) (c : Complaint) : Complaint :=
  {| user := user c; title := title c; description := description c;
     stakeholderOffice := stakeholderOffice c;
     currentStage := currentStage c;
     currentHandler := h;
     status := status c;
     location := location c; attachments := attachments c;
     submittedAt := submittedAt c;
     due_stakeholderFirst := due_stakeholderFirst c;
     due_stakeholderSecond := due_stakeholderSecond c;
     due_weredaFirst := due_weredaFirst c;
     due_weredaSecond := due_weredaSecond c;
     due_kifleketemaFirst := due_kifleketemaFirst c;
     due_kifleketemaSecond := due_kifleketemaSecond c;
     escalationHistory := escalationHistory c; responses := responses c;
     resolution := resolution c; updatedAt := updatedAt c;
     additionalDetails := additionalDetails c;
     relatedComplaint := relatedComplaint c;
     secondStageComplaint := secondStageComplaint c |}.

Definition set_status (s : Status) (c : Complaint) : Complaint :=
  {| user := user c; title := title c; description := description c;
     stakeholderOffice := stakeholderOffice c;
     currentStage := currentStage c; currentHandler := currentHandler c;
     status := s;
     location := location c; attachments := attachments c;
     submittedAt := submittedAt c;
     due_stakeholderFirst := due_stakeholderFirst c;
     due_stakeholderSecond := due_stakeholderSecond c;
     due_weredaFirst := due_weredaFirst c;
     due_weredaSecond := due_weredaSecond c;
     due_kifleketemaFirst := due_kifleketemaFirst c;
     due_kifleketemaSecond := due_kifleketemaSecond c;
     escalationHistory := escalationHistory c; responses := responses c;
     resolution := resolution c; updatedAt := updatedAt c;
     additionalDetails := additionalDetails c;
     relatedComplaint := relatedComplaint c;
     secondStageComplaint := secondStageComplaint c |}.

Definition set_updatedAt (t : Z) (c : Complaint) : Complaint :=
  {| user := user c; title := title c; description := description c;
     stakeholderOffice := stakeholderOffice c;
     currentStage := currentStage c; currentHandler := currentHandler c;
     status := status c;
     location := location c; attachments := attachments c;
     submittedAt := submittedAt c;
     due_stakeholderFirst := due_stakeholderFirst c;
     due_stakeholderSecond := due_stakeholderSecond c;
     due_weredaFirst := due_weredaFirst c;
     due_weredaSecond := due_weredaSecond c;
     due_kifleketemaFirst := due_kifleketemaFirst c;
     due_kifleketemaSecond := due_kifleketemaSecond c;
     escalationHistory := escalationHistory c; responses := responses c;
     resolution := resolution c;
     updatedAt := t;
     additionalDetails := additionalDetails c;
     relatedComplaint := relatedComplaint c;
     secondStageComplaint := secondStageComplaint c |}.

(** [complaint[dueDateField] = dueDate]; [dueDate] may be [undefined]. *)
Definition set_due (f : DueField) (d : option Z) (c : Complaint) : Complaint :=
  let pick g := if decide (f = g) then d else get_due g c in
  {| user := user c; title := title c; description := description c;
     stakeholderOffice := stakeholderOffice c;
     currentStage := currentStage c; currentHandler := currentHandler c;
     status := status c;
     location := location c; attachments := attachments c;
     submittedAt := submittedAt c;
     due_stakeholderFirst := pick stakeholderFirstResponseDue;
     due_stakeholderSecond := pick stakeholderSecondResponseDue;
     due_weredaFirst := pick weredaFirstResponseDue;
     due_weredaSecond := pick weredaSecondResponseDue;
     due_kifleketemaFirst := pick kifleketemaFirstResponseDue;
     due_kifleketemaSecond := pick kifleketemaSecondResponseDue;
     escalationHistory := escalationHistory c; responses := responses c;
     resolution := resolution c; updatedAt := updatedAt c;
     additionalDetails := additionalDetails c;
     relatedComplaint := relatedComplaint c;
     secondStageComplaint := secondStageComplaint c |}.

(** [complaint.escalationHistory.push(e)] *)
Definition push_escalation (e : Escalation) (c : Complaint) : Complaint :=
  {| user := user c; title := title c; description := description c;
     stakeholderOffice := stakeholderOffice c;
     currentStage := currentStage c; currentHandler := currentHandler c;
     status := status c;
     location := location c; attachments := attachments c;
     submittedAt := submittedAt c;
     due_stakeholderFirst := due_stakeholderFirst c;
     due_stakeholderSecond := due_stakeholderSecond c;
     due_weredaFirst := due_weredaFirst c;
     due_weredaSecond := due_weredaSecond c;
     due_kifleketemaFirst := due_kifleketemaFirst c;
     due_kifleketemaSecond := due_kifleketemaSecond c;
     escalationHistory := escalationHistory c ++ [e];
     responses := responses c;
     resolution := resolution c; updatedAt := updatedAt c;
     additionalDetails := additionalDetails c;
     relatedComplaint := relatedComplaint c;
     secondStageComplaint := secondStageComplaint c |}.

(** [complaint.responses.push(r)] *)
Definition push_response (r : Response) (c : Complaint) : Complaint :=
  {| user := user c; title := title c; description := description c;
     stakeholderOffice := stakeholderOffice c;
     currentStage := currentStage c; currentHandler := currentHandler c;
     status := status c;
     location := location c; attachments := attachments c;
     submittedAt := submittedAt c;
     due_stakeholderFirst := due_stakeholderFirst c;
     due_stakeholderSecond := due_stakeholderSecond c;
     due_weredaFirst := due_weredaFirst c;
     due_weredaSecond := due_weredaSecond c;
     due_kifleketemaFirst := due_kifleketemaFirst c;
     due_kifleketemaSecond := due_kifleketemaSecond c;
     escalationHistory := escalationHistory c;
     responses := responses c ++ [r];
     resolution := resolution c; updatedAt := updatedAt c;
     additionalDetails := additionalDetails c;
     relatedComplaint := relatedComplaint c;
     secondStageComplaint := secondStageComplaint c |}.

Definition set_resolution (r : Resolution) (c : Complaint) : Complaint :=
  {| user := user c; title := title c; description := description c;
     stakeholderOffice := stakeholderOffice c;
     currentStage := currentStage c; currentHandler := currentHandler c;
     status := status c;
     location := location c; attachments := attachments c;
     submittedAt := submittedAt c;
     due_stakeholderFirst := due_stakeholderFirst c;
     due_stakeholderSecond := due_stakeholderSecond c;
     due_weredaFirst := due_weredaFirst c;
     due_weredaSecond := due_weredaSecond c;
     due_kifleketemaFirst := due_kifleketemaFirst c;
     due_kifleketemaSecond := due_kifleketemaSecond c;
     escalationHistory := escalationHistory c; responses := responses c;
     resolution := Some r;
     updatedAt := updatedAt c;
     additionalDetails := additionalDetails c;
     relatedComplaint := relatedComplaint c;
     secondStageComplaint := secondStageComplaint c |}.

Definition set_secondStageComplaint (i : nat) (c : Complaint) : Complaint :=
  {| user := user c; title := title c; description := description c;
     stakeholderOffice := stakeholderOffice c;
     currentStage := currentStage c; currentHandler := currentHandler c;
     status := status c;
     location := location c; attachments := attachments c;
     submittedAt := submittedAt c;
     due_stakeholderFirst := due_stakeholderFirst c;
     due_stakeholderSecond := due_stakeholderSecond c;
     due_weredaFirst := due_weredaFirst c;
     due_weredaSecond := due_weredaSecond c;
     due_kifleketemaFirst := due_kifleketemaFirst c;
     due_kifleketemaSecond := due_kifleketemaSecond c;
     escalationHistory := escalationHistory c; responses := responses c;
     resolution := resolution c; updatedAt := updatedAt c;
     additionalDetails := additionalDetails c;
     relatedComplaint := relatedComplaint c;
     secondStageComplaint := Some i |}.

(** Modelled from the spec: the OfficePerformance schema
    ([models/OfficePerformance.js] is not among the sources).  The spec gives
    the counters [totalComplaints], [resolvedComplaints],
    [escalatedComplaints], the running mean [averageResolutionTime] and the
    append-only [failureRecords] of {complaint reference, escalated-from
    stage, escalated-to stage, reason, timestamp}; a record is created
    lazily for an (office, role) pair, with counters at 0. *)
Record FailureRecord := {
  complaint : nat;
  escalatedFrom : Stage;
  escalatedTo : Stage;
  failure_reason : string;
  failure_date : Z
}.

Record OfficePerformance := {
  totalComplaints : Z;
  resolvedComplaints : Z;
  escalatedComplaints : Z;
  averageResolutionTime : Q;
  failureRecords : list FailureRecord;
  performance_updatedAt : option Z
}.

(** Modelled from the spec: [new OfficePerformance({ office, officeRole })],
    a record whose counters and mean start at 0 and whose failure list is
    empty. *)
Definition new_OfficePerformance : OfficePerformance :=
  {| totalComplaints := 0; resolvedComplaints := 0; escalatedComplaints := 0;
     averageResolutionTime := 0%Q; failureRecords := [];
     performance_updatedAt := None |}.

(** ** The store *)

Record State := {
  users : list User;
  complaints : gmap nat Complaint;
  performances : gmap (nat * Handler) OfficePerformance
}.

Definition with_complaints (m : gmap nat Complaint) (st : State) : State :=
  {| users := users st; complaints := m; performances := performances st |}.

Definition with_performances
    (m : gmap (nat * Handler) OfficePerformance) (st : State) : State :=
  {| users := users st; complaints := complaints st; performances := m |}.

(** [User.findOne({ role })]: the first user holding the role, in the
    collection's order. *)
Definition User_findOne_role (r : Role) (st : State) : option User :=
  List.find (fun u => bool_decide (role u = r)) (users st).

(** [OfficePerformance.findOne({ office, officeRole })] followed by
    [new OfficePerformance(...)] when nothing is found. *)
Definition OfficePerformance_findOrNew
    (office : nat) (officeRole : Handler) (st : State) : OfficePerformance :=
  default new_OfficePerformance (performances st !! (office, officeRole)).

(** [officePerformance.save()]; the schema of the record is not among the
    sources and the save is taken to go through. *)
Definition OfficePerformance_save
    (office : nat) (officeRole : Handler) (p : OfficePerformance)
    (st : State) : State :=
  with_performances (<[(office, officeRole) := p]> (performances st)) st.

(** *** Saving a complaint

    [save()] first validates the document against ComplaintSchema and throws
    when a validator rejects; the handlers' [catch] then answers 500.  The
    enum validators of an [escalationHistory] element are
    [from] in {stakeholder_office, wereda_anti_corruption,
    kifleketema_anti_corruption} and [to] in {wereda_anti_corruption,
    kifleketema_anti_corruption, kentiba_biro}. *)
Definition from_enum (h : Handler) : bool :=
  match h with
  | COMPLAINT_HANDLERS.STAKEHOLDER_OFFICE
  | COMPLAINT_HANDLERS.WEREDA_ANTI_CORRUPTION
  | COMPLAINT_HANDLERS.KIFLEKETEMA_ANTI_CORRUPTION => true
  | COMPLAINT_HANDLERS.KENTIBA_BIRO => false
  end.

Definition to_enum (h : Handler) : bool :=
  match h with
  | COMPLAINT_HANDLERS.WEREDA_ANTI_CORRUPTION
  | COMPLAINT_HANDLERS.KIFLEKETEMA_ANTI_CORRUPTION
  | COMPLAINT_HANDLERS.KENTIBA_BIRO => true
  | COMPLAINT_HANDLERS.STAKEHOLDER_OFFICE => false
  end.

Definition valid_escalation (e : Escalation) : bool :=
  from_enum (from e) && to_enum (to e).

(** The schema's [pre("save")] hook: a new document gets
    [stakeholderFirstResponseDue] three days ahead, every saved document gets
    a new [updatedAt]. *)
Definition pre_save (isNew : bool) (now : Z) (c : Complaint) : Complaint :=
  let c :=
    if isNew
    then set_due stakeholderFirstResponseDue
           (Some (now + 3 * 24 * 60 * 60 * 1000)%Z) c
    else c in
  set_updatedAt now c.

(** [complaint.save()] for a document loaded from the collection: the
    validated modifications are the elements [pushed] on
    [escalationHistory] since it was loaded (the other paths the routes
    write take values of their enums, and dates within the range of
    Dates).  [None] is a thrown ValidationError. *)
Definition Complaint_save
    (id : nat) (doc : Complaint) (pushed : list Escalation) (now : Z)
    (st : State) : option (State * Complaint) :=
  if forallb valid_escalation pushed
  then let doc := pre_save false now doc in
       Some (with_complaints (<[id := doc]> (complaints st)) st, doc)
  else None.

(** ** Requests and replies *)

(** [req.user], as set by the auth middleware. *)
Record ReqUser := {
  user_id : nat;
  user_role : Role
}.

(** What a handler sends: [res.status(code).json({ message, complaint })],
    or the 500 of its [catch] block. *)
Inductive Reply :=
| Json (code : nat) (message : string) (doc : option (nat * Complaint))
| Caught.

(** The error taxonomy of the spec, as the replies of the routes. *)
Definition EscalationNotAllowedError : Reply :=
  Json 400
    "Cannot escalate at this time. Please wait for the response due date or a response from the current handler."
    None.
Definition AlreadyResolvedError : Reply :=
  Json 400 "Cannot escalate a resolved complaint" None.
Definition TerminalStageError : Reply :=
  Json 400 "Complaint is already at the final stage" None.

(** [value || fallback] on an optional string of the request body. *)
Definition or_default (value : option string) (fallback : string) : string :=
  match value with
  | Some s => if decide (s = "") then fallback else s
  | None => fallback
  end.

(** ** [POST /:id/escalate] *)

(** [now > complaint.<due>]: a Date compared with an unset path is compared
    with [undefined], which is false. *)
Definition date_gt (now : Z) (due : option Z) : bool :=
  match due with
  | Some d => (d <? now)%Z
  | None => false
  end.

(** The outcome of the [switch] on [complaint.currentStage]: the route
    returns from inside it at the final stage, leaves [canEscalate] false,
    or sets it together with [nextStage], [nextHandler], [fromStage],
    [toStage] and [dueDateField] (an option is the variable's initial empty
    string when [None]). *)
Inductive Switch :=
| AtFinalStage
| CannotEscalate
| CanEscalate (nextStage : Stage) (nextHandler : Handler)
    (fromStage toStage : option Stage) (dueDateField : option DueField).

Definition not_resolved (c : Complaint) : bool :=
  negb (bool_decide (status c = COMPLAINT_STATUS.RESOLVED)).

Definition escalation_switch (complaint : Complaint) (now : Z) : Switch :=
  match currentStage complaint with
  | COMPLAINT_STAGES.STAKEHOLDER_FIRST =>
      if date_gt now (due_stakeholderFirst complaint)
         || (0 <? length (responses complaint))%nat && not_resolved complaint
      then CanEscalate COMPLAINT_STAGES.STAKEHOLDER_SECOND
             COMPLAINT_HANDLERS.STAKEHOLDER_OFFICE
             None None (Some stakeholderSecondResponseDue)
      else CannotEscalate
  | COMPLAINT_STAGES.STAKEHOLDER_SECOND =>
      if date_gt now (due_stakeholderSecond complaint)
         || (1 <? length (responses complaint))%nat && not_resolved complaint
      then CanEscalate COMPLAINT_STAGES.WEREDA_FIRST
             COMPLAINT_HANDLERS.WEREDA_ANTI_CORRUPTION
             (Some COMPLAINT_STAGES.STAKEHOLDER_SECOND)
             (Some COMPLAINT_STAGES.WEREDA_FIRST)
             (Some weredaFirstResponseDue)
      else CannotEscalate
  | COMPLAINT_STAGES.WEREDA_FIRST =>
      if date_gt now (due_weredaFirst complaint)
         || (2 <? length (responses complaint))%nat && not_resolved complaint
      then CanEscalate COMPLAINT_STAGES.WEREDA_SECOND
             COMPLAINT_HANDLERS.WEREDA_ANTI_CORRUPTION
             None None (Some weredaSecondResponseDue)
      else CannotEscalate
  | COMPLAINT_STAGES.WEREDA_SECOND =>
      if date_gt now (due_weredaSecond complaint)
         || (3 <? length (responses complaint))%nat && not_resolved complaint
      then CanEscalate COMPLAINT_STAGES.KIFLEKETEMA_FIRST
             COMPLAINT_HANDLERS.KIFLEKETEMA_ANTI_CORRUPTION
             (Some COMPLAINT_STAGES.WEREDA_SECOND)
             (Some COMPLAINT_STAGES.KIFLEKETEMA_FIRST)
             (Some kifleketemaFirstResponseDue)
      else CannotEscalate
  | COMPLAINT_STAGES.KIFLEKETEMA_FIRST =>
      if date_gt now (due_kifleketemaFirst complaint)
         || (4 <? length (responses complaint))%nat && not_resolved complaint
      then CanEscalate COMPLAINT_STAGES.KIFLEKETEMA_SECOND
             COMPLAINT_HANDLERS.KIFLEKETEMA_ANTI_CORRUPTION
             None None (Some kifleketemaSecondResponseDue)
      else CannotEscalate
  | COMPLAINT_STAGES.KIFLEKETEMA_SECOND =>
      if date_gt now (due_kifleketemaSecond complaint)
         || (5 <? length (responses complaint))%nat && not_resolved complaint
      then CanEscalate COMPLAINT_STAGES.KENTIBA
             COMPLAINT_HANDLERS.KENTIBA_BIRO
             (Some COMPLAINT_STAGES.KIFLEKETEMA_SECOND)
             (Some COMPLAINT_STAGES.KENTIBA)
             None
      else CannotEscalate
  | COMPLAINT_STAGES.KENTIBA => AtFinalStage
  end.

(** The [dueDate] computed from [nextHandler]; no branch of the chain is
    taken for [kentiba_biro], which leaves it [undefined]. *)
Definition next_dueDate (nextHandler : Handler) (now : Z) : option Z :=
  match nextHandler with
  | COMPLAINT_HANDLERS.STAKEHOLDER_OFFICE =>
      Some (now + ESCALATION_TIMEFRAMES.STAKEHOLDER_RESPONSE)%Z
  | COMPLAINT_HANDLERS.WEREDA_ANTI_CORRUPTION =>
      Some (now + ESCALATION_TIMEFRAMES.WEREDA_RESPONSE)%Z
  | COMPLAINT_HANDLERS.KIFLEKETEMA_ANTI_CORRUPTION =>
      Some (now + ESCALATION_TIMEFRAMES.KIFLEKETEMA_RESPONSE)%Z
  | COMPLAINT_HANDLERS.KENTIBA_BIRO => None
  end.

(** "Update complaint" and "Set new due date if applicable". *)
Definition escalate_update
    (complaint : Complaint) (now : Z) (nextStage : Stage)
    (nextHandler : Handler) (dueDateField : option DueField) : Complaint :=
  let complaint := set_currentStage nextStage complaint in
  let complaint := set_currentHandler nextHandler complaint in
  let complaint := set_status COMPLAINT_STATUS.PENDING complaint in
  let complaint := set_updatedAt now complaint in
  match dueDateField with
  | Some f => set_due f (next_dueDate nextHandler now) complaint
  | None => complaint
  end.

(** "Record failure for the office": the office and role the failure is
    booked on, when there is one. *)
Definition failing_office
    (st : State) (complaint : Complaint) (fromStage : Stage)
    : option (nat * Handler) :=
  match fromStage with
  | COMPLAINT_STAGES.STAKEHOLDER_SECOND =>
      Some (stakeholderOffice complaint, COMPLAINT_HANDLERS.STAKEHOLDER_OFFICE)
  | COMPLAINT_STAGES.WEREDA_SECOND =>
      match User_findOne_role USER_ROLES.WEREDA_ANTI_CORRUPTION st with
      | Some weredaOfficer =>
          Some (uid weredaOfficer, COMPLAINT_HANDLERS.WEREDA_ANTI_CORRUPTION)
      | None => None
      end
  | COMPLAINT_STAGES.KIFLEKETEMA_SECOND =>
      match User_findOne_role USER_ROLES.KIFLEKETEMA_ANTI_CORRUPTION st with
      | Some kifleketemaOfficer =>
          Some (uid kifleketemaOfficer,
                COMPLAINT_HANDLERS.KIFLEKETEMA_ANTI_CORRUPTION)
      | None => None
      end
  | _ => None
  end.

(** [escalatedComplaints += 1], [failureRecords.push(...)],
    [updatedAt = now]. *)
Definition record_failure
    (f : FailureRecord) (now : Z) (p : OfficePerformance)
    : OfficePerformance :=
  {| totalComplaints := totalComplaints p;
     resolvedComplaints := resolvedComplaints p;
     escalatedComplaints := escalatedComplaints p + 1;
     averageResolutionTime := averageResolutionTime p;
     failureRecords := failureRecords p ++ [f];
     performance_updatedAt := Some now |}.

(** The route past the [canEscalate] test: the complaint is updated, the
    escalation is entered in its history, a failure is booked when the
    handler changes, and the complaint is saved. *)
Definition escalate_apply
    (st : State) (id : nat) (req_reason : option string) (now : Z)
    (complaint : Complaint) (nextStage : Stage) (nextHandler : Handler)
    (fromStage toStage : option Stage) (dueDateField : option DueField)
    : State * Reply :=
  let complaint :=
    escalate_update complaint now nextStage nextHandler dueDateField in
  match fromStage, toStage with
  | Some fromStage, Some toStage =>
      let reason :=
        or_default req_reason "Escalated due to unresolved complaint" in
      let entry :=
        {| from :=
             if bool_decide (currentHandler complaint
                             = COMPLAINT_HANDLERS.WEREDA_ANTI_CORRUPTION)
             then COMPLAINT_HANDLERS.STAKEHOLDER_OFFICE
             else COMPLAINT_HANDLERS.WEREDA_ANTI_CORRUPTION;
           to := nextHandler;
           reason := reason;
           date := now |} in
      let complaint := push_escalation entry complaint in
      let st :=
        match failing_office st complaint fromStage with
        | Some (officeId, officeRole) =>
            let officePerformance :=
              OfficePerformance_findOrNew officeId officeRole st in
            let officePerformance :=
              record_failure
                {| complaint := id; escalatedFrom := fromStage;
                   escalatedTo := toStage; failure_reason := reason;
                   failure_date := now |}
                now officePerformance in
            OfficePerformance_save officeId officeRole officePerformance st
        | None => st
        end in
      match Complaint_save id complaint [entry] now st with
      | Some (st, complaint) =>
          (st, Json 200 "Complaint escalated successfully"
                 (Some (id, complaint)))
      | None => (st, Caught)
      end
  | _, _ =>
      let reason := or_default req_reason "Escalated to next stage" in
      let entry :=
        {| from := currentHandler complaint;
           to := nextHandler;
           reason := reason;
           date := now |} in
      let complaint := push_escalation entry complaint in
      match Complaint_save id complaint [entry] now st with
      | Some (st, complaint) =>
          (st, Json 200 "Complaint escalated successfully"
                 (Some (id, complaint)))
      | None => (st, Caught)
      end
  end.

Definition escalate
    (st : State) (req_user : ReqUser) (id : nat) (req_reason : option string)
    (now : Z) : State * Reply :=
  if negb (bool_decide (user_role req_user = USER_ROLES.CITIZEN))
  then (st, Json 403 "Only citizens can escalate complaints" None)
  else
  match complaints st !! id with
  | None => (st, Json 404 "Complaint not found" None)
  | Some complaint =>
  if negb (bool_decide (user complaint = user_id req_user))
  then (st, Json 403 "Not authorized" None)
  else if bool_decide (status complaint = COMPLAINT_STATUS.RESOLVED)
  then (st, AlreadyResolvedError)
  else
  match escalation_switch complaint now with
  | AtFinalStage => (st, TerminalStageError)
  | CannotEscalate => (st, EscalationNotAllowedError)
  | CanEscalate nextStage nextHandler fromStage toStage dueDateField =>
      escalate_apply st id req_reason now complaint nextStage nextHandler
        fromStage toStage dueDateField
  end
  end.

(** ** [POST /] *)

(** [req.body] of a submission, with the paths of the uploaded [req.files].
    A field the form does not carry is [None].  The two id fields hold
    ObjectIds: a string that does not cast to one makes the query it is
    used in throw (the route answers 500), and is not among the bodies of
    the embedding. *)
Record SubmitBody := {
  body_title : option string;
  body_description : option string;
  stakeholderOfficeId : option nat;
  body_location : option string;
  isSecondStage : option string;
  originalComplaintId : option nat;
  body_additionalDetails : option string;
  files : list string
}.

(** The [required: true] validator of a String path rejects a missing
    value and the empty string. *)
Definition required_string (v : option string) : option string :=
  match v with
  | Some s => if decide (s = "") then None else Some s
  | None => None
  end.

(** [new Complaint({ ... })] with the schema defaults ([submittedAt] and
    [updatedAt] default to the time of construction, the arrays to empty,
    the remaining paths are unset). *)
Definition new_Complaint
    (user : nat) (title description : string) (stakeholderOffice : nat)
    (currentStage : Stage) (currentHandler : Handler) (status : Status)
    (location : string) (attachments : list string)
    (additionalDetails : option string) (relatedComplaint : option nat)
    (now : Z) : Complaint :=
  {| user := user; title := title; description := description;
     stakeholderOffice := stakeholderOffice;
     currentStage := currentStage; currentHandler := currentHandler;
     status := status; location := location; attachments := attachments;
     submittedAt := now;
     due_stakeholderFirst := None; due_stakeholderSecond := None;
     due_weredaFirst := None; due_weredaSecond := None;
     due_kifleketemaFirst := None; due_kifleketemaSecond := None;
     escalationHistory := []; responses := []; resolution := None;
     updatedAt := now; additionalDetails := additionalDetails;
     relatedComplaint := relatedComplaint; secondStageComplaint := None |}.

(** [complaint.save()] for a new document whose required paths are
    present: it runs the [pre("save")] hook and is stored under a fresh
    [_id]. *)
Definition Complaint_insert (doc : Complaint) (now : Z) (st : State)
    : State * nat * Complaint :=
  let id := fresh (dom (complaints st)) in
  let doc := pre_save true now doc in
  (with_complaints (<[id := doc]> (complaints st)) st, id, doc).

(** The filter of the [Complaint.findOne] that looks the original up. *)
Definition second_stage_filter (req_user : ReqUser) (c : Complaint) : bool :=
  bool_decide (user c = user_id req_user)
  && (bool_decide (currentStage c = COMPLAINT_STAGES.STAKEHOLDER_FIRST)
      || bool_decide (currentStage c = COMPLAINT_STAGES.WEREDA_FIRST))
  && bool_decide (status c = COMPLAINT_STATUS.IN_PROGRESS)
  && negb (bool_decide (length (responses c) = 0)).

(** [totalComplaints += 1], [updatedAt = new Date()]. *)
Definition count_complaint (now : Z) (p : OfficePerformance)
    : OfficePerformance :=
  {| totalComplaints := totalComplaints p + 1;
     resolvedComplaints := resolvedComplaints p;
     escalatedComplaints := escalatedComplaints p;
     averageResolutionTime := averageResolutionTime p;
     failureRecords := failureRecords p;
     performance_updatedAt := Some now |}.

(** The second stage branch, from the original found by the query on. *)
Definition submit_second_stage
    (st : State) (req_user : ReqUser) (body : SubmitBody)
    (originalComplaintId : nat) (originalComplaint : Complaint) (now : Z)
    : State * Reply :=
  let plan :=
    match currentStage originalComplaint with
    | COMPLAINT_STAGES.STAKEHOLDER_FIRST =>
        Some (COMPLAINT_STAGES.STAKEHOLDER_SECOND,
              COMPLAINT_HANDLERS.STAKEHOLDER_OFFICE,
              stakeholderSecondResponseDue,
              (now + ESCALATION_TIMEFRAMES.STAKEHOLDER_RESPONSE)%Z,
              COMPLAINT_HANDLERS.WEREDA_ANTI_CORRUPTION)
    | COMPLAINT_STAGES.WEREDA_FIRST =>
        Some (COMPLAINT_STAGES.WEREDA_SECOND,
              COMPLAINT_HANDLERS.WEREDA_ANTI_CORRUPTION,
              weredaSecondResponseDue,
              (now + ESCALATION_TIMEFRAMES.WEREDA_RESPONSE)%Z,
              COMPLAINT_HANDLERS.KIFLEKETEMA_ANTI_CORRUPTION)
    | _ => None
    end in
  match plan with
  | None => (st, Caught) (* not reached: the query admits the two stages *)
  | Some (nextStage, nextHandler, dueDateField, dueDate, escalationTo) =>
  match required_string (body_title body),
        required_string (body_description body),
        stakeholderOfficeId body,
        required_string (body_location body) with
  | Some title, Some description, Some officeId, Some location =>
      let complaint :=
        new_Complaint (user_id req_user) title description officeId
          nextStage nextHandler COMPLAINT_STATUS.PENDING location
          (files body)
          (Some (default "" (body_additionalDetails body)))
          (Some originalComplaintId) now in
      let complaint := set_due dueDateField (Some dueDate) complaint in
      let '(st, complaint_id, complaint) := Complaint_insert complaint now st in
      let originalComplaint :=
        set_secondStageComplaint complaint_id originalComplaint in
      let originalComplaint := set_currentStage nextStage originalComplaint in
      let originalComplaint :=
        set_status COMPLAINT_STATUS.ESCALATED originalComplaint in
      let entry :=
        {| from := nextHandler;
           to := escalationTo;
           reason := "Escalated to second stage by citizen";
           date := now |} in
      let originalComplaint := push_escalation entry originalComplaint in
      match Complaint_save originalComplaintId originalComplaint [entry]
              now st with
      | None => (st, Caught)
      | Some (st, _) =>
          let officePerformance :=
            OfficePerformance_findOrNew officeId nextHandler st in
          let officePerformance := count_complaint now officePerformance in
          let st :=
            OfficePerformance_save officeId nextHandler officePerformance st in
          (st, Json 201 "Second stage complaint submitted successfully"
                 (Some (complaint_id, complaint)))
      end
  | _, _, _, _ => (st, Caught) (* [complaint.save()] throws *)
  end
  end.

(** The regular first stage branch. *)
Definition submit_first_stage
    (st : State) (req_user : ReqUser) (body : SubmitBody) (now : Z)
    : State * Reply :=
  let stakeholderOffice :=
    match stakeholderOfficeId body with
    | Some officeId =>
        List.find
          (fun u =>
             bool_decide (uid u = officeId)
             && bool_decide (role u = USER_ROLES.STAKEHOLDER_OFFICE)
             && isApproved u)
          (users st)
    | None => None
    end in
  match stakeholderOffice, stakeholderOfficeId body with
  | Some _, Some officeId =>
      match required_string (body_title body),
            required_string (body_description body),
            required_string (body_location body) with
      | Some title, Some description, Some location =>
          let complaint :=
            new_Complaint (user_id req_user) title description officeId
              COMPLAINT_STAGES.STAKEHOLDER_FIRST
              COMPLAINT_HANDLERS.STAKEHOLDER_OFFICE
              COMPLAINT_STATUS.PENDING location (files body) None None now in
          let complaint :=
            set_due stakeholderFirstResponseDue
              (Some (now + ESCALATION_TIMEFRAMES.STAKEHOLDER_RESPONSE)%Z)
              complaint in
          let '(st, complaint_id, complaint) :=
            Complaint_insert complaint now st in
          let officePerformance :=
            OfficePerformance_findOrNew officeId
              COMPLAINT_HANDLERS.STAKEHOLDER_OFFICE st in
          let officePerformance := count_complaint now officePerformance in
          let st :=
            OfficePerformance_save officeId
              COMPLAINT_HANDLERS.STAKEHOLDER_OFFICE officePerformance st in
          (st, Json 201 "Complaint submitted successfully"
                 (Some (complaint_id, complaint)))
      | _, _, _ => (st, Caught) (* [complaint.save()] throws *)
      end
  | _, _ =>
      (st, Json 404 "Stakeholder office not found or not approved" None)
  end.

Definition submit
    (st : State) (req_user : ReqUser) (body : SubmitBody) (now : Z)
    : State * Reply :=
  if negb (bool_decide (user_role req_user = USER_ROLES.CITIZEN))
  then (st, Json 403 "Only citizens can submit complaints" None)
  else
  match (if bool_decide (isSecondStage body = Some "true")
         then originalComplaintId body else None) with
  | Some originalComplaintId =>
      match complaints st !! originalComplaintId with
      | Some originalComplaint =>
          if second_stage_filter req_user originalComplaint
          then submit_second_stage st req_user body originalComplaintId
                 originalComplaint now
          else (st, Json 404
                  "Original complaint not found or not eligible for second stage. The complaint must have a response from the current handler."
                  None)
      | None =>
          (st, Json 404
             "Original complaint not found or not eligible for second stage. The complaint must have a response from the current handler."
             None)
      end
  | None => submit_first_stage st req_user body now
  end.

(** ** [POST /:id/respond] *)

Definition respond
    (st : State) (req_user : ReqUser) (id : nat)
    (body_response body_internalComment : option string) (now : Z)
    : State * Reply :=
  if negb (bool_decide
             (user_role req_user
              ∈ [USER_ROLES.STAKEHOLDER_OFFICE;
                 USER_ROLES.WEREDA_ANTI_CORRUPTION;
                 USER_ROLES.KIFLEKETEMA_ANTI_CORRUPTION;
                 USER_ROLES.KENTIBA_BIRO]))
  then (st, Json 403 "Not authorized to respond to complaints" None)
  else
  match complaints st !! id with
  | None => (st, Json 404 "Complaint not found" None)
  | Some complaint =>
      let isAuthorized :=
        if bool_decide (user_role req_user = USER_ROLES.STAKEHOLDER_OFFICE)
           && bool_decide (currentHandler complaint
                           = COMPLAINT_HANDLERS.STAKEHOLDER_OFFICE)
           && bool_decide (stakeholderOffice complaint = user_id req_user)
        then true
        else if bool_decide
                  (user_role req_user = USER_ROLES.WEREDA_ANTI_CORRUPTION)
                && bool_decide
                     (currentHandler complaint
                      = COMPLAINT_HANDLERS.WEREDA_ANTI_CORRUPTION)
        then true
        else if bool_decide
                  (user_role req_user
                   = USER_ROLES.KIFLEKETEMA_ANTI_CORRUPTION)
                && bool_decide
                     (currentHandler complaint
                      = COMPLAINT_HANDLERS.KIFLEKETEMA_ANTI_CORRUPTION)
        then true
        else if bool_decide (user_role req_user = USER_ROLES.KENTIBA_BIRO)
                && bool_decide
                     (currentHandler complaint
                      = COMPLAINT_HANDLERS.KENTIBA_BIRO)
        then true
        else false in
      if negb isAuthorized
      then (st, Json 403 "Not authorized to respond to this complaint" None)
      else
        let complaint :=
          push_response
            {| responder := user_id req_user;
               responderRole := currentHandler complaint;
               response := body_response;
               response_status := COMPLAINT_STATUS.IN_PROGRESS;
               internalComment := body_internalComment;
               createdAt := now |}
            complaint in
        let complaint := set_status COMPLAINT_STATUS.IN_PROGRESS complaint in
        let complaint := set_updatedAt now complaint in
        match Complaint_save id complaint [] now st with
        | Some (st, complaint) =>
            (st, Json 200 "Response submitted successfully"
                   (Some (id, complaint)))
        | None => (st, Caught)
        end
  end.

(** ** [POST /:id/accept] *)

(** The elapsed time in days, [(resolvedAt - submittedAt) /
    (1000 * 60 * 60 * 24)]. *)
Definition resolutionTime (submittedAt resolvedAt : Z) : Q :=
  (inject_Z (resolvedAt - submittedAt) / inject_Z (1000 * 60 * 60 * 24))%Q.

(** [resolvedComplaints += 1] and the update of the average. *)
Definition record_resolution
    (resolutionTime : Q) (now : Z) (p : OfficePerformance)
    : OfficePerformance :=
  let resolved := (resolvedComplaints p + 1)%Z in
  {| totalComplaints := totalComplaints p;
     resolvedComplaints := resolved;
     escalatedComplaints := escalatedComplaints p;
     averageResolutionTime :=
       if Qeq_bool (averageResolutionTime p) 0
       then resolutionTime
       else ((averageResolutionTime p * inject_Z (resolved - 1)
              + resolutionTime) / inject_Z resolved)%Q;
     failureRecords := failureRecords p;
     performance_updatedAt := Some now |}.

Definition accept
    (st : State) (req_user : ReqUser) (id : nat) (now : Z) : State * Reply :=
  if negb (bool_decide (user_role req_user = USER_ROLES.CITIZEN))
  then (st, Json 403 "Only citizens can accept responses" None)
  else
  match complaints st !! id with
  | None => (st, Json 404 "Complaint not found" None)
  | Some complaint =>
  if negb (bool_decide (user complaint = user_id req_user))
  then (st, Json 403 "Not authorized" None)
  else
  match last (responses complaint) with
  | None => (st, Json 400 "Cannot accept a complaint with no responses" None)
  | Some latestResponse =>
      let complaint := set_status COMPLAINT_STATUS.RESOLVED complaint in
      let complaint :=
        set_resolution
          {| resolvedBy := responder latestResponse;
             resolverRole := responderRole latestResponse;
             resolution_text := response latestResponse;
             resolvedAt := now |}
          complaint in
      let complaint := set_updatedAt now complaint in
      match Complaint_save id complaint [] now st with
      | None => (st, Caught)
      | Some (st, complaint) =>
          let officeId := responder latestResponse in
          let officeRole := responderRole latestResponse in
          let officePerformance :=
            OfficePerformance_findOrNew officeId officeRole st in
          let officePerformance :=
            record_resolution
              (resolutionTime (submittedAt complaint) now) now
              officePerformance in
          let st :=
            OfficePerformance_save officeId officeRole officePerformance st in
          (st, Json 200 "Response accepted and complaint resolved"
                 (Some (id, complaint)))
      end
  end
  end.

(** ** Sequences of requests *)

Inductive Request :=
| Submit (req_user : ReqUser) (body : SubmitBody) (now : Z)
| Escalate (req_user : ReqUser) (id : nat) (reason : option string) (now : Z)
| Respond (req_user : ReqUser) (id : nat)
    (response internalComment : option string) (now : Z)
| Accept (req_user : ReqUser) (id : nat) (now : Z).

Definition serve (st : State) (r : Request) : State * Reply :=
  match r with
  | Submit req_user body now => submit st req_user body now
  | Escalate req_user id reason now => escalate st req_user id reason now
  | Respond req_user id response internalComment now =>
      respond st req_user id response internalComment now
  | Accept req_user id now => accept st req_user id now
  end.

(** The store after a sequence of requests. *)
Definition run (st : State) (rs : list Request) : State :=
  fold_left (fun st r => fst (serve st r)) rs st.

(** A deployment starts from its registered users and empty collections. *)
Definition initial (us : list User) : State :=
  {| users := us; complaints := ∅; performances := ∅ |}.

Definition reachable (st : State) : Prop :=
  ∃ us rs, st = run (initial us) rs.

(** ** The vocabulary of the specification *)

(** The fixed order of the seven stages. *)
Definition stage_order : list Stage :=
  [COMPLAINT_STAGES.STAKEHOLDER_FIRST; COMPLAINT_STAGES.STAKEHOLDER_SECOND;
   COMPLAINT_STAGES.WEREDA_FIRST; COMPLAINT_STAGES.WEREDA_SECOND;
   COMPLAINT_STAGES.KIFLEKETEMA_FIRST; COMPLAINT_STAGES.KIFLEKETEMA_SECOND;
   COMPLAINT_STAGES.KENTIBA].

(** The position of a stage in [stage_order]. *)
Definition stage_index (s : Stage) : nat :=
  match s with
  | COMPLAINT_STAGES.STAKEHOLDER_FIRST => 0
  | COMPLAINT_STAGES.STAKEHOLDER_SECOND => 1
  | COMPLAINT_STAGES.WEREDA_FIRST => 2
  | COMPLAINT_STAGES.WEREDA_SECOND => 3
  | COMPLAINT_STAGES.KIFLEKETEMA_FIRST => 4
  | COMPLAINT_STAGES.KIFLEKETEMA_SECOND => 5
  | COMPLAINT_STAGES.KENTIBA => 6
  end.

(** The response-due path of a stage; the final stage has none. *)
Definition stage_due_field (s : Stage) : option DueField :=
  match s with
  | COMPLAINT_STAGES.STAKEHOLDER_FIRST => Some stakeholderFirstResponseDue
  | COMPLAINT_STAGES.STAKEHOLDER_SECOND => Some stakeholderSecondResponseDue
  | COMPLAINT_STAGES.WEREDA_FIRST => Some weredaFirstResponseDue
  | COMPLAINT_STAGES.WEREDA_SECOND => Some weredaSecondResponseDue
  | COMPLAINT_STAGES.KIFLEKETEMA_FIRST => Some kifleketemaFirstResponseDue
  | COMPLAINT_STAGES.KIFLEKETEMA_SECOND => Some kifleketemaSecondResponseDue
  | COMPLAINT_STAGES.KENTIBA => None
  end.

(** The recorded response-due timestamp of the complaint's current stage. *)
Definition stage_due (c : Complaint) : option Z :=
  match stage_due_field (currentStage c) with
  | Some f => get_due f c
  | None => None
  end.

(** The handler that owns a stage. *)
Definition stage_handler (s : Stage) : Handler :=
  match s with
  | COMPLAINT_STAGES.STAKEHOLDER_FIRST
  | COMPLAINT_STAGES.STAKEHOLDER_SECOND =>
      COMPLAINT_HANDLERS.STAKEHOLDER_OFFICE
  | COMPLAINT_STAGES.WEREDA_FIRST
  | COMPLAINT_STAGES.WEREDA_SECOND =>
      COMPLAINT_HANDLERS.WEREDA_ANTI_CORRUPTION
  | COMPLAINT_STAGES.KIFLEKETEMA_FIRST
  | COMPLAINT_STAGES.KIFLEKETEMA_SECOND =>
      COMPLAINT_HANDLERS.KIFLEKETEMA_ANTI_CORRUPTION
  | COMPLAINT_STAGES.KENTIBA => COMPLAINT_HANDLERS.KENTIBA_BIRO
  end.

(** The escalation timeframe of a handler's role, in days. *)
Definition timeframe_days (h : Handler) : option Z :=
  match h with
  | COMPLAINT_HANDLERS.STAKEHOLDER_OFFICE => Some 3%Z
  | COMPLAINT_HANDLERS.WEREDA_ANTI_CORRUPTION => Some 5%Z
  | COMPLAINT_HANDLERS.KIFLEKETEMA_ANTI_CORRUPTION => Some 7%Z
  | COMPLAINT_HANDLERS.KENTIBA_BIRO => None
  end.

Definition day_ms : Z := 24 * 60 * 60 * 1000.

(** A reply with a 2xx status. *)
Definition succeeded (r : Reply) : bool :=
  match r with
  | Json code _ _ => bool_decide (200 ≤ code < 300)%nat
  | Caught => false
  end.

(** The stage an escalation leads to; none from the final stage. *)
Definition next_stage (s : Stage) : option Stage :=
  match s with
  | COMPLAINT_STAGES.STAKEHOLDER_FIRST =>
      Some COMPLAINT_STAGES.STAKEHOLDER_SECOND
  | COMPLAINT_STAGES.STAKEHOLDER_SECOND => Some COMPLAINT_STAGES.WEREDA_FIRST
  | COMPLAINT_STAGES.WEREDA_FIRST => Some COMPLAINT_STAGES.WEREDA_SECOND
  | COMPLAINT_STAGES.WEREDA_SECOND => Some COMPLAINT_STAGES.KIFLEKETEMA_FIRST
  | COMPLAINT_STAGES.KIFLEKETEMA_FIRST =>
      Some COMPLAINT_STAGES.KIFLEKETEMA_SECOND
  | COMPLAINT_STAGES.KIFLEKETEMA_SECOND => Some COMPLAINT_STAGES.KENTIBA
  | COMPLAINT_STAGES.KENTIBA => None
  end.

(** A transition crosses a handler boundary when the two stages belong to
    different handlers. *)
Definition crosses_handler (s s' : Stage) : bool :=
  negb (bool_decide (stage_handler s = stage_handler s')).

(** The eligibility rule in the words of the specification: the current
    time has passed the stage's response-due timestamp, or the number of
    recorded responses exceeds the index of the stage. *)
Definition eligible (c : Complaint) (now : Z) : bool :=
  date_gt now (stage_due c)
  || (stage_index (currentStage c) <? length (responses c))%nat.

(** A request made by the citizen who owns the stored complaint. *)
Definition owner_request (st : State) (u : ReqUser) (id : nat) (c : Complaint)
    : Prop :=
  user_role u = USER_ROLES.CITIZEN
  ∧ complaints st !! id = Some c
  ∧ user c = user_id u.

(** The document after an escalation that entered [e] in the history. *)
Definition escalated_doc
    (c : Complaint) (now : Z) (s' : Stage) (h' : Handler)
    (f : option DueField) (e : Escalation) : Complaint :=
  pre_save false now (push_escalation e (escalate_update c now s' h' f)).

(** Every complaint of [m] is still in [m'], at the same or a later
    stage. *)
Definition advances (m m' : gmap nat Complaint) : Prop :=
  ∀ id c,
    m !! id = Some c →
    ∃ c', m' !! id = Some c'
          ∧ (stage_index (currentStage c)
             ≤ stage_index (currentStage c'))%nat.

(** In every stored complaint the handler is the one that owns the
    stage. *)
Definition coherent (m : gmap nat Complaint) : Prop :=
  ∀ id c, m !! id = Some c → currentHandler c = stage_handler (currentStage c).

(** The preconditions of a second stage submission, in the words of the
    specification. *)
Definition second_stage_preconditions (u : ReqUser) (orig : Complaint)
    : Prop :=
  user orig = user_id u
  ∧ (currentStage orig = COMPLAINT_STAGES.STAKEHOLDER_FIRST
     ∨ currentStage orig = COMPLAINT_STAGES.WEREDA_FIRST)
  ∧ status orig = COMPLAINT_STATUS.IN_PROGRESS
  ∧ (1 ≤ length (responses orig))%nat.

(** The body carries the paths the schema requires of a new complaint. *)
Definition required_fields (body : SubmitBody) : Prop :=
  (∃ s, body_title body = Some s ∧ s ≠ "")
  ∧ (∃ s, body_description body = Some s ∧ s ≠ "")
  ∧ (∃ s, body_location body = Some s ∧ s ≠ "")
  ∧ is_Some (stakeholderOfficeId body).

(** The document the original becomes. *)
Definition superseded_doc
    (orig : Complaint) (new_id : nat) (s' : Stage) (e : Escalation) (now : Z)
    : Complaint :=
  pre_save false now
    (push_escalation e
       (set_status COMPLAINT_STATUS.ESCALATED
          (set_currentStage s' (set_secondStageComplaint new_id orig)))).

(** ** The read routes *)

(** The values of [COMPLAINT_STATUS]. *)
Definition status_value (s : Status) : string :=
  match s with
  | COMPLAINT_STATUS.PENDING => "pending"
  | COMPLAINT_STATUS.IN_PROGRESS => "in_progress"
  | COMPLAINT_STATUS.RESOLVED => "resolved"
  | COMPLAINT_STATUS.ESCALATED => "escalated"
  end.

(** The filter objects the routes hand to [countDocuments] and [find]: a
    path that is absent from the object is [None]. *)
Record Query := {
  query_user : option nat;
  query_stakeholderOffice : option nat;
  query_currentHandler : option Handler;
  query_status : option string
}.

Definition empty_query : Query :=
  {| query_user := None; query_stakeholderOffice := None;
     query_currentHandler := None; query_status := None |}.

(** [{ ...query, status }] *)
Definition with_status (s : string) (q : Query) : Query :=
  {| query_user := query_user q;
     query_stakeholderOffice := query_stakeholderOffice q;
     query_currentHandler := query_currentHandler q;
     query_status := Some s |}.

(** A document matches a filter when it agrees with every path of it. *)
Definition matches (q : Query) (c : Complaint) : bool :=
  match query_user q with
  | Some i => bool_decide (user c = i)
  | None => true
  end
  && match query_stakeholderOffice q with
     | Some i => bool_decide (stakeholderOffice c = i)
     | None => true
     end
  && match query_currentHandler q with
     | Some h => bool_decide (currentHandler c = h)
     | None => true
     end
  && match query_status q with
     | Some s => bool_decide (status_value (status c) = s)
     | None => true
     end.

(** [Complaint.countDocuments(query)] *)
Definition Complaint_countDocuments (q : Query) (st : State) : nat :=
  length (filter (fun c => matches q c = true)
            (map_to_list (complaints st)).*2).

(** What [GET /dashboard/stats] sends. *)
Inductive StatsReply :=
| Stats (total pending inProgress resolved escalated : nat)
| StatsRefused (code : nat) (message : string).

(** [GET /dashboard/stats] *)
Definition dashboard_stats (st : State) (req_user : ReqUser) : StatsReply :=
  if bool_decide (user_role req_user = USER_ROLES.CITIZEN)
  then StatsRefused 403 "Not authorized"
  else
    let query :=
      if bool_decide (user_role req_user = USER_ROLES.STAKEHOLDER_OFFICE)
      then {| query_user := None;
              query_stakeholderOffice := Some (user_id req_user);
              query_currentHandler := None; query_status := None |}
      else if bool_decide
                (user_role req_user = USER_ROLES.WEREDA_ANTI_CORRUPTION)
      then {| query_user := None; query_stakeholderOffice := None;
              query_currentHandler :=
                Some COMPLAINT_HANDLERS.WEREDA_ANTI_CORRUPTION;
              query_status := None |}
      else if bool_decide
                (user_role req_user
                 = USER_ROLES.KIFLEKETEMA_ANTI_CORRUPTION)
      then {| query_user := None; query_stakeholderOffice := None;
              query_currentHandler :=
                Some COMPLAINT_HANDLERS.KIFLEKETEMA_ANTI_CORRUPTION;
              query_status := None |}
      else empty_query in
    Stats
      (Complaint_countDocuments query st)
      (Complaint_countDocuments
         (with_status (status_value COMPLAINT_STATUS.PENDING) query) st)
      (Complaint_countDocuments
         (with_status (status_value COMPLAINT_STATUS.IN_PROGRESS) query) st)
      (Complaint_countDocuments
         (with_status (status_value COMPLAINT_STATUS.RESOLVED) query) st)
      (Complaint_countDocuments
         (with_status (status_value COMPLAINT_STATUS.ESCALATED) query) st).

(** The [query] of [GET /]: the filter by the role of the requester, then
    the filter by [req.query.status] when it is given and is not "all".
    (The page of documents the route goes on to select is not modelled.) *)
Definition list_query (req_user : ReqUser) (req_status : option string)
    : Query :=
  let query :=
    if bool_decide (user_role req_user = USER_ROLES.CITIZEN)
    then {| query_user := Some (user_id req_user);
            query_stakeholderOffice := None;
            query_currentHandler := None; query_status := None |}
    else if bool_decide (user_role req_user = USER_ROLES.STAKEHOLDER_OFFICE)
    then {| query_user := None;
            query_stakeholderOffice := Some (user_id req_user);
            query_currentHandler := None; query_status := None |}
    else if bool_decide
              (user_role req_user = USER_ROLES.WEREDA_ANTI_CORRUPTION)
    then {| query_user := None; query_stakeholderOffice := None;
            query_currentHandler :=
              Some COMPLAINT_HANDLERS.WEREDA_ANTI_CORRUPTION;
            query_status := None |}
    else if bool_decide
              (user_role req_user = USER_ROLES.KIFLEKETEMA_ANTI_CORRUPTION)
    then {| query_user := None; query_stakeholderOffice := None;
            query_currentHandler :=
              Some COMPLAINT_HANDLERS.KIFLEKETEMA_ANTI_CORRUPTION;
            query_status := None |}
    else empty_query in
  match req_status with
  | Some s =>
      if bool_decide (s = "") || bool_decide (s = "all")
      then query else with_status s query
  | None => query
  end.

(** [.populate(path)] of a reference to a user: the referenced document,
    [None] ([null]) when there is none. *)
Definition populate (ref : nat) (st : State) : option User :=
  List.find (fun usr => bool_decide (uid usr = ref)) (users st).

(** What [GET /:id] sends. *)
Inductive ViewReply :=
| Shown (c : Complaint)
| ViewRefused (code : nat) (message : string)
| ViewCaught.

(** [GET /:id].  The first two tests of the permission chain read [_id] of
    the populated [user] and [stakeholderOffice]; on a reference without a
    document that read throws and the [catch] answers 500.  The reply
    carries the document; the display fields populated into it are not
    modelled. *)
Definition view (st : State) (req_user : ReqUser) (id : nat) : ViewReply :=
  match complaints st !! id with
  | None => ViewRefused 404 "Complaint not found"
  | Some complaint =>
      let deny := ViewRefused 403 "Not authorized to view this complaint" in
      let rest :=
        if bool_decide
             (user_role req_user = USER_ROLES.WEREDA_ANTI_CORRUPTION)
           && bool_decide
                (currentStage complaint
                 ∈ [COMPLAINT_STAGES.WEREDA_FIRST;
                    COMPLAINT_STAGES.WEREDA_SECOND])
        then Shown complaint
        else if bool_decide
                  (user_role req_user
                   = USER_ROLES.KIFLEKETEMA_ANTI_CORRUPTION)
                && bool_decide
                     (currentStage complaint
                      ∈ [COMPLAINT_STAGES.KIFLEKETEMA_FIRST;
                         COMPLAINT_STAGES.KIFLEKETEMA_SECOND])
        then Shown complaint
        else if bool_decide (user_role req_user = USER_ROLES.KENTIBA_BIRO)
        then Shown complaint
        else deny in
      let second :=
        if bool_decide (user_role req_user = USER_ROLES.STAKEHOLDER_OFFICE)
        then match populate (stakeholderOffice complaint) st with
             | None => ViewCaught
             | Some stakeholderOffice =>
                 if bool_decide (uid stakeholderOffice = user_id req_user)
                 then Shown complaint else rest
             end
        else rest in
      if bool_decide (user_role req_user = USER_ROLES.CITIZEN)
      then match populate (user complaint) st with
           | None => ViewCaught
           | Some user =>
               if bool_decide (uid user = user_id req_user)
               then Shown complaint else second
           end
      else second
  end.

(** ** Further vocabulary *)

(** The handler a role acts as; citizens handle nothing. *)
Definition handler_of_role (r : Role) : option Handler :=
  match r with
  | USER_ROLES.CITIZEN => None
  | USER_ROLES.STAKEHOLDER_OFFICE =>
      Some COMPLAINT_HANDLERS.STAKEHOLDER_OFFICE
  | USER_ROLES.WEREDA_ANTI_CORRUPTION =>
      Some COMPLAINT_HANDLERS.WEREDA_ANTI_CORRUPTION
  | USER_ROLES.KIFLEKETEMA_ANTI_CORRUPTION =>
      Some COMPLAINT_HANDLERS.KIFLEKETEMA_ANTI_CORRUPTION
  | USER_ROLES.KENTIBA_BIRO => Some COMPLAINT_HANDLERS.KENTIBA_BIRO
  end.

(** The requester holds the role of the complaint's current handler and,
    when that is a stakeholder office, is the office the complaint is
    directed to. *)
Definition may_respond (u : ReqUser) (c : Complaint) : Prop :=
  handler_of_role (user_role u) = Some (currentHandler c)
  ∧ (currentHandler c = COMPLAINT_HANDLERS.STAKEHOLDER_OFFICE →
     stakeholderOffice c = user_id u).

(** The request is not a second stage submission. *)
Definition first_stage_request (body : SubmitBody) : Prop :=
  isSecondStage body ≠ Some "true" ∨ originalComplaintId body = None.




(** The request asks for a response to complaint [id]. *)
Definition responds_to (id : nat) (r : Request) : bool :=
  match r with
  | Respond _ id' _ _ _ => bool_decide (id' = id)
  | _ => false
  end.



(** What no route changes in a stored complaint, and what only grows. *)
Definition keeps (c c' : Complaint) : Prop :=
  user c' = user c
  ∧ title c' = title c
  ∧ description c' = description c
  ∧ stakeholderOffice c' = stakeholderOffice c
  ∧ location c' = location c
  ∧ attachments c' = attachments c
  ∧ submittedAt c' = submittedAt c
  ∧ additionalDetails c' = additionalDetails c
  ∧ relatedComplaint c' = relatedComplaint c
  ∧ responses c `prefix_of` responses c'
  ∧ escalationHistory c `prefix_of` escalationHistory c'
  ∧ (is_Some (resolution c) → is_Some (resolution c'))
  ∧ (is_Some (secondStageComplaint c) → is_Some (secondStageComplaint c')).

(** An office performance record whose counters did not decrease and
    whose failure records were only appended to. *)
Definition grows (p p' : OfficePerformance) : Prop :=
  (totalComplaints p ≤ totalComplaints p')%Z
  ∧ (resolvedComplaints p ≤ resolvedComplaints p')%Z
  ∧ (escalatedComplaints p ≤ escalatedComplaints p')%Z
  ∧ failureRecords p `prefix_of` failureRecords p'.

(** Every entry of [m] is still in [m'], related by [R]. *)
Definition preserved `{Countable K} {A} (R : A → A → Prop)
    (m m' : gmap K A) : Prop :=
  ∀ k a, m !! k = Some a → ∃ a', m' !! k = Some a' ∧ R a a'.

(** What the status of a stored complaint tells about it. *)
Definition status_sound (c : Complaint) : Prop :=
  match status c with
  | COMPLAINT_STATUS.PENDING => True
  | COMPLAINT_STATUS.IN_PROGRESS => responses c ≠ []
  | COMPLAINT_STATUS.RESOLVED =>
      responses c ≠ [] ∧ is_Some (resolution c)
  | COMPLAINT_STATUS.ESCALATED =>
      responses c ≠ [] ∧ is_Some (secondStageComplaint c)
  end.

(** The links between an original and its second stage complaint point
    at stored complaints of the same citizen, and the one set on an
    original is answered by the [relatedComplaint] of the complaint it
    names. *)
Definition links_sound (m : gmap nat Complaint) : Prop :=
  ∀ id c,
    m !! id = Some c →
    (∀ o, relatedComplaint c = Some o →
          ∃ orig, m !! o = Some orig ∧ user orig = user c)
    ∧ (∀ n, secondStageComplaint c = Some n →
            ∃ new, m !! n = Some new
                   ∧ relatedComplaint new = Some id).

(** The stage a due path belongs to. *)
Definition due_field_stage (f : DueField) : Stage :=
  match f with
  | stakeholderFirstResponseDue => COMPLAINT_STAGES.STAKEHOLDER_FIRST
  | stakeholderSecondResponseDue => COMPLAINT_STAGES.STAKEHOLDER_SECOND
  | weredaFirstResponseDue => COMPLAINT_STAGES.WEREDA_FIRST
  | weredaSecondResponseDue => COMPLAINT_STAGES.WEREDA_SECOND
  | kifleketemaFirstResponseDue => COMPLAINT_STAGES.KIFLEKETEMA_FIRST
  | kifleketemaSecondResponseDue => COMPLAINT_STAGES.KIFLEKETEMA_SECOND
  end.

(** No due path of a stage the complaint has not reached is set. *)
Definition later_dues_unset (c : Complaint) : Prop :=
  ∀ f,
    (stage_index (currentStage c) < stage_index (due_field_stage f))%nat →
    get_due f c = None.

(** *** How the routes change the complaints

    The four ways a route rewrites a stored document, and the two
    documents a submission creates. *)

Definition responded_doc (u : ReqUser) (body_response
    body_internalComment : option string) (now : Z) (c : Complaint)
    : Complaint :=
  pre_save false now
    (set_updatedAt now
       (set_status COMPLAINT_STATUS.IN_PROGRESS
          (push_response
             {| responder := user_id u;
                responderRole := currentHandler c;
                response := body_response;
                response_status := COMPLAINT_STATUS.IN_PROGRESS;
                internalComment := body_internalComment;
                createdAt := now |}
             c))).

Definition accepted_doc (latestResponse : Response) (now : Z)
    (c : Complaint) : Complaint :=
  pre_save false now
    (set_updatedAt now
       (set_resolution
          {| resolvedBy := responder latestResponse;
             resolverRole := responderRole latestResponse;
             resolution_text := response latestResponse;
             resolvedAt := now |}
          (set_status COMPLAINT_STATUS.RESOLVED c))).

Definition first_stage_doc (u : nat) (title description : string)
    (officeId : nat) (location : string) (files : list string) (now : Z)
    : Complaint :=
  pre_save true now
    (set_due stakeholderFirstResponseDue
       (Some (now + ESCALATION_TIMEFRAMES.STAKEHOLDER_RESPONSE)%Z)
       (new_Complaint u title description officeId
          COMPLAINT_STAGES.STAKEHOLDER_FIRST
          COMPLAINT_HANDLERS.STAKEHOLDER_OFFICE
          COMPLAINT_STATUS.PENDING location files None None now)).

Definition second_stage_doc (u : nat) (title description : string)
    (officeId : nat) (location : string) (files : list string)
    (details : string) (orig_id : nat) (s' : Stage) (now : Z) : Complaint :=
  pre_save true now
    (set_due
       (default stakeholderSecondResponseDue (stage_due_field s'))
       (next_dueDate (stage_handler s') now)
       (new_Complaint u title description officeId s' (stage_handler s')
          COMPLAINT_STATUS.PENDING location files (Some details)
          (Some orig_id) now)).

Inductive doc_change (c : Complaint) : Complaint → Prop :=
| doc_escalated now s' e :
    next_stage (currentStage c) = Some s' →
    valid_escalation e = true →
    doc_change c
      (escalated_doc c now s' (stage_handler s') (stage_due_field s') e)
| doc_responded u body_response body_internalComment now :
    doc_change c (responded_doc u body_response body_internalComment now c)
| doc_accepted latestResponse now :
    last (responses c) = Some latestResponse →
    doc_change c (accepted_doc latestResponse now c).

(** The complaints after a request, from the complaints before it. *)
Inductive store_change (m : gmap nat Complaint)
    : gmap nat Complaint → Prop :=
| store_unchanged : store_change m m
| store_updated id c c' :
    m !! id = Some c →
    doc_change c c' →
    store_change m (<[id := c']> m)
| store_first_stage u title description officeId location files now :
    store_change m
      (<[fresh (dom m) :=
           first_stage_doc u title description officeId location files now]>
         m)
| store_second_stage orig_id orig title description officeId location files
    details s' e now :
    m !! orig_id = Some orig →
    status orig = COMPLAINT_STATUS.IN_PROGRESS →
    responses orig ≠ [] →
    s' = COMPLAINT_STAGES.STAKEHOLDER_SECOND
    ∨ s' = COMPLAINT_STAGES.WEREDA_SECOND →
    next_stage (currentStage orig) = Some s' →
    valid_escalation e = true →
    store_change m
      (<[orig_id := superseded_doc orig (fresh (dom m)) s' e now]>
         (<[fresh (dom m) :=
              second_stage_doc (user orig) title description officeId
                location files details orig_id s' now]>
            m)).

(** ** A small deployment

    One citizen, one approved stakeholder office and one officer of each
    higher role; the stores below are reached from the empty collections
    by the listed requests. *)

Definition citizen : ReqUser :=
  {| user_id := 1; user_role := USER_ROLES.CITIZEN |}.
Definition office : ReqUser :=
  {| user_id := 2; user_role := USER_ROLES.STAKEHOLDER_OFFICE |}.
Definition kentiba_officer : ReqUser :=
  {| user_id := 5; user_role := USER_ROLES.KENTIBA_BIRO |}.

Definition office_only : list User :=
  [{| uid := 2; role := USER_ROLES.STAKEHOLDER_OFFICE; isApproved := true |}].

Definition all_officers : list User :=
  office_only
  ++ [{| uid := 3; role := USER_ROLES.WEREDA_ANTI_CORRUPTION;
         isApproved := true |};
      {| uid := 4; role := USER_ROLES.KIFLEKETEMA_ANTI_CORRUPTION;
         isApproved := true |};
      {| uid := 5; role := USER_ROLES.KENTIBA_BIRO; isApproved := true |}].

(** A first stage submission against office 2. *)
Definition first_stage_body : SubmitBody :=
  {| body_title := Some "Permit"; body_description := Some "No answer";
     stakeholderOfficeId := Some 2; body_location := Some "Arada";
     isSecondStage := None; originalComplaintId := None;
     body_additionalDetails := None; files := [] |}.

(** A second stage submission on complaint 0 naming the office [o]. *)
Definition second_stage_body (t : option string) (o : nat) : SubmitBody :=
  {| body_title := t; body_description := Some "Still no answer";
     stakeholderOfficeId := Some o; body_location := Some "Arada";
     isSecondStage := Some "true"; originalComplaintId := Some 0;
     body_additionalDetails := None; files := [] |}.

(** Complaint 0 submitted at time 0. *)
Definition submitted (us : list User) : State :=
  run (initial us) [Submit citizen first_stage_body 0].

(** The document of complaint 0 in [submitted us]. *)
Definition complaint_0 : Complaint :=
  {| user := 1; title := "Permit"; description := "No answer";
     stakeholderOffice := 2;
     currentStage := COMPLAINT_STAGES.STAKEHOLDER_FIRST;
     currentHandler := COMPLAINT_HANDLERS.STAKEHOLDER_OFFICE;
     status := COMPLAINT_STATUS.PENDING;
     location := "Arada"; attachments := []; submittedAt := 0;
     due_stakeholderFirst := Some (3 * day_ms)%Z;
     due_stakeholderSecond := None;
     due_weredaFirst := None; due_weredaSecond := None;
     due_kifleketemaFirst := None; due_kifleketemaSecond := None;
     escalationHistory := []; responses := []; resolution := None;
     updatedAt := 0; additionalDetails := None;
     relatedComplaint := None; secondStageComplaint := None |}.

(** The stored document [id] of one of the stores below. *)
Definition stored (st : State) (id : nat) : Complaint :=
  default complaint_0 (complaints st !! id).

(** ... then answered twice by the office. *)
Definition answered_twice (us : list User) : State :=
  run (submitted us)
    [Respond office 0 (Some "Noted") None 1000;
     Respond office 0 (Some "Pending") None 2000].

(** ... then taken to the second stage by the citizen: complaint 1 is the
    second stage complaint, complaint 0 the original. *)
Definition second_stage (us : list User) : State :=
  run (answered_twice us)
    [Submit citizen (second_stage_body (Some "Permit") 2) 3000].

(** Complaint 1 escalated, each time after its due date, up to
    wereda_second ... *)
Definition at_wereda_second (us : list User) : State :=
  run (second_stage us)
    [Escalate citizen 1 None (4 * day_ms);
     Escalate citizen 1 None (10 * day_ms)].

(** ... up to kifleketema_second ... *)
Definition at_kifleketema_second (us : list User) : State :=
  run (at_wereda_second us)
    [Escalate citizen 1 None (16 * day_ms);
     Escalate citizen 1 None (24 * day_ms)].

(** ... and to kentiba, where it is answered and the answer accepted. *)
Definition at_kentiba (us : list User) : State :=
  run (at_kifleketema_second us) [Escalate citizen 1 None (32 * day_ms)].

Definition resolved_at_kentiba (us : list User) : State :=
  run (at_kentiba us)
    [Respond kentiba_officer 1 (Some "Settled") None (33 * day_ms);
     Accept citizen 1 (34 * day_ms)].

(** Two complaints against office 2; the first is answered and accepted
    within the clock reading of its submission, the second is answered. *)
Definition one_resolved_at_once : State :=
  run (initial all_officers)
    [Submit citizen first_stage_body 0;
     Respond office 0 (Some "Done") None 0;
     Accept citizen 0 0;
     Submit citizen first_stage_body 0;
     Respond office 1 (Some "Done") None 1000].

(** Two complaints against office 2, a day or more between the requests:
    the first is answered and the answer accepted after one day, the
    second is submitted on day 2 and answered on day 3. *)
Definition one_resolved_requests : list Request :=
  [Submit citizen first_stage_body 0;
   Respond office 0 (Some "Done") None 1000;
   Accept citizen 0 day_ms;
   Submit citizen first_stage_body (2 * day_ms);
   Respond office 1 (Some "Done") None (3 * day_ms)].

(** The citizen registered beside the offices. *)
Definition registered : list User :=
  all_officers
  ++ [{| uid := 1; role := USER_ROLES.CITIZEN; isApproved := false |}].

(** The second stage complaint 1 answered by the office and the answer
    accepted. *)
Definition second_stage_resolved (us : list User) : State :=
  run (second_stage us)
    [Respond office 1 (Some "Fixed") None 5000;
     Accept citizen 1 6000].

(** The requests that lead to [second_stage us]. *)
Definition second_stage_requests : list Request :=
  [Submit citizen first_stage_body 0;
   Respond office 0 (Some "Noted") None 1000;
   Respond office 0 (Some "Pending") None 2000;
   Submit citizen (second_stage_body (Some "Permit") 2) 3000].

(** * Properties *)

Local Open Scope list_scope.

(** ** The eligibility test *)

Lemma stage_index_order s : stage_order !! stage_index s = Some s.
Proof. by destruct s. Qed.

(** The [switch] reads the due path of the current stage and compares the
    number of responses with the stage's index: on a complaint that is not
    resolved it is the transition table of the specification guarded by
    [eligible]. *)
Lemma escalation_switch_table (c : Complaint) (now : Z) :
  status c ≠ COMPLAINT_STATUS.RESOLVED →
  escalation_switch c now =
    match next_stage (currentStage c) with
    | None => AtFinalStage
    | Some s' =>
        if eligible c now
        then if crosses_handler (currentStage c) s'
             then CanEscalate s' (stage_handler s')
                    (Some (currentStage c)) (Some s') (stage_due_field s')
             else CanEscalate s' (stage_handler s')
                    None None (stage_due_field s')
        else CannotEscalate
    end.
Proof.
  intros Hst.
  assert (not_resolved c = true) as Hnr.
  { unfold not_resolved. by rewrite bool_decide_eq_false_2. }
  unfold escalation_switch, eligible, stage_due.
  rewrite Hnr.
  destruct (currentStage c); cbn; rewrite ?andb_true_r; reflexivity.
Qed.

Section OwnerRequest.
Context (st : State) (u : ReqUser) (id : nat) (c : Complaint).
Hypothesis Howner : owner_request st u id c.

(** The guards in front of the [switch] all pass for the owner of an
    unresolved complaint. *)
Lemma escalate_owner (reason : option string) (now : Z) :
  status c ≠ COMPLAINT_STATUS.RESOLVED →
  escalate st u id reason now =
    match escalation_switch c now with
    | AtFinalStage => (st, TerminalStageError)
    | CannotEscalate => (st, EscalationNotAllowedError)
    | CanEscalate s' h' fromStage toStage dueDateField =>
        escalate_apply st id reason now c s' h' fromStage toStage
          dueDateField
    end.
Proof.
  destruct Howner as (Hrole & Hc & Hu). intros Hst.
  unfold escalate. rewrite Hc.
  rewrite (bool_decide_eq_true_2 _ Hrole), (bool_decide_eq_true_2 _ Hu).
  by rewrite (bool_decide_eq_false_2 _ Hst).
Qed.

Lemma escalate_owner_resolved (reason : option string) (now : Z) :
  status c = COMPLAINT_STATUS.RESOLVED →
  escalate st u id reason now = (st, AlreadyResolvedError).
Proof.
  destruct Howner as (Hrole & Hc & Hu). intros Hst.
  unfold escalate. rewrite Hc.
  rewrite (bool_decide_eq_true_2 _ Hrole), (bool_decide_eq_true_2 _ Hu).
  by rewrite (bool_decide_eq_true_2 _ Hst).
Qed.
End OwnerRequest.

(** ** What an escalation writes *)

(** A request the route reports as done went through every guard: it
    came from the owner of an unresolved, eligible complaint below the
    final stage, and the reply is that of [escalate_apply] on the
    transition of the table. *)
Lemma escalate_success_inv st u id reason now st' r :
  escalate st u id reason now = (st', r) →
  succeeded r = true →
  ∃ c s',
    owner_request st u id c
    ∧ status c ≠ COMPLAINT_STATUS.RESOLVED
    ∧ next_stage (currentStage c) = Some s'
    ∧ eligible c now = true
    ∧ escalate_apply st id reason now c s' (stage_handler s')
        (if crosses_handler (currentStage c) s'
         then Some (currentStage c) else None)
        (if crosses_handler (currentStage c) s' then Some s' else None)
        (stage_due_field s') = (st', r).
Proof.
  unfold escalate. intros H Hr.
  destruct (bool_decide (user_role u = USER_ROLES.CITIZEN)) eqn:Hrole;
    cbn in H; [|by simplify_eq].
  destruct (complaints st !! id) as [c|] eqn:Hc; [|by simplify_eq].
  destruct (bool_decide (user c = user_id u)) eqn:Hu; cbn in H;
    [|by simplify_eq].
  destruct (bool_decide (status c = COMPLAINT_STATUS.RESOLVED)) eqn:Hst;
    [by simplify_eq|].
  apply bool_decide_eq_true_1 in Hrole, Hu.
  apply bool_decide_eq_false_1 in Hst.
  rewrite escalation_switch_table in H by done.
  destruct (next_stage (currentStage c)) as [s'|] eqn:Hn; [|by simplify_eq].
  destruct (eligible c now) eqn:He; [|by simplify_eq].
  exists c, s'. split_and!; try done.
  by destruct (crosses_handler (currentStage c) s').
Qed.

Lemma get_due_set_due f g d c :
  get_due g (set_due f d c) = if decide (f = g) then d else get_due g c.
Proof. by destruct g. Qed.

Lemma get_due_escalate_update g c now s' h' f :
  get_due g (escalate_update c now s' h' f) =
    match f with
    | Some f => if decide (f = g) then next_dueDate h' now else get_due g c
    | None => get_due g c
    end.
Proof.
  unfold escalate_update. destruct f as [f|].
  - rewrite get_due_set_due. case_decide; [done|]. by destruct g.
  - by destruct g.
Qed.

Lemma get_due_saved g e c now :
  get_due g (pre_save false now (push_escalation e c)) = get_due g c.
Proof. by destruct g. Qed.

Lemma escalated_doc_paths c now s' h' f e :
  let c' := escalated_doc c now s' h' f e in
  currentStage c' = s'
  ∧ currentHandler c' = h'
  ∧ status c' = COMPLAINT_STATUS.PENDING
  ∧ escalationHistory c' = escalationHistory c ++ [e]
  ∧ responses c' = responses c
  ∧ stakeholderOffice c' = stakeholderOffice c
  ∧ user c' = user c.
Proof. unfold escalated_doc, escalate_update. by destruct f. Qed.

Lemma failing_office_ext st c1 c2 s :
  stakeholderOffice c1 = stakeholderOffice c2 →
  failing_office st c1 s = failing_office st c2 s.
Proof. intros Heq. unfold failing_office. by rewrite Heq. Qed.

(** What [escalate_apply] has done when it reports the escalation done:
    one element was pushed on the history and passed the validators, the
    document was stored, and a failure was booked exactly when both
    [fromStage] and [toStage] were set and an office was found. *)
Lemma escalate_apply_done
    st id req_reason now c s' h' fromStage toStage f st' r :
  escalate_apply st id req_reason now c s' h' fromStage toStage f = (st', r) →
  succeeded r = true →
  ∃ e,
    let c' := escalated_doc c now s' h' f e in
    r = Json 200 "Complaint escalated successfully" (Some (id, c'))
    ∧ complaints st' = <[id := c']> (complaints st)
    ∧ users st' = users st
    ∧ to e = h'
    ∧ date e = now
    ∧ valid_escalation e = true
    ∧ match fromStage, toStage with
      | Some fromStage, Some toStage =>
          from e =
            (if bool_decide (h' = COMPLAINT_HANDLERS.WEREDA_ANTI_CORRUPTION)
             then COMPLAINT_HANDLERS.STAKEHOLDER_OFFICE
             else COMPLAINT_HANDLERS.WEREDA_ANTI_CORRUPTION)
          ∧ performances st' =
              match failing_office st c fromStage with
              | Some (officeId, officeRole) =>
                  <[(officeId, officeRole) :=
                      record_failure
                        {| complaint := id; escalatedFrom := fromStage;
                           escalatedTo := toStage;
                           failure_reason := reason e;
                           failure_date := now |}
                        now
                        (OfficePerformance_findOrNew officeId officeRole st)]>
                    (performances st)
              | None => performances st
              end
      | _, _ => from e = h' ∧ performances st' = performances st
      end.
Proof.
  unfold escalate_apply, Complaint_save. intros H Hr.
  assert (currentHandler (escalate_update c now s' h' f) = h') as Hh.
  { unfold escalate_update. by destruct f. }
  assert (∀ e, stakeholderOffice
                 (push_escalation e (escalate_update c now s' h' f))
               = stakeholderOffice c) as Ho.
  { intros e. unfold escalate_update. by destruct f. }
  destruct fromStage as [fromStage|], toStage as [toStage|];
    cbn [forallb] in H; rewrite andb_true_r in H;
    rewrite ?(failing_office_ext st _ c _ (Ho _)), Hh in H;
    match type of H with
    | context [valid_escalation ?e] =>
        destruct (valid_escalation e) eqn:Hv; [exists e|]
    end;
    try destruct (failing_office st c fromStage) as [[o ro]|];
    simplify_eq; split_and!; done.
Qed.

(** Every escalation the route reports as done, in one statement. *)
Lemma escalate_done st u id req_reason now st' r :
  escalate st u id req_reason now = (st', r) →
  succeeded r = true →
  ∃ c s' e,
    let c' :=
      escalated_doc c now s' (stage_handler s') (stage_due_field s') e in
    owner_request st u id c
    ∧ status c ≠ COMPLAINT_STATUS.RESOLVED
    ∧ next_stage (currentStage c) = Some s'
    ∧ eligible c now = true
    ∧ r = Json 200 "Complaint escalated successfully" (Some (id, c'))
    ∧ complaints st' = <[id := c']> (complaints st)
    ∧ users st' = users st
    ∧ to e = stage_handler s'
    ∧ valid_escalation e = true
    ∧ if crosses_handler (currentStage c) s'
      then from e =
             (if bool_decide (stage_handler s'
                              = COMPLAINT_HANDLERS.WEREDA_ANTI_CORRUPTION)
              then COMPLAINT_HANDLERS.STAKEHOLDER_OFFICE
              else COMPLAINT_HANDLERS.WEREDA_ANTI_CORRUPTION)
           ∧ performances st' =
               match failing_office st c (currentStage c) with
               | Some (officeId, officeRole) =>
                   <[(officeId, officeRole) :=
                       record_failure
                         {| complaint := id;
                            escalatedFrom := currentStage c;
                            escalatedTo := s';
                            failure_reason := reason e;
                            failure_date := now |}
                         now
                         (OfficePerformance_findOrNew officeId officeRole
                            st)]>
                     (performances st)
               | None => performances st
               end
      else from e = stage_handler s' ∧ performances st' = performances st.
Proof.
  intros H Hr.
  destruct (escalate_success_inv _ _ _ _ _ _ _ H Hr)
    as (c & s' & Ho & Hst & Hn & He & Ha).
  destruct (escalate_apply_done _ _ _ _ _ _ _ _ _ _ _ _ Ha Hr)
    as (e & Hr' & Hcs & Hus & Hto & _ & Hv & Hp).
  exists c, s', e. cbn zeta. split_and!; try done.
  by destruct (crosses_handler (currentStage c) s').
Qed.

(** The first-to-second escalation at the stakeholder office never passes
    the validators: its history element names [stakeholder_office] as
    [to]. *)
Lemma stakeholder_first_entry_invalid e :
  from e = COMPLAINT_HANDLERS.STAKEHOLDER_OFFICE →
  to e = COMPLAINT_HANDLERS.STAKEHOLDER_OFFICE →
  valid_escalation e = false.
Proof. unfold valid_escalation. by intros -> ->. Qed.

(** C8 -- On every successful escalation the response-due path of the new
    stage is set to the time of the escalation plus the timeframe of the
    new handler's role (3 days for the stakeholder office, 5 for wereda, 7
    for kifleketema) and the other due paths keep their values; when the
    new stage is kentiba no due path is written. *)
Theorem escalation_sets_next_due_date st u id req_reason now st' c c' :
  complaints st !! id = Some c →
  escalate st u id req_reason now =
    (st', Json 200 "Complaint escalated successfully" (Some (id, c'))) →
  match stage_due_field (currentStage c') with
  | Some f =>
      (∃ days, timeframe_days (currentHandler c') = Some days
               ∧ get_due f c' = Some (now + days * day_ms)%Z)
      ∧ ∀ g, g ≠ f → get_due g c' = get_due g c
  | None =>
      currentStage c' = COMPLAINT_STAGES.KENTIBA
      ∧ ∀ g, get_due g c' = get_due g c
  end.
Proof.
  intros Hc H.
  destruct (escalate_done _ _ _ _ _ _ _ H eq_refl)
    as (c0 & s' & e & Ho & _ & Hn & _ & Hr & _).
  destruct Ho as (_ & Hc0 & _). rewrite Hc in Hc0. simplify_eq.
  destruct (escalated_doc_paths c0 now s' (stage_handler s')
              (stage_due_field s') e) as (-> & -> & _).
  destruct (currentStage c0); cbn in Hn; simplify_eq; cbn.
  all: unfold escalated_doc; setoid_rewrite get_due_saved;
    setoid_rewrite get_due_escalate_update; cbn.
  all: try (split; [eexists; split; [done|]; by rewrite decide_True
                   |intros g Hg; by rewrite decide_False]).
  by split.
Qed.

(** The written due date is the table's for each of the six transitions,
    the three days of the stakeholder office included. *)
Lemma escalate_update_due_date c now s s' :
  next_stage s = Some s' →
  match stage_due_field s' with
  | Some f =>
      ∃ days, timeframe_days (stage_handler s') = Some days
              ∧ get_due f (escalate_update c now s' (stage_handler s')
                             (stage_due_field s'))
                = Some (now + days * day_ms)%Z
  | None => s' = COMPLAINT_STAGES.KENTIBA
  end.
Proof.
  intros Hn. destruct s; cbn in Hn; simplify_eq; cbn [stage_due_field];
    try done.
  all: eexists; split; [reflexivity|]; rewrite get_due_escalate_update;
    by rewrite decide_True.
Qed.

(** Past the first stage every element the route pushes passes the
    validators, so an eligible request of the owner is carried out. *)
Lemma escalate_apply_valid st id req_reason now c s s' :
  next_stage s = Some s' →
  s ≠ COMPLAINT_STAGES.STAKEHOLDER_FIRST →
  ∃ st' c',
    escalate_apply st id req_reason now c s' (stage_handler s')
      (if crosses_handler s s' then Some s else None)
      (if crosses_handler s s' then Some s' else None)
      (stage_due_field s')
    = (st', Json 200 "Complaint escalated successfully" (Some (id, c'))).
Proof.
  intros Hn Hs.
  destruct s; cbn in Hn; simplify_eq;
    unfold escalate_apply, Complaint_save; cbn;
    try case_bool_decide; cbn; eauto.
Qed.

Section Eligibility.
Context (st : State) (u : ReqUser) (id : nat) (c : Complaint).
Context (req_reason : option string) (now : Z).
Hypothesis Howner : owner_request st u id c.
Hypothesis Hunresolved : status c ≠ COMPLAINT_STATUS.RESOLVED.

(** The request is refused as not allowed exactly when the complaint is
    below the final stage and not eligible. *)
Lemma escalate_refused_iff :
  currentStage c ≠ COMPLAINT_STAGES.KENTIBA →
  escalate st u id req_reason now = (st, EscalationNotAllowedError)
  ↔ eligible c now = false.
Proof.
  intros Hk. rewrite (escalate_owner st u id c Howner) by done.
  rewrite escalation_switch_table by done.
  destruct (next_stage (currentStage c)) as [s'|] eqn:Hn;
    [|by destruct (currentStage c)].
  destruct (eligible c now) eqn:He; [|done].
  split; [|done]. intros H. exfalso. revert H.
  unfold escalate_apply, Complaint_save, EscalationNotAllowedError.
  destruct (crosses_handler (currentStage c) s');
    repeat case_match; intros; simplify_eq.
Qed.

(** Past the first stage the request succeeds exactly when the complaint
    is eligible. *)
Lemma escalate_succeeds_iff :
  currentStage c ≠ COMPLAINT_STAGES.STAKEHOLDER_FIRST →
  currentStage c ≠ COMPLAINT_STAGES.KENTIBA →
  (∃ st' c',
     escalate st u id req_reason now
     = (st', Json 200 "Complaint escalated successfully" (Some (id, c'))))
  ↔ eligible c now = true.
Proof.
  intros Hf Hk. split.
  - intros (st' & c' & H).
    destruct (escalate_done _ _ _ _ _ _ _ H eq_refl)
      as (c0 & s' & e & Ho & _ & _ & He & _).
    destruct Howner as (_ & Hc & _), Ho as (_ & Hc0 & _).
    rewrite Hc in Hc0. by simplify_eq.
  - intros He. rewrite (escalate_owner st u id c Howner) by done.
    rewrite escalation_switch_table by done.
    destruct (next_stage (currentStage c)) as [s'|] eqn:Hn;
      [|by destruct (currentStage c)].
    rewrite He.
    destruct (escalate_apply_valid st id req_reason now c _ _ Hn Hf)
      as (st' & c' & Ha).
    exists st', c'. by destruct (crosses_handler (currentStage c) s').
Qed.
End Eligibility.

(** ** The claims about eligibility *)

(** C1 -- The escalation of an unresolved complaint below the final stage
    is meant to succeed exactly when the complaint is eligible.  At
    stakeholder_first it does not: an eligible request of the owner passes
    the test, the element pushed on the history names stakeholder_office
    as [to], the save is rejected, and the route answers 500 with the
    store as it was.  ([escalate_refused_iff] and [escalate_succeeds_iff]
    are the claim at the other stages.) *)
Theorem escalate_at_first_stage_is_rejected
    st u id c req_reason now :
  owner_request st u id c →
  status c ≠ COMPLAINT_STATUS.RESOLVED →
  currentStage c = COMPLAINT_STAGES.STAKEHOLDER_FIRST →
  eligible c now = true →
  escalate st u id req_reason now = (st, Caught).
Proof.
  intros Ho Hst Hs He.
  rewrite (escalate_owner st u id c Ho) by done.
  rewrite escalation_switch_table by done.
  rewrite Hs. cbn [next_stage]. rewrite He.
  unfold escalate_apply, Complaint_save. cbn.
  reflexivity.
Qed.

Lemma escalate_at_first_stage_is_rejected_witness :
  owner_request (submitted all_officers) citizen 0 complaint_0
  ∧ status complaint_0 ≠ COMPLAINT_STATUS.RESOLVED
  ∧ currentStage complaint_0 = COMPLAINT_STAGES.STAKEHOLDER_FIRST
  ∧ eligible complaint_0 (4 * day_ms) = true
  ∧ escalate (submitted all_officers) citizen 0 None (4 * day_ms)
    = (submitted all_officers, Caught).
Proof.
  assert (owner_request (submitted all_officers) citizen 0 complaint_0)
    as Ho by (vm_compute; done).
  split_and!; [done|done|done|done|].
  apply (escalate_at_first_stage_is_rejected (submitted all_officers)
           citizen 0 complaint_0 None (4 * day_ms)%Z);
    [exact Ho|done|done|done].
Defined.

Section FinalStage.
Context (st : State) (u : ReqUser) (id : nat) (c : Complaint).
Context (req_reason : option string) (now : Z).

(** C7 -- A request of the owner to escalate a complaint at kentiba always
    fails and leaves the store as it was: with TerminalStageError when the
    complaint is not resolved, whatever its responses and due dates, and
    with AlreadyResolvedError when it is resolved. *)
Theorem escalate_at_kentiba_fails :
  owner_request st u id c →
  currentStage c = COMPLAINT_STAGES.KENTIBA →
  escalate st u id req_reason now =
    (st, if bool_decide (status c = COMPLAINT_STATUS.RESOLVED)
         then AlreadyResolvedError else TerminalStageError).
Proof.
  intros Ho Hs. case_bool_decide as Hst.
  - by apply (escalate_owner_resolved st u id c Ho).
  - rewrite (escalate_owner st u id c Ho) by done.
    rewrite escalation_switch_table by done. by rewrite Hs.
Qed.
End FinalStage.

Lemma escalate_at_kentiba_fails_witness :
  owner_request (at_kentiba all_officers) citizen 1
    (stored (at_kentiba all_officers) 1)
  ∧ currentStage (stored (at_kentiba all_officers) 1)
    = COMPLAINT_STAGES.KENTIBA
  ∧ escalate (at_kentiba all_officers) citizen 1 None (40 * day_ms)
    = (at_kentiba all_officers, TerminalStageError).
Proof.
  assert (owner_request (at_kentiba all_officers) citizen 1
            (stored (at_kentiba all_officers) 1))
    as Ho by (vm_compute; done).
  split_and!; [done|done|].
  exact (escalate_at_kentiba_fails (at_kentiba all_officers) citizen 1
           (stored (at_kentiba all_officers) 1) None (40 * day_ms)%Z
           Ho eq_refl).
Defined.

(** C7, as stated, fails on a resolved complaint at kentiba: the route
    tests the status before the stage and answers AlreadyResolvedError. *)
Lemma escalate_resolved_at_kentiba :
  currentStage (stored (resolved_at_kentiba all_officers) 1)
  = COMPLAINT_STAGES.KENTIBA
  ∧ owner_request (resolved_at_kentiba all_officers) citizen 1
      (stored (resolved_at_kentiba all_officers) 1)
  ∧ snd (escalate (resolved_at_kentiba all_officers) citizen 1 None
           (40 * day_ms))
    = AlreadyResolvedError
  ∧ AlreadyResolvedError ≠ TerminalStageError.
Proof. vm_compute. split_and!; done. Qed.

Section UnsetDueDate.
Context (st : State) (u : ReqUser) (id : nat) (c : Complaint).
Context (req_reason : option string) (now : Z).

(** C10 -- When the due path of the current stage is unset, the comparison
    with the clock is false instead of failing, so eligibility is the
    response-count rule alone: the request is refused as not allowed
    exactly when the responses do not exceed the index of the stage, and
    it can only succeed with more responses than that. *)
Theorem escalate_with_unset_due_date :
  owner_request st u id c →
  status c ≠ COMPLAINT_STATUS.RESOLVED →
  currentStage c ≠ COMPLAINT_STAGES.KENTIBA →
  stage_due c = None →
  date_gt now (stage_due c) = false
  ∧ eligible c now
    = (stage_index (currentStage c) <? length (responses c))%nat
  ∧ (escalate st u id req_reason now = (st, EscalationNotAllowedError)
     ↔ (length (responses c) ≤ stage_index (currentStage c))%nat)
  ∧ ∀ st' r,
      escalate st u id req_reason now = (st', r) →
      succeeded r = true →
      (stage_index (currentStage c) < length (responses c))%nat.
Proof.
  intros Ho Hst Hk Hd.
  assert (eligible c now
          = (stage_index (currentStage c) <? length (responses c))%nat)
    as He by (unfold eligible; by rewrite Hd).
  split_and!.
  - by rewrite Hd.
  - done.
  - rewrite (escalate_refused_iff st u id c req_reason now Ho Hst Hk), He.
    rewrite Nat.ltb_ge. done.
  - intros st' r H Hr.
    destruct (escalate_done _ _ _ _ _ _ _ H Hr)
      as (c0 & s' & e & Ho' & _ & _ & He' & _).
    destruct Ho as (_ & Hc & _), Ho' as (_ & Hc0 & _).
    rewrite Hc in Hc0. simplify_eq.
    rewrite He in He'. by apply Nat.ltb_lt.
Qed.
End UnsetDueDate.

Lemma escalate_with_unset_due_date_witness :
  let st := second_stage all_officers in
  let c := stored st 0 in
  let now := (400 * day_ms)%Z in
  owner_request st citizen 0 c
  ∧ status c ≠ COMPLAINT_STATUS.RESOLVED
  ∧ currentStage c ≠ COMPLAINT_STAGES.KENTIBA
  ∧ stage_due c = None
  ∧ date_gt now (stage_due c) = false
  ∧ eligible c now
    = (stage_index (currentStage c) <? length (responses c))%nat
  ∧ (escalate st citizen 0 None now = (st, EscalationNotAllowedError)
     ↔ (length (responses c) ≤ stage_index (currentStage c))%nat)
  ∧ ∀ st' r,
      escalate st citizen 0 None now = (st', r) →
      succeeded r = true →
      (stage_index (currentStage c) < length (responses c))%nat.
Proof.
  intros st c now.
  assert (owner_request st citizen 0 c) as Ho by (vm_compute; done).
  split_and!; [done|done|done|done|..];
    apply (escalate_with_unset_due_date st citizen 0 c None now);
    solve [exact Ho|done].
Defined.

(** ** The claims about what an escalation records *)

(** C2 -- Every successful escalation appends exactly one history element,
    whose [to] is the new handler.  When it crosses a handler boundary and
    an office is found to book the failure on (the complaint's stakeholder
    office, or the first user holding the wereda or kifleketema role),
    that office's record has [escalatedComplaints] raised by exactly 1 and
    exactly one failure record appended, and no other record changes; when
    no user holds the role no record changes.  When it stays with the same
    handler the element has [from] equal to [to] and no record changes. *)
Theorem escalation_history_and_failure st u id req_reason now st' c c' :
  complaints st !! id = Some c →
  escalate st u id req_reason now =
    (st', Json 200 "Complaint escalated successfully" (Some (id, c'))) →
  ∃ e,
    escalationHistory c' = escalationHistory c ++ [e]
    ∧ to e = currentHandler c'
    ∧ if crosses_handler (currentStage c) (currentStage c')
      then match failing_office st c (currentStage c) with
           | Some (officeId, officeRole) =>
               let p := OfficePerformance_findOrNew officeId officeRole st in
               ∃ p' f,
                 performances st'
                 = <[(officeId, officeRole) := p']> (performances st)
                 ∧ escalatedComplaints p' = (escalatedComplaints p + 1)%Z
                 ∧ failureRecords p' = failureRecords p ++ [f]
                 ∧ complaint f = id
                 ∧ escalatedFrom f = currentStage c
                 ∧ escalatedTo f = currentStage c'
                 ∧ totalComplaints p' = totalComplaints p
                 ∧ resolvedComplaints p' = resolvedComplaints p
           | None => performances st' = performances st
           end
      else from e = to e ∧ performances st' = performances st.
Proof.
  intros Hc H.
  destruct (escalate_done _ _ _ _ _ _ _ H eq_refl)
    as (c0 & s' & e & Ho & _ & Hn & _ & Hr & _ & _ & Hto & _ & Hp).
  destruct Ho as (_ & Hc0 & _). rewrite Hc in Hc0. simplify_eq.
  destruct (escalated_doc_paths c0 now s' (stage_handler s')
              (stage_due_field s') e) as (-> & -> & _ & -> & _).
  exists e. split_and!; [done|done|].
  destruct (crosses_handler (currentStage c0) s').
  - destruct Hp as [_ ->].
    destruct (failing_office st c0 (currentStage c0)) as [[o ro]|];
      [|done].
    eexists _, _. split; [reflexivity|]. by cbn.
  - destruct Hp as [-> ->]. by rewrite Hto.
Qed.

(** Where the two handlers of a transition of the table differ. *)
Lemma crosses_handler_cases s s' :
  next_stage s = Some s' →
  crosses_handler s s'
  = match s with
    | COMPLAINT_STAGES.STAKEHOLDER_SECOND
    | COMPLAINT_STAGES.WEREDA_SECOND
    | COMPLAINT_STAGES.KIFLEKETEMA_SECOND => true
    | _ => false
    end.
Proof. destruct s; cbn; intros; simplify_eq; by vm_compute. Qed.

(** The [from] recorded by the first two handler changes is the handler
    the complaint leaves. *)
Lemma escalation_from_recorded st u id req_reason now st' c c' :
  complaints st !! id = Some c →
  currentStage c = COMPLAINT_STAGES.STAKEHOLDER_SECOND
  ∨ currentStage c = COMPLAINT_STAGES.WEREDA_SECOND →
  escalate st u id req_reason now =
    (st', Json 200 "Complaint escalated successfully" (Some (id, c'))) →
  ∃ e,
    escalationHistory c' = escalationHistory c ++ [e]
    ∧ from e = stage_handler (currentStage c)
    ∧ to e = currentHandler c'.
Proof.
  intros Hc Hs H.
  destruct (escalate_done _ _ _ _ _ _ _ H eq_refl)
    as (c0 & s' & e & Ho & _ & Hn & _ & Hr & _ & _ & Hto & _ & Hp).
  destruct Ho as (_ & Hc0 & _). rewrite Hc in Hc0. simplify_eq.
  destruct (escalated_doc_paths c0 now s' (stage_handler s')
              (stage_due_field s') e) as (_ & -> & _ & -> & _).
  exists e. split_and!; [done| |done].
  destruct Hs as [Hs|Hs]; rewrite Hs in Hn, Hp |- *; cbn in Hn;
    simplify_eq; by destruct Hp as [-> _].
Qed.

(** C6 -- The history element of a handler change is meant to record the
    handler the complaint leaves.  For kifleketema_second to kentiba it
    does not: the recorded [from] is wereda_anti_corruption. *)
Theorem escalation_to_kentiba_records_wereda
    st u id req_reason now st' c c' :
  complaints st !! id = Some c →
  currentStage c = COMPLAINT_STAGES.KIFLEKETEMA_SECOND →
  escalate st u id req_reason now =
    (st', Json 200 "Complaint escalated successfully" (Some (id, c'))) →
  ∃ e,
    escalationHistory c' = escalationHistory c ++ [e]
    ∧ from e = COMPLAINT_HANDLERS.WEREDA_ANTI_CORRUPTION
    ∧ to e = COMPLAINT_HANDLERS.KENTIBA_BIRO
    ∧ currentHandler c' = COMPLAINT_HANDLERS.KENTIBA_BIRO.
Proof.
  intros Hc Hs H.
  destruct (escalate_done _ _ _ _ _ _ _ H eq_refl)
    as (c0 & s' & e & Ho & _ & Hn & _ & Hr & _ & _ & Hto & _ & Hp).
  destruct Ho as (_ & Hc0 & _). rewrite Hc in Hc0. simplify_eq.
  destruct (escalated_doc_paths c0 now s' (stage_handler s')
              (stage_due_field s') e) as (_ & -> & _ & -> & _).
  rewrite Hs in Hn, Hp. cbn in Hn. simplify_eq.
  exists e. split_and!; try done.
  by destruct Hp as [-> _].
Qed.

Lemma escalation_sets_next_due_date_witness :
  let st := second_stage all_officers in
  let now := (4 * day_ms)%Z in
  let st' := run st [Escalate citizen 1 None now] in
  let c := stored st 1 in
  let c' := stored st' 1 in
  complaints st !! 1 = Some c
  ∧ escalate st citizen 1 None now
    = (st', Json 200 "Complaint escalated successfully" (Some (1, c')))
  ∧ match stage_due_field (currentStage c') with
    | Some f =>
        (∃ days, timeframe_days (currentHandler c') = Some days
                 ∧ get_due f c' = Some (now + days * day_ms)%Z)
        ∧ ∀ g, g ≠ f → get_due g c' = get_due g c
    | None =>
        currentStage c' = COMPLAINT_STAGES.KENTIBA
        ∧ ∀ g, get_due g c' = get_due g c
    end.
Proof.
  intros st now st' c c'.
  assert (complaints st !! 1 = Some c) as Hc by (vm_compute; done).
  assert (escalate st citizen 1 None now
          = (st', Json 200 "Complaint escalated successfully"
                    (Some (1, c')))) as He by (vm_compute; done).
  split_and!; [done|done|].
  exact (escalation_sets_next_due_date st citizen 1 None now st' c c' Hc He).
Defined.

Lemma escalation_history_and_failure_witness :
  let st := second_stage all_officers in
  let now := (4 * day_ms)%Z in
  let st' := run st [Escalate citizen 1 None now] in
  let c := stored st 1 in
  let c' := stored st' 1 in
  complaints st !! 1 = Some c
  ∧ escalate st citizen 1 None now
    = (st', Json 200 "Complaint escalated successfully" (Some (1, c')))
  ∧ ∃ e,
      escalationHistory c' = escalationHistory c ++ [e]
      ∧ to e = currentHandler c'
      ∧ if crosses_handler (currentStage c) (currentStage c')
        then match failing_office st c (currentStage c) with
             | Some (officeId, officeRole) =>
                 let p :=
                   OfficePerformance_findOrNew officeId officeRole st in
                 ∃ p' f,
                   performances st'
                   = <[(officeId, officeRole) := p']> (performances st)
                   ∧ escalatedComplaints p' = (escalatedComplaints p + 1)%Z
                   ∧ failureRecords p' = failureRecords p ++ [f]
                   ∧ complaint f = 1
                   ∧ escalatedFrom f = currentStage c
                   ∧ escalatedTo f = currentStage c'
                   ∧ totalComplaints p' = totalComplaints p
                   ∧ resolvedComplaints p' = resolvedComplaints p
             | None => performances st' = performances st
             end
        else from e = to e ∧ performances st' = performances st.
Proof.
  intros st now st' c c'.
  assert (complaints st !! 1 = Some c) as Hc by (vm_compute; done).
  assert (escalate st citizen 1 None now
          = (st', Json 200 "Complaint escalated successfully"
                    (Some (1, c')))) as He by (vm_compute; done).
  split_and!; [done|done|].
  exact (escalation_history_and_failure st citizen 1 None now st' c c'
           Hc He).
Defined.

(** C2, as stated, fails when no user holds the role of the handler the
    complaint leaves: with the stakeholder office as the only registered
    office, the escalation from wereda_second to kifleketema_first is
    carried out, and no office performance record changes. *)
Lemma escalation_without_officer_books_nothing :
  let st := at_wereda_second office_only in
  let now := (16 * day_ms)%Z in
  let st' := run st [Escalate citizen 1 None now] in
  escalate st citizen 1 None now
  = (st', Json 200 "Complaint escalated successfully"
            (Some (1, stored st' 1)))
  ∧ currentHandler (stored st 1) = COMPLAINT_HANDLERS.WEREDA_ANTI_CORRUPTION
  ∧ currentHandler (stored st' 1)
    = COMPLAINT_HANDLERS.KIFLEKETEMA_ANTI_CORRUPTION
  ∧ performances st' = performances st.
Proof. vm_compute. split_and!; done. Qed.

Lemma escalation_to_kentiba_records_wereda_witness :
  let st := at_kifleketema_second all_officers in
  let now := (32 * day_ms)%Z in
  let st' := at_kentiba all_officers in
  let c := stored st 1 in
  let c' := stored st' 1 in
  complaints st !! 1 = Some c
  ∧ currentStage c = COMPLAINT_STAGES.KIFLEKETEMA_SECOND
  ∧ currentHandler c = COMPLAINT_HANDLERS.KIFLEKETEMA_ANTI_CORRUPTION
  ∧ escalate st citizen 1 None now
    = (st', Json 200 "Complaint escalated successfully" (Some (1, c')))
  ∧ ∃ e,
      escalationHistory c' = escalationHistory c ++ [e]
      ∧ from e = COMPLAINT_HANDLERS.WEREDA_ANTI_CORRUPTION
      ∧ to e = COMPLAINT_HANDLERS.KENTIBA_BIRO
      ∧ currentHandler c' = COMPLAINT_HANDLERS.KENTIBA_BIRO.
Proof.
  intros st now st' c c'.
  assert (complaints st !! 1 = Some c) as Hc by (vm_compute; done).
  assert (escalate st citizen 1 None now
          = (st', Json 200 "Complaint escalated successfully"
                    (Some (1, c')))) as He by (vm_compute; done).
  split_and!; [done|done|done|done|].
  exact (escalation_to_kentiba_records_wereda st citizen 1 None now st' c c'
           Hc eq_refl He).
Defined.

(** ** Stages only move forward *)

Lemma advances_refl m : advances m m.
Proof. intros id c Hc. by exists c. Qed.

Lemma advances_trans m1 m2 m3 :
  advances m1 m2 → advances m2 m3 → advances m1 m3.
Proof.
  intros H12 H23 id c Hc.
  destruct (H12 id c Hc) as (c2 & Hc2 & Hle2).
  destruct (H23 id c2 Hc2) as (c3 & Hc3 & Hle3).
  exists c3. split; [done|]. by etrans.
Qed.

Lemma advances_insert m id c c' :
  m !! id = Some c →
  (stage_index (currentStage c) ≤ stage_index (currentStage c'))%nat →
  advances m (<[id := c']> m).
Proof.
  intros Hc Hle j d Hd. destruct (decide (id = j)) as [->|Hne].
  - rewrite Hc in Hd. simplify_eq. exists c'.
    by rewrite lookup_insert_eq.
  - exists d. by rewrite lookup_insert_ne.
Qed.

Lemma advances_fresh (m : gmap nat Complaint) c' :
  advances m (<[fresh (dom m) := c']> m).
Proof.
  intros j d Hd. exists d. split; [|done].
  rewrite lookup_insert_ne; [done|].
  intros <-. apply (is_fresh (dom m)). apply elem_of_dom. by eexists.
Qed.

Lemma next_stage_index s s' :
  next_stage s = Some s' → stage_index s' = S (stage_index s).
Proof. destruct s; cbn; intros; by simplify_eq. Qed.

(** A request the route does not report as done leaves the complaints as
    they were. *)
Lemma escalate_failed st u id req_reason now st' r :
  escalate st u id req_reason now = (st', r) →
  succeeded r = false →
  complaints st' = complaints st ∧ users st' = users st.
Proof.
  unfold escalate, escalate_apply, Complaint_save.
  intros H Hr. repeat case_match; by simplify_eq.
Qed.

Lemma escalate_advances st u id req_reason now :
  advances (complaints st)
    (complaints (fst (escalate st u id req_reason now))).
Proof.
  destruct (escalate st u id req_reason now) as [st' r] eqn:H.
  destruct (succeeded r) eqn:Hr; cbn.
  - destruct (escalate_done _ _ _ _ _ _ _ H Hr)
      as (c & s' & e & Ho & _ & Hn & _ & _ & -> & _).
    destruct Ho as (_ & Hc & _).
    apply (advances_insert _ _ c); [done|].
    destruct (escalated_doc_paths c now s' (stage_handler s')
                (stage_due_field s') e) as (-> & _).
    rewrite (next_stage_index _ _ Hn). lia.
  - destruct (escalate_failed _ _ _ _ _ _ _ H Hr) as [-> _].
    apply advances_refl.
Qed.

Lemma respond_advances st u id body_response body_internalComment now :
  advances (complaints st)
    (complaints
       (fst (respond st u id body_response body_internalComment now))).
Proof.
  unfold respond, Complaint_save.
  repeat case_match; simplify_eq; cbn; try apply advances_refl.
  all: eapply advances_insert; [eassumption|done].
Qed.

Lemma accept_advances st u id now :
  advances (complaints st) (complaints (fst (accept st u id now))).
Proof.
  unfold accept, Complaint_save.
  repeat case_match; simplify_eq; cbn; try apply advances_refl.
  all: eapply advances_insert; [eassumption|done].
Qed.

Lemma submit_advances st u body now :
  advances (complaints st) (complaints (fst (submit st u body now))).
Proof.
  unfold submit, submit_first_stage, submit_second_stage, Complaint_save,
    Complaint_insert.
  repeat case_match; simplify_eq; cbn; try apply advances_refl;
    try apply advances_fresh.
  all: eapply advances_trans; [apply advances_fresh|].
  all: eapply advances_insert;
    [rewrite lookup_insert_ne; [eassumption|];
     intros <-; eapply (is_fresh (dom (complaints st)));
     apply elem_of_dom; by eexists|].
  all: cbn; match goal with H : currentStage _ = _ |- _ => rewrite H end;
    cbn; lia.
Qed.

Lemma serve_advances st r :
  advances (complaints st) (complaints (fst (serve st r))).
Proof.
  destruct r; cbn.
  - apply submit_advances.
  - apply escalate_advances.
  - apply respond_advances.
  - apply accept_advances.
Qed.

(** C3 -- Along every sequence of submissions (first and second stage),
    escalations, responses and acceptances, a stored complaint stays
    stored and its stage never moves backward in the order of the seven
    stages. *)
Theorem stage_never_moves_backward st rs id c :
  complaints st !! id = Some c →
  ∃ c',
    complaints (run st rs) !! id = Some c'
    ∧ (stage_index (currentStage c) ≤ stage_index (currentStage c'))%nat.
Proof.
  revert st c. induction rs as [|r rs IH]; intros st c Hc; cbn.
  - by exists c.
  - destruct (serve_advances st r id c Hc) as (c1 & Hc1 & Hle1).
    destruct (IH (fst (serve st r)) c1 Hc1) as (c' & Hc' & Hle').
    exists c'. split; [done|]. by etrans.
Qed.

Lemma stage_never_moves_backward_witness :
  complaints (submitted all_officers) !! 0 = Some complaint_0
  ∧ ∃ c',
      complaints
        (run (submitted all_officers)
           [Respond office 0 (Some "Noted") None 1000;
            Submit citizen (second_stage_body (Some "Permit") 2) 3000])
      !! 0 = Some c'
      ∧ (stage_index (currentStage complaint_0)
         ≤ stage_index (currentStage c'))%nat.
Proof.
  assert (complaints (submitted all_officers) !! 0 = Some complaint_0)
    as Hc by (vm_compute; done).
  split; [done|].
  exact (stage_never_moves_backward (submitted all_officers)
           [Respond office 0 (Some "Noted") None 1000;
            Submit citizen (second_stage_body (Some "Permit") 2) 3000]
           0 complaint_0 Hc).
Defined.

(** A request to escalate that is not carried out leaves the store as it
    was. *)
Lemma escalate_failed_store st u id req_reason now :
  succeeded (snd (escalate st u id req_reason now)) = false →
  fst (escalate st u id req_reason now) = st.
Proof.
  unfold escalate.
  destruct (bool_decide (user_role u = USER_ROLES.CITIZEN)); cbn; [|done].
  destruct (complaints st !! id) as [c|]; [|done].
  destruct (bool_decide (user c = user_id u)); cbn; [|done].
  destruct (bool_decide (status c = COMPLAINT_STATUS.RESOLVED)) eqn:Hst;
    [done|].
  apply bool_decide_eq_false_1 in Hst.
  rewrite escalation_switch_table by done.
  destruct (currentStage c); cbn [next_stage]; try done;
    destruct (eligible c now); try done;
    unfold escalate_apply, Complaint_save; cbn;
    repeat case_match; cbn; try done;
    try case_bool_decide; cbn; done.
Qed.

(** ** The running average of the resolution time *)














(** The second acceptance on the small deployment: office 2 has resolved
    one complaint in 1 day; the acceptance on day 5 of the answer to the
    complaint of day 2 brings the count to 2 and the mean to 2 days. *)
Lemma second_acceptance_running_mean :
  let st := run (initial all_officers) one_resolved_requests in
  let st' := run st [Accept citizen 1 (5 * day_ms)] in
  let k := (2, COMPLAINT_HANDLERS.STAKEHOLDER_OFFICE) in
  let p := default new_OfficePerformance (performances st !! k) in
  let p' := default new_OfficePerformance (performances st' !! k) in
  resolvedComplaints p = 1%Z
  ∧ Qeq (averageResolutionTime p) 1
  ∧ resolvedComplaints p' = 2%Z
  ∧ Qeq (averageResolutionTime p') 2.
Proof. vm_compute. split_and!; done. Qed.

(** The clock matters: when a complaint is submitted, answered and
    accepted within one clock reading the stored mean is 0 after a first
    resolution, and the next acceptance (elapsed time 1 day, count 2)
    stores 1 day and not the running mean of half a day. *)
Lemma acceptance_within_one_clock_reading :
  let st := one_resolved_at_once in
  let st' := run st [Accept citizen 1 day_ms] in
  let k := (2, COMPLAINT_HANDLERS.STAKEHOLDER_OFFICE) in
  let p := default new_OfficePerformance (performances st !! k) in
  let p' := default new_OfficePerformance (performances st' !! k) in
  let sample := resolutionTime (submittedAt (stored st 1)) day_ms in
  succeeded (snd (accept st citizen 1 day_ms)) = true
  ∧ resolvedComplaints p = 1%Z
  ∧ resolvedComplaints p' = 2%Z
  ∧ Qeq (averageResolutionTime p) 0
  ∧ Qeq sample 1
  ∧ Qeq (averageResolutionTime p') 1
  ∧ ¬ Qeq (averageResolutionTime p')
        ((averageResolutionTime p * inject_Z (2 - 1) + sample)
         / inject_Z 2).
Proof. vm_compute. split_and!; done. Qed.

(** ** Handlers follow stages *)

Lemma coherent_insert m id c' :
  coherent m →
  currentHandler c' = stage_handler (currentStage c') →
  coherent (<[id := c']> m).
Proof.
  intros Hm Hc' j d. destruct (decide (id = j)) as [->|Hne].
  - rewrite lookup_insert_eq. by intros [= <-].
  - rewrite lookup_insert_ne by done. apply Hm.
Qed.

Lemma escalate_coherent st u id req_reason now :
  coherent (complaints st) →
  coherent (complaints (fst (escalate st u id req_reason now))).
Proof.
  intros Hm.
  destruct (escalate st u id req_reason now) as [st' r] eqn:H.
  destruct (succeeded r) eqn:Hr; cbn.
  - destruct (escalate_done _ _ _ _ _ _ _ H Hr)
      as (c & s' & e & _ & _ & _ & _ & _ & -> & _).
    apply coherent_insert; [done|].
    by destruct (escalated_doc_paths c now s' (stage_handler s')
                   (stage_due_field s') e) as (-> & -> & _).
  - by destruct (escalate_failed _ _ _ _ _ _ _ H Hr) as [-> _].
Qed.

Lemma respond_coherent st u id body_response body_internalComment now :
  coherent (complaints st) →
  coherent
    (complaints
       (fst (respond st u id body_response body_internalComment now))).
Proof.
  intros Hm. unfold respond, Complaint_save.
  repeat case_match; simplify_eq; cbn; try done.
  all: apply coherent_insert; [done|]; cbn; by eapply Hm.
Qed.

Lemma accept_coherent st u id now :
  coherent (complaints st) →
  coherent (complaints (fst (accept st u id now))).
Proof.
  intros Hm. unfold accept, Complaint_save.
  repeat case_match; simplify_eq; cbn; try done.
  all: apply coherent_insert; [done|]; cbn; by eapply Hm.
Qed.

Lemma submit_coherent st u body now :
  coherent (complaints st) →
  coherent (complaints (fst (submit st u body now))).
Proof.
  intros Hm.
  unfold submit, submit_first_stage, submit_second_stage, Complaint_save,
    Complaint_insert.
  repeat case_match; simplify_eq; cbn; try done.
  all: repeat (apply coherent_insert; [|cbn; try done]); try done.
  all: match goal with
       | H : complaints _ !! _ = Some ?c, Hs : currentStage ?c = _
         |- currentHandler ?c = _ => rewrite (Hm _ _ H), Hs
       end; done.
Qed.

Lemma run_coherent rs :
  ∀ st, coherent (complaints st) → coherent (complaints (run st rs)).
Proof.
  induction rs as [|r rs IH]; intros st Hm; cbn; [done|].
  apply IH. destruct r; cbn.
  - by apply submit_coherent.
  - by apply escalate_coherent.
  - by apply respond_coherent.
  - by apply accept_coherent.
Qed.

Lemma reachable_coherent st : reachable st → coherent (complaints st).
Proof.
  intros (us & rs & ->). apply run_coherent. intros id c. cbn.
  by rewrite lookup_empty.
Qed.

(** ** Second stage submissions *)

Lemma second_stage_filter_spec u c :
  second_stage_filter u c = true ↔ second_stage_preconditions u c.
Proof.
  unfold second_stage_filter, second_stage_preconditions.
  rewrite !andb_true_iff, orb_true_iff, negb_true_iff.
  rewrite !bool_decide_eq_true, bool_decide_eq_false.
  split.
  - intros [[[? ?] ?] ?]. split_and!; try done. lia.
  - intros (? & ? & ? & ?). split_and!; try done. lia.
Qed.

Lemma required_string_Some v :
  is_Some (required_string v) ↔ ∃ s, v = Some s ∧ s ≠ "".
Proof.
  unfold required_string. destruct v as [s|].
  - case_decide as Hs.
    + split; [by intros [? ?]|]. intros (s' & [= <-] & Hne). done.
    + split; [eauto|]. by eexists.
  - split; [by intros [? ?]|]. by intros (? & ? & ?).
Qed.

(** What a second stage submission has done when it is reported done. *)
Lemma submit_second_stage_done st u body now orig_id st' r :
  isSecondStage body = Some "true" →
  originalComplaintId body = Some orig_id →
  submit st u body now = (st', r) →
  succeeded r = true →
  ∃ orig s' new_c e,
    let new_id := fresh (dom (complaints st)) in
    user_role u = USER_ROLES.CITIZEN
    ∧ complaints st !! orig_id = Some orig
    ∧ second_stage_filter u orig = true
    ∧ is_Some (required_string (body_title body))
    ∧ is_Some (required_string (body_description body))
    ∧ is_Some (required_string (body_location body))
    ∧ (currentStage orig = COMPLAINT_STAGES.STAKEHOLDER_FIRST
       ∧ s' = COMPLAINT_STAGES.STAKEHOLDER_SECOND
       ∨ currentStage orig = COMPLAINT_STAGES.WEREDA_FIRST
         ∧ s' = COMPLAINT_STAGES.WEREDA_SECOND)
    ∧ r = Json 201 "Second stage complaint submitted successfully"
            (Some (new_id, new_c))
    ∧ complaints st'
      = <[orig_id := superseded_doc orig new_id s' e now]>
          (<[new_id := new_c]> (complaints st))
    ∧ Some (stakeholderOffice new_c) = stakeholderOfficeId body
    ∧ user new_c = user_id u
    ∧ currentStage new_c = s'
    ∧ currentHandler new_c = stage_handler s'
    ∧ status new_c = COMPLAINT_STATUS.PENDING
    ∧ relatedComplaint new_c = Some orig_id
    ∧ (∃ days, timeframe_days (stage_handler s') = Some days
               ∧ stage_due new_c = Some (now + days * day_ms)%Z).
Proof.
  intros Hss Hid. unfold submit. rewrite Hss, Hid.
  rewrite (bool_decide_eq_true_2 (Some "true" = Some "true")) by done.
  unfold submit_second_stage, Complaint_save, Complaint_insert.
  intros H Hr.
  destruct (bool_decide (user_role u = USER_ROLES.CITIZEN)) eqn:Hrole;
    cbn in H; [|by simplify_eq].
  apply bool_decide_eq_true_1 in Hrole.
  repeat case_match; simplify_eq.
  - eexists _, COMPLAINT_STAGES.STAKEHOLDER_SECOND, _, _.
    cbn zeta. split_and!; try done; [by left|by eexists].
  - eexists _, COMPLAINT_STAGES.WEREDA_SECOND, _, _.
    cbn zeta. split_and!; try done; [by right|by eexists].
Qed.

(** C4 -- When a second stage submission succeeds, the original complaint
    has [secondStageComplaint] set to the new complaint, the status
    escalated and the next stage.  It is not frozen: a later request of
    its owner to escalate it succeeds exactly when it is eligible at its
    new stage by the ordinary rule (the due date of that stage has passed,
    or the recorded responses exceed the index of the stage). *)
Theorem original_after_second_stage
    st u body now orig_id st' new_id new_c :
  isSecondStage body = Some "true" →
  originalComplaintId body = Some orig_id →
  submit st u body now
  = (st', Json 201 "Second stage complaint submitted successfully"
            (Some (new_id, new_c))) →
  ∃ orig orig',
    complaints st !! orig_id = Some orig
    ∧ complaints st' !! orig_id = Some orig'
    ∧ secondStageComplaint orig' = Some new_id
    ∧ status orig' = COMPLAINT_STATUS.ESCALATED
    ∧ next_stage (currentStage orig) = Some (currentStage orig')
    ∧ responses orig' = responses orig
    ∧ ∀ req_reason now',
        (∃ st'' c'',
           escalate st' u orig_id req_reason now'
           = (st'', Json 200 "Complaint escalated successfully"
                      (Some (orig_id, c''))))
        ↔ eligible orig' now' = true.
Proof.
  intros Hss Hid H.
  destruct (submit_second_stage_done _ _ _ _ _ _ _ Hss Hid H eq_refl)
    as (orig & s' & new_c' & e & Hrole & Horig & Hf & _ & _ & _ & Hs
        & Hr & Hcs & _).
  cbn zeta in Hr, Hcs. simplify_eq.
  apply second_stage_filter_spec in Hf. destruct Hf as (Hu & _).
  exists orig, (superseded_doc orig (fresh (dom (complaints st))) s' e now).
  assert (complaints st' !! orig_id
          = Some (superseded_doc orig (fresh (dom (complaints st))) s' e now))
    as Hl by (rewrite Hcs; apply lookup_insert_eq).
  split_and!; try done.
  - destruct Hs as [[-> ->]|[-> ->]]; done.
  - intros req_reason now'.
    apply (escalate_succeeds_iff st' u orig_id _ req_reason now').
    + by split_and!.
    + done.
    + destruct Hs as [[_ ->]|[_ ->]]; done.
    + destruct Hs as [[_ ->]|[_ ->]]; done.
Qed.

Lemma original_after_second_stage_witness :
  let st := answered_twice all_officers in
  let body := second_stage_body (Some "Permit") 2 in
  let st' := second_stage all_officers in
  isSecondStage body = Some "true"
  ∧ originalComplaintId body = Some 0
  ∧ submit st citizen body 3000
    = (st', Json 201 "Second stage complaint submitted successfully"
              (Some (1, stored st' 1)))
  ∧ ∃ orig orig',
      complaints st !! 0 = Some orig
      ∧ complaints st' !! 0 = Some orig'
      ∧ secondStageComplaint orig' = Some 1
      ∧ status orig' = COMPLAINT_STATUS.ESCALATED
      ∧ next_stage (currentStage orig) = Some (currentStage orig')
      ∧ responses orig' = responses orig
      ∧ ∀ req_reason now',
          (∃ st'' c'',
             escalate st' citizen 0 req_reason now'
             = (st'', Json 200 "Complaint escalated successfully"
                        (Some (0, c''))))
          ↔ eligible orig' now' = true.
Proof.
  intros st body st'.
  assert (submit st citizen body 3000
          = (st', Json 201 "Second stage complaint submitted successfully"
                    (Some (1, stored st' 1)))) as Hs by (vm_compute; done).
  split_and!; [done|done|done|].
  exact (original_after_second_stage st citizen body 3000 0 st' 1
           (stored st' 1) eq_refl eq_refl Hs).
Defined.

(** C4, as stated, fails: complaint 0 was answered twice before the
    citizen took it to the second stage; it then carries
    [secondStageComplaint] and the status escalated, and the citizen's
    next request to escalate it is carried out, to wereda_first. *)
Lemma original_escalated_after_second_stage :
  let st := second_stage all_officers in
  let st' := run st [Escalate citizen 0 None 4000] in
  secondStageComplaint (stored st 0) = Some 1
  ∧ status (stored st 0) = COMPLAINT_STATUS.ESCALATED
  ∧ escalate st citizen 0 None 4000
    = (st', Json 200 "Complaint escalated successfully"
              (Some (0, stored st' 0)))
  ∧ currentStage (stored st' 0) = COMPLAINT_STAGES.WEREDA_FIRST.
Proof. vm_compute. split_and!; done. Qed.

(** An eligible second stage submission with the required paths is
    carried out. *)
Lemma submit_second_stage_succeeds st u body now orig_id orig :
  user_role u = USER_ROLES.CITIZEN →
  isSecondStage body = Some "true" →
  originalComplaintId body = Some orig_id →
  complaints st !! orig_id = Some orig →
  second_stage_preconditions u orig →
  required_fields body →
  ∃ st' new_id new_c,
    submit st u body now
    = (st', Json 201 "Second stage complaint submitted successfully"
              (Some (new_id, new_c))).
Proof.
  intros Hrole Hss Hid Horig Hpre (Ht & Hd & Hl & [o Ho]).
  apply required_string_Some in Ht, Hd, Hl.
  destruct Ht as [t Ht], Hd as [d Hd], Hl as [l Hl].
  pose proof Hpre as (_ & Hs & _).
  apply second_stage_filter_spec in Hpre.
  unfold submit. rewrite Hss, (bool_decide_eq_true_2 _ Hrole).
  rewrite (bool_decide_eq_true_2 (Some "true" = Some "true")) by done.
  rewrite Hid, Horig, Hpre.
  unfold submit_second_stage, Complaint_save, Complaint_insert.
  rewrite Ht, Hd, Hl, Ho.
  destruct Hs as [-> | ->]; cbn; eauto.
Qed.

(** C5 -- A second stage submission of a citizen that names the office of
    the original complaint succeeds exactly when the original belongs to
    the citizen, is at stakeholder_first or wereda_first, is in progress
    and has at least one response, and the body carries a non-empty
    title, description and location.  On success the new complaint
    references the same office as the original, starts at the second
    stage of the original's level with the original's handler, is
    pending, has the due date of its stage set to the time of the request
    plus the handler's timeframe, and has [relatedComplaint] pointing at
    the original. *)
Theorem second_stage_submission st u body now orig_id :
  user_role u = USER_ROLES.CITIZEN →
  isSecondStage body = Some "true" →
  originalComplaintId body = Some orig_id →
  reachable st →
  (∀ orig, complaints st !! orig_id = Some orig →
           stakeholderOfficeId body = Some (stakeholderOffice orig)) →
  ((∃ st' new_id new_c,
      submit st u body now
      = (st', Json 201 "Second stage complaint submitted successfully"
                (Some (new_id, new_c))))
   ↔ (∃ orig, complaints st !! orig_id = Some orig
              ∧ second_stage_preconditions u orig)
     ∧ (∃ s, body_title body = Some s ∧ s ≠ "")
     ∧ (∃ s, body_description body = Some s ∧ s ≠ "")
     ∧ (∃ s, body_location body = Some s ∧ s ≠ ""))
  ∧ ∀ st' new_id new_c,
      submit st u body now
      = (st', Json 201 "Second stage complaint submitted successfully"
                (Some (new_id, new_c))) →
      ∃ orig,
        complaints st !! orig_id = Some orig
        ∧ complaints st !! new_id = None
        ∧ complaints st' !! new_id = Some new_c
        ∧ stakeholderOffice new_c = stakeholderOffice orig
        ∧ next_stage (currentStage orig) = Some (currentStage new_c)
        ∧ currentHandler new_c = currentHandler orig
        ∧ status new_c = COMPLAINT_STATUS.PENDING
        ∧ (∃ days, timeframe_days (currentHandler new_c) = Some days
                   ∧ stage_due new_c = Some (now + days * day_ms)%Z)
        ∧ relatedComplaint new_c = Some orig_id.
Proof.
  intros Hrole Hss Hid Hreach Hsame. split; [split|].
  - intros (st' & new_id & new_c & H).
    destruct (submit_second_stage_done _ _ _ _ _ _ _ Hss Hid H eq_refl)
      as (orig & s' & new_c' & e & _ & Horig & Hf & Ht & Hd & Hl & _
          & Hr & _ & Ho & _).
    cbn zeta in Hr. simplify_eq.
    apply second_stage_filter_spec in Hf.
    apply required_string_Some in Ht, Hd, Hl.
    split; [by exists orig|]. by split_and!.
  - intros [(orig & Horig & Hpre) (Ht & Hd & Hl)].
    apply (submit_second_stage_succeeds st u body now orig_id orig);
      try done.
    split_and!; try done. rewrite (Hsame orig Horig). by eexists.
  - intros st' new_id new_c H.
    destruct (submit_second_stage_done _ _ _ _ _ _ _ Hss Hid H eq_refl)
      as (orig & s' & new_c' & e & _ & Horig & _ & _ & _ & _ & Hs
          & Hr & Hcs & Ho & _ & Hst & Hh & Hp & Hrel & Hdue).
    cbn zeta in Hr, Hcs. simplify_eq.
    assert (complaints st !! fresh (dom (complaints st)) = None) as Hfresh.
    { apply not_elem_of_dom, is_fresh. }
    exists orig. split_and!; try done.
    + rewrite Hcs, lookup_insert_ne, lookup_insert_eq; [done|].
      intros ->. by rewrite Hfresh in Horig.
    + rewrite (Hsame orig Horig) in Ho. by simplify_eq.
    + destruct Hs as [[-> ->]|[-> ->]]; done.
    + rewrite Hh, (reachable_coherent st Hreach _ _ Horig).
      destruct Hs as [[-> ->]|[-> ->]]; done.
    + by rewrite Hh.
Qed.

Lemma second_stage_submission_witness :
  let st := answered_twice all_officers in
  let body := second_stage_body (Some "Permit") 2 in
  user_role citizen = USER_ROLES.CITIZEN
  ∧ isSecondStage body = Some "true"
  ∧ originalComplaintId body = Some 0
  ∧ reachable st
  ∧ (∀ orig, complaints st !! 0 = Some orig →
             stakeholderOfficeId body = Some (stakeholderOffice orig))
  ∧ ((∃ st' new_id new_c,
        submit st citizen body 3000
        = (st', Json 201 "Second stage complaint submitted successfully"
                  (Some (new_id, new_c))))
     ↔ (∃ orig, complaints st !! 0 = Some orig
                ∧ second_stage_preconditions citizen orig)
       ∧ (∃ s, body_title body = Some s ∧ s ≠ "")
       ∧ (∃ s, body_description body = Some s ∧ s ≠ "")
       ∧ (∃ s, body_location body = Some s ∧ s ≠ ""))
  ∧ ∀ st' new_id new_c,
      submit st citizen body 3000
      = (st', Json 201 "Second stage complaint submitted successfully"
                (Some (new_id, new_c))) →
      ∃ orig,
        complaints st !! 0 = Some orig
        ∧ complaints st !! new_id = None
        ∧ complaints st' !! new_id = Some new_c
        ∧ stakeholderOffice new_c = stakeholderOffice orig
        ∧ next_stage (currentStage orig) = Some (currentStage new_c)
        ∧ currentHandler new_c = currentHandler orig
        ∧ status new_c = COMPLAINT_STATUS.PENDING
        ∧ (∃ days, timeframe_days (currentHandler new_c) = Some days
                   ∧ stage_due new_c = Some (3000 + days * day_ms)%Z)
        ∧ relatedComplaint new_c = Some 0.
Proof.
  intros st body.
  assert (reachable st) as Hreach.
  { exists all_officers,
      [Submit citizen first_stage_body 0;
       Respond office 0 (Some "Noted") None 1000;
       Respond office 0 (Some "Pending") None 2000].
    reflexivity. }
  assert (∀ orig, complaints st !! 0 = Some orig →
                  stakeholderOfficeId body = Some (stakeholderOffice orig))
    as Hsame.
  { intros orig Horig. vm_compute in Horig. by simplify_eq. }
  split_and!; [done|done|done|done|done|..];
    apply (second_stage_submission st citizen body 3000 0
             eq_refl eq_refl eq_refl Hreach Hsame).
Defined.

(** C5, as stated, fails on complaint 0, which belongs to the citizen, is
    at stakeholder_first, in progress and answered: a second stage
    submission that names its office 2 and carries a description and a
    location but no title is not carried out; the save of the new
    complaint is rejected and nothing is stored. *)
Lemma second_stage_without_title_refused :
  let st := answered_twice all_officers in
  let body := second_stage_body None 2 in
  complaints st !! 0 = Some (stored st 0)
  ∧ second_stage_filter citizen (stored st 0) = true
  ∧ stakeholderOfficeId body = Some (stakeholderOffice (stored st 0))
  ∧ body_title body = None
  ∧ submit st citizen body 3000 = (st, Caught).
Proof. vm_compute. split_and!; done. Qed.

(** * Further properties of the routes *)

(** ** Requests that are not carried out *)

(** X1 -- A request that a guard of its route refuses, that is, one
    answered with a 4xx status (403, 404 or 400), leaves the whole store
    as it was: complaints, office performance records and users.  Every
    guard of the four routes comes before the first write. *)
Theorem refused_request_leaves_store st r code message doc :
  snd (serve st r) = Json code message doc →
  (400 ≤ code)%nat →
  fst (serve st r) = st.
Proof.
  intros H Hcode.
  destruct r as [u body now|u id reason now|u id resp comment now|u id now];
    cbn in *.
  - revert H.
    unfold submit, submit_first_stage, submit_second_stage, Complaint_save,
      Complaint_insert.
    repeat case_match; cbn; intros; simplify_eq; try done; lia.
  - apply escalate_failed_store. rewrite H. cbn.
    apply bool_decide_eq_false_2. lia.
  - revert H. unfold respond, Complaint_save.
    repeat case_match; cbn; intros; simplify_eq; try done; lia.
  - revert H. unfold accept, Complaint_save.
    repeat case_match; cbn; intros; simplify_eq; try done; lia.
Qed.

(** ** How the routes change the complaints *)

Lemma escalate_store_change st u id req_reason now :
  store_change (complaints st)
    (complaints (fst (escalate st u id req_reason now))).
Proof.
  destruct (escalate st u id req_reason now) as [st' r] eqn:H.
  destruct (succeeded r) eqn:Hr; cbn.
  - destruct (escalate_done _ _ _ _ _ _ _ H Hr)
      as (c & s' & e & Ho & _ & Hn & _ & _ & -> & _ & _ & Hv & _).
    destruct Ho as (_ & Hc & _).
    eapply store_updated; [done|]. by constructor.
  - destruct (escalate_failed _ _ _ _ _ _ _ H Hr) as [-> _]. constructor.
Qed.

Lemma respond_store_change st u id body_response body_internalComment now :
  store_change (complaints st)
    (complaints
       (fst (respond st u id body_response body_internalComment now))).
Proof.
  unfold respond, Complaint_save.
  repeat case_match; simplify_eq; cbn; try constructor.
  all: eapply store_updated; [done|].
  all: apply (doc_responded _ u body_response body_internalComment now).
Qed.

Lemma accept_store_change st u id now :
  store_change (complaints st) (complaints (fst (accept st u id now))).
Proof.
  unfold accept, Complaint_save.
  repeat case_match; simplify_eq; cbn; try constructor.
  all: eapply store_updated; [done|]; by apply doc_accepted.
Qed.

Lemma submit_store_change st u body now :
  store_change (complaints st) (complaints (fst (submit st u body now))).
Proof.
  unfold submit, submit_first_stage, submit_second_stage, Complaint_save,
    Complaint_insert.
  repeat case_match; simplify_eq; cbn; try constructor.
  all: match goal with
       | Hf : second_stage_filter _ _ = true |- _ =>
           apply second_stage_filter_spec in Hf as (Hu & _ & Hst & Hr)
       end.
  all: rewrite <- Hu.
  - eapply (store_second_stage (complaints st) _ _ _ _ _ _ _ _
              COMPLAINT_STAGES.STAKEHOLDER_SECOND); try done.
    + destruct (responses c); cbn in Hr; [lia|done].
    + by left.
    + match goal with H : currentStage _ = _ |- _ => by rewrite H end.
  - eapply (store_second_stage (complaints st) _ _ _ _ _ _ _ _
              COMPLAINT_STAGES.WEREDA_SECOND); try done.
    + destruct (responses c); cbn in Hr; [lia|done].
    + by right.
    + match goal with H : currentStage _ = _ |- _ => by rewrite H end.
Qed.

Lemma serve_store_change st r :
  store_change (complaints st) (complaints (fst (serve st r))).
Proof.
  destruct r; cbn.
  - apply submit_store_change.
  - apply escalate_store_change.
  - apply respond_store_change.
  - apply accept_store_change.
Qed.

Lemma fresh_not_stored (m : gmap nat Complaint) : m !! fresh (dom m) = None.
Proof. apply not_elem_of_dom, is_fresh. Qed.

(** A property of documents that every rewrite keeps and every created
    document has holds of every complaint of a reachable store. *)
Section DocumentInvariant.
Context (P : Complaint → Prop).
Hypothesis Hchange : ∀ c c', doc_change c c' → P c → P c'.
Hypothesis Hfirst :
  ∀ u title description officeId location files now,
    P (first_stage_doc u title description officeId location files now).
Hypothesis Hsecond :
  ∀ u title description officeId location files details orig_id s' now,
    s' = COMPLAINT_STAGES.STAKEHOLDER_SECOND
    ∨ s' = COMPLAINT_STAGES.WEREDA_SECOND →
    P (second_stage_doc u title description officeId location files details
         orig_id s' now).
Hypothesis Hsuperseded :
  ∀ orig new_id s' e now,
    P orig →
    status orig = COMPLAINT_STATUS.IN_PROGRESS →
    responses orig ≠ [] →
    next_stage (currentStage orig) = Some s' →
    valid_escalation e = true →
    P (superseded_doc orig new_id s' e now).

Lemma store_change_invariant m m' :
  store_change m m' →
  map_Forall (fun _ => P) m → map_Forall (fun _ => P) m'.
Proof.
  intros Hs Hm. destruct Hs as [|id c c' Hc Hd| |].
  - done.
  - apply map_Forall_insert_2; [|done]. eapply Hchange; [done|].
    by apply (Hm id).
  - apply map_Forall_insert_2; [|done]. apply Hfirst.
  - apply map_Forall_insert_2.
    + apply Hsuperseded; try done. by eapply Hm.
    + apply map_Forall_insert_2; [|done]. by apply Hsecond.
Qed.

Lemma run_invariant rs :
  ∀ st,
    map_Forall (fun _ => P) (complaints st) →
    map_Forall (fun _ => P) (complaints (run st rs)).
Proof.
  induction rs as [|r rs IH]; intros st Hm; cbn; [done|].
  apply IH. eapply store_change_invariant; [apply serve_store_change|done].
Qed.

Lemma reachable_invariant st id c :
  reachable st → complaints st !! id = Some c → P c.
Proof.
  intros (us & rs & ->) Hc.
  eapply (run_invariant rs (initial us)); [|done].
  apply map_Forall_empty.
Qed.
End DocumentInvariant.

(** ** Invariants of the stored complaints *)

(** X17 -- In every reachable store the status of a complaint is backed by its
    content: a complaint in progress has a response; a resolved one has a
    response and a resolution; an escalated one has a response and names
    its second stage complaint. *)
Theorem reachable_status_sound st id c :
  reachable st → complaints st !! id = Some c → status_sound c.
Proof.
  apply (reachable_invariant status_sound).
  - intros c0 c' Hd _. destruct Hd as [now s' e _ _|u r ic now|r now Hl].
    + unfold status_sound.
      by destruct (escalated_doc_paths c0 now s' (stage_handler s')
                     (stage_due_field s') e) as (_ & _ & -> & _).
    + unfold status_sound. cbn. by destruct (responses c0).
    + unfold status_sound. cbn. split; [|done].
      intros Hnil. by rewrite Hnil in Hl.
  - done.
  - done.
  - intros orig new_id s' e now _ _ Hr _ _. unfold status_sound. cbn.
    by split.
Qed.

(** X18 -- In every reachable store no due date is recorded for a stage the
    complaint has not reached yet. *)
Theorem reachable_later_dues_unset st id c :
  reachable st → complaints st !! id = Some c → later_dues_unset c.
Proof.
  apply (reachable_invariant later_dues_unset).
  - intros c0 c' Hd Hc0. destruct Hd as [now s' e Hn _|u r ic now|r now Hl].
    + intros f. unfold escalated_doc.
      rewrite get_due_saved, get_due_escalate_update.
      destruct (escalated_doc_paths c0 now s' (stage_handler s')
                  (stage_due_field s') e) as (Hs & _).
      unfold escalated_doc in Hs. rewrite Hs. intros Hlt.
      assert (get_due f c0 = None) as Hf.
      { apply Hc0. rewrite (next_stage_index _ _ Hn) in Hlt. lia. }
      destruct (stage_due_field s') as [g|] eqn:Hg; [|done].
      case_decide as Heq; [|done]. subst g.
      destruct s', f; cbn in Hg, Hlt; simplify_eq; lia.
    + intros f Hlt. destruct f; apply (Hc0 _ Hlt).
    + intros f Hlt. destruct f; apply (Hc0 _ Hlt).
  - intros u t d o l fs now f. destruct f; cbn; intros; done || lia.
  - intros u t d o l fs det oid s' now [-> | ->] f;
      destruct f; cbn; intros; done || lia.
  - intros orig new_id s' e now Ho _ _ Hn _ f. cbn.
    rewrite (next_stage_index _ _ Hn). intros Hlt.
    assert (get_due f orig = None) as Hf by (apply Ho; lia).
    by destruct f.
Qed.

(** X19 -- In every reachable store each element of an escalation history
    satisfies the enum validators of the schema. *)
Theorem reachable_history_valid st id c e :
  reachable st →
  complaints st !! id = Some c →
  e ∈ escalationHistory c →
  valid_escalation e = true.
Proof.
  intros Hreach Hc.
  revert e. apply Forall_forall.
  revert Hreach Hc.
  apply (reachable_invariant
           (fun c => Forall (fun e => valid_escalation e = true)
                       (escalationHistory c))).
  - intros c0 c' Hd Hc0. destruct Hd as [now s' e _ Hv|u r ic now|r now Hl].
    + destruct (escalated_doc_paths c0 now s' (stage_handler s')
                  (stage_due_field s') e) as (_ & _ & _ & -> & _).
      apply Forall_app. split; [done|]. by constructor.
    + done.
    + done.
  - constructor.
  - constructor.
  - intros orig new_id s' e now Ho _ _ _ Hv. cbn.
    apply Forall_app. split; [done|]. by constructor.
Qed.

(** ** What a stored complaint keeps *)

Lemma keeps_refl c : keeps c c.
Proof. unfold keeps. by split_and!. Qed.

Lemma keeps_trans c1 c2 c3 : keeps c1 c2 → keeps c2 c3 → keeps c1 c3.
Proof.
  unfold keeps.
  intros (? & ? & ? & ? & ? & ? & ? & ? & ? & ? & ? & ? & ?)
         (? & ? & ? & ? & ? & ? & ? & ? & ? & ? & ? & ? & ?).
  split_and!; try congruence; try (by etrans); auto.
Qed.

Lemma doc_change_keeps c c' : doc_change c c' → keeps c c'.
Proof.
  intros [now s' e _ _|u r ic now|r now Hl]; unfold keeps.
  - unfold escalated_doc, escalate_update.
    destruct (stage_due_field s'); cbn; split_and!;
      try done; by apply prefix_app_r.
  - cbn. split_and!; try done. by apply prefix_app_r.
  - cbn. split_and!; try done.
Qed.

Lemma superseded_doc_keeps orig new_id s' e now :
  keeps orig (superseded_doc orig new_id s' e now).
Proof.
  unfold keeps. cbn. split_and!; try done. by apply prefix_app_r.
Qed.

Lemma store_change_keeps m m' : store_change m m' → preserved keeps m m'.
Proof.
  intros Hs k a Ha.
  destruct Hs as [|id c c' Hc Hd
                  |u t d o l fs now
                  |oid orig t d o l fs det s' e now Ho _ _ _ _ _].
  - exists a. split; [done|apply keeps_refl].
  - destruct (decide (id = k)) as [->|Hne].
    + rewrite Hc in Ha. simplify_eq. exists c'.
      rewrite lookup_insert_eq. split; [done|by apply doc_change_keeps].
    + exists a. rewrite lookup_insert_ne by done.
      split; [done|apply keeps_refl].
  - exists a. rewrite lookup_insert_ne.
    + split; [done|apply keeps_refl].
    + intros <-. by rewrite fresh_not_stored in Ha.
  - destruct (decide (oid = k)) as [->|Hne].
    + rewrite Ho in Ha. simplify_eq. eexists.
      rewrite lookup_insert_eq. split; [done|apply superseded_doc_keeps].
    + exists a. rewrite lookup_insert_ne by done.
      rewrite lookup_insert_ne.
      * split; [done|apply keeps_refl].
      * intros <-. by rewrite fresh_not_stored in Ha.
Qed.

(** X21 -- Along every sequence of requests a stored complaint stays stored and
    keeps its citizen, title, description, office, location, attachments,
    submission time, additional details and [relatedComplaint]; its
    responses and its escalation history are only appended to; and a
    resolution or a [secondStageComplaint], once set, stays set. *)
Theorem stored_complaint_keeps st rs id c :
  complaints st !! id = Some c →
  ∃ c', complaints (run st rs) !! id = Some c' ∧ keeps c c'.
Proof.
  revert st c. induction rs as [|r rs IH]; intros st c Hc; cbn.
  - exists c. split; [done|apply keeps_refl].
  - destruct (store_change_keeps _ _ (serve_store_change st r) id c Hc)
      as (c1 & Hc1 & Hk1).
    destruct (IH (fst (serve st r)) c1 Hc1) as (c' & Hc' & Hk').
    exists c'. split; [done|by eapply keeps_trans].
Qed.

(** ** Office performance records only grow *)

Lemma grows_refl p : grows p p.
Proof. unfold grows. by split_and!. Qed.

Lemma grows_trans p1 p2 p3 : grows p1 p2 → grows p2 p3 → grows p1 p3.
Proof.
  unfold grows. intros (? & ? & ? & ?) (? & ? & ? & ?).
  split_and!; try lia. by etrans.
Qed.

Lemma grows_record_failure f now p : grows p (record_failure f now p).
Proof.
  unfold grows. cbn. split_and!; try lia. by apply prefix_app_r.
Qed.

Lemma grows_count_complaint now p : grows p (count_complaint now p).
Proof. unfold grows. cbn. split_and!; try lia. done. Qed.

Lemma grows_record_resolution t now p : grows p (record_resolution t now p).
Proof. unfold grows. cbn. split_and!; try lia. done. Qed.

Lemma preserved_grows_refl (m : gmap (nat * Handler) OfficePerformance) :
  preserved grows m m.
Proof. intros k a Ha. exists a. split; [done|apply grows_refl]. Qed.

Lemma preserved_grows_insert
    (m : gmap (nat * Handler) OfficePerformance) k
    (f : OfficePerformance → OfficePerformance) :
  (∀ p, grows p (f p)) →
  preserved grows m (<[k := f (default new_OfficePerformance (m !! k))]> m).
Proof.
  intros Hf j a Ha. destruct (decide (k = j)) as [->|Hne].
  - rewrite lookup_insert_eq, Ha. eexists. split; [done|apply Hf].
  - rewrite lookup_insert_ne by done. exists a.
    split; [done|apply grows_refl].
Qed.

Lemma serve_performances_grow st r :
  preserved grows (performances st) (performances (fst (serve st r))).
Proof.
  destruct r as [u body now|u id reason now|u id resp comment now|u id now];
    cbn.
  - unfold submit, submit_first_stage, submit_second_stage, Complaint_save,
      Complaint_insert.
    repeat case_match; simplify_eq; cbn;
      try apply preserved_grows_refl;
      apply (preserved_grows_insert _ _ (count_complaint now)),
        grows_count_complaint.
  - destruct (escalate st u id reason now) as [st' r] eqn:H.
    destruct (succeeded r) eqn:Hr.
    + destruct (escalate_done _ _ _ _ _ _ _ H Hr)
        as (c & s' & e & _ & _ & _ & _ & _ & _ & _ & _ & _ & Hp).
      cbn. destruct (crosses_handler (currentStage c) s').
      * destruct Hp as [_ ->].
        destruct (failing_office st c (currentStage c)) as [[o ro]|];
          [|apply preserved_grows_refl].
        apply (preserved_grows_insert _ _ (record_failure _ now)).
        intros p. apply grows_record_failure.
      * destruct Hp as [_ ->]. apply preserved_grows_refl.
    + pose proof (escalate_failed_store st u id reason now) as Hf.
      rewrite H in Hf. cbn in Hf |- *. rewrite (Hf Hr).
      apply preserved_grows_refl.
  - unfold respond, Complaint_save.
    repeat case_match; simplify_eq; cbn; apply preserved_grows_refl.
  - unfold accept, Complaint_save.
    repeat case_match; simplify_eq; cbn;
      try apply preserved_grows_refl;
      apply (preserved_grows_insert _ _ (record_resolution _ now)).
    all: intros p; apply grows_record_resolution.
Qed.

(** X22 -- Along every sequence of requests an office performance record is
    never deleted, none of its three counters ever decreases, and its
    failure records are only appended to. *)
Theorem performance_records_grow st rs k p :
  performances st !! k = Some p →
  ∃ p', performances (run st rs) !! k = Some p' ∧ grows p p'.
Proof.
  revert st p. induction rs as [|r rs IH]; intros st p Hp; cbn.
  - exists p. split; [done|apply grows_refl].
  - destruct (serve_performances_grow st r k p Hp) as (p1 & Hp1 & Hg1).
    destruct (IH (fst (serve st r)) p1 Hp1) as (p' & Hp' & Hg').
    exists p'. split; [done|by eapply grows_trans].
Qed.

(** ** The links between originals and second stage complaints *)

Lemma links_sound_update m id c c' :
  links_sound m →
  m !! id = Some c →
  user c' = user c →
  relatedComplaint c' = relatedComplaint c →
  (∀ n, secondStageComplaint c' = Some n →
        ∃ new, <[id := c']> m !! n = Some new
               ∧ relatedComplaint new = Some id) →
  links_sound (<[id := c']> m).
Proof.
  intros Hm Hc Hu Hrel Hsec j d Hd.
  assert (∀ o orig a, m !! o = Some orig → user orig = a →
            ∃ orig', <[id := c']> m !! o = Some orig' ∧ user orig' = a)
    as Hkeep_user.
  { intros o orig a Ho Ha. destruct (decide (id = o)) as [->|Hne].
    - rewrite lookup_insert_eq. eexists. split; [done|].
      rewrite Ho in Hc. simplify_eq. done.
    - rewrite lookup_insert_ne by done. eauto. }
  assert (∀ n new k, m !! n = Some new → relatedComplaint new = Some k →
            ∃ new', <[id := c']> m !! n = Some new'
                    ∧ relatedComplaint new' = Some k)
    as Hkeep_rel.
  { intros n new k Hn Hk. destruct (decide (id = n)) as [->|Hne].
    - rewrite lookup_insert_eq. eexists. split; [done|].
      rewrite Hn in Hc. simplify_eq. by rewrite Hrel.
    - rewrite lookup_insert_ne by done. eauto. }
  destruct (decide (id = j)) as [->|Hne].
  - rewrite lookup_insert_eq in Hd. simplify_eq. split; [|done].
    intros o Ho. rewrite Hrel in Ho.
    destruct (Hm j c Hc) as [Hr _].
    destruct (Hr o Ho) as (orig & Horig & Huo).
    rewrite Hu. by eapply Hkeep_user.
  - rewrite lookup_insert_ne in Hd by done.
    destruct (Hm j d Hd) as [Hr Hs]. split.
    + intros o Ho. destruct (Hr o Ho) as (orig & Horig & Huo).
      by eapply Hkeep_user.
    + intros n Hn. destruct (Hs n Hn) as (new & Hnew & Hrn).
      by eapply Hkeep_rel.
Qed.

Lemma links_sound_insert_fresh m new :
  links_sound m →
  (∀ o, relatedComplaint new = Some o →
        ∃ orig, m !! o = Some orig ∧ user orig = user new) →
  secondStageComplaint new = None →
  links_sound (<[fresh (dom m) := new]> m).
Proof.
  intros Hm Hrel Hsec j d Hd.
  assert (∀ k a, m !! k = Some a →
            <[fresh (dom m) := new]> m !! k = Some a) as Hkeep.
  { intros k a Ha. rewrite lookup_insert_ne; [done|].
    intros <-. by rewrite fresh_not_stored in Ha. }
  destruct (decide (fresh (dom m) = j)) as [<-|Hne].
  - rewrite lookup_insert_eq in Hd. simplify_eq. split.
    + intros o Ho. destruct (Hrel o Ho) as (orig & Horig & Huo).
      exists orig. split; [by apply Hkeep|done].
    + intros n Hn. by rewrite Hsec in Hn.
  - rewrite lookup_insert_ne in Hd by done.
    destruct (Hm j d Hd) as [Hr Hs]. split.
    + intros o Ho. destruct (Hr o Ho) as (orig & Horig & Huo).
      exists orig. split; [by apply Hkeep|done].
    + intros n Hn. destruct (Hs n Hn) as (nw & Hnw & Hrn).
      exists nw. split; [by apply Hkeep|done].
Qed.

Lemma doc_change_links c c' :
  doc_change c c' →
  user c' = user c
  ∧ relatedComplaint c' = relatedComplaint c
  ∧ secondStageComplaint c' = secondStageComplaint c.
Proof.
  intros [now s' e _ _|u r ic now|r now Hl]; [|done|done].
  unfold escalated_doc, escalate_update. by destruct (stage_due_field s').
Qed.

Lemma store_change_links m m' :
  store_change m m' → links_sound m → links_sound m'.
Proof.
  intros Hs Hm.
  destruct Hs as [|id c c' Hc Hd
                  |u t d o l fs now
                  |oid orig t d o l fs det s' e now Ho _ _ _ _ _].
  - done.
  - destruct (doc_change_links _ _ Hd) as (Hu & Hrel & Hsec).
    apply (links_sound_update m id c c'); try done.
    intros n Hn. rewrite Hsec in Hn.
    destruct (Hm id c Hc) as [_ Hs]. destruct (Hs n Hn) as (nw & Hnw & Hrn).
    destruct (decide (id = n)) as [->|Hne].
    + rewrite lookup_insert_eq. eexists. split; [done|].
      rewrite Hnw in Hc. simplify_eq. by rewrite Hrel.
    + rewrite lookup_insert_ne by done. eauto.
  - by apply links_sound_insert_fresh.
  - assert (oid ≠ fresh (dom m)) as Hne.
    { intros ->. by rewrite fresh_not_stored in Ho. }
    eapply links_sound_update.
    + apply links_sound_insert_fresh; [done| |done].
      cbn. intros o' [= <-]. by exists orig.
    + by rewrite lookup_insert_ne.
    + done.
    + done.
    + cbn. intros n [= <-].
      rewrite lookup_insert_ne, lookup_insert_eq by done.
      by eexists.
Qed.

(** X20 -- In every reachable store the links are sound: a [relatedComplaint]
    points at a stored complaint of the same citizen, and a
    [secondStageComplaint] points at a stored complaint whose
    [relatedComplaint] points back. *)
Theorem reachable_links_sound st :
  reachable st → links_sound (complaints st).
Proof.
  intros (us & rs & ->).
  assert (∀ st, links_sound (complaints st) →
                links_sound (complaints (run st rs))) as Hrun.
  { induction rs as [|r rs IH]; intros st Hm; cbn; [done|].
    apply IH. eapply store_change_links; [apply serve_store_change|done]. }
  apply Hrun. intros id c. cbn. by rewrite lookup_empty.
Qed.

(** ** [POST /:id/respond] *)

(** Evaluates the closed decisions of the goal. *)
Ltac eval_decide :=
  repeat match goal with
  | |- context [@bool_decide ?P ?d] =>
      let b := eval vm_compute in (@bool_decide P d) in
      match b with
      | true => change (@bool_decide P d) with true
      | false => change (@bool_decide P d) with false
      end
  end.

(** X2 -- A response is accepted exactly when the complaint is stored, the
    requester holds the role of its current handler and, for a stakeholder
    office, is the office the complaint is directed to.  A citizen is
    never accepted, and neither is a second stakeholder office. *)
Theorem respond_succeeds_iff st u id body_response body_internalComment now :
  succeeded (snd (respond st u id body_response body_internalComment now))
  = true
  ↔ ∃ c, complaints st !! id = Some c ∧ may_respond u c.
Proof.
  unfold respond, Complaint_save, may_respond.
  destruct u as [i ro]. cbn [user_role user_id].
  destruct (complaints st !! id) as [c|] eqn:Hc.
  - destruct ro, (currentHandler c) eqn:Hh; eval_decide; cbn;
      try (split; [done|intros (c0 & [= <-] & Hr & Ho); cbn in Hr;
                        congruence]);
      try (split; [|done]; intros _; exists c; by rewrite Hh).
    case_bool_decide as Ho; cbn.
    + split; [|done]. intros _. exists c. by rewrite Hh.
    + split; [done|]. intros (c0 & [= <-] & _ & Ho'). rewrite Hh in Ho'.
      by destruct Ho; apply Ho'.
  - destruct ro; eval_decide; cbn; split; try done; by intros (c0 & ? & _).
Qed.

(** X3 -- A response that is accepted appends one response, made by the
    requester in the role of the current handler and with the status
    in_progress, and sets the status of the complaint to in_progress
    whatever it was; the stage, the handler, the escalation history and
    the resolution of the complaint, the other complaints and the office
    performance records are left as they were. *)
Theorem respond_carried_out
    st u id body_response body_internalComment now st' r :
  respond st u id body_response body_internalComment now = (st', r) →
  succeeded r = true →
  ∃ c c',
    complaints st !! id = Some c
    ∧ r = Json 200 "Response submitted successfully" (Some (id, c'))
    ∧ complaints st' = <[id := c']> (complaints st)
    ∧ performances st' = performances st
    ∧ users st' = users st
    ∧ responses c'
      = responses c
        ++ [{| responder := user_id u;
               responderRole := currentHandler c;
               response := body_response;
               response_status := COMPLAINT_STATUS.IN_PROGRESS;
               internalComment := body_internalComment;
               createdAt := now |}]
    ∧ status c' = COMPLAINT_STATUS.IN_PROGRESS
    ∧ currentStage c' = currentStage c
    ∧ currentHandler c' = currentHandler c
    ∧ escalationHistory c' = escalationHistory c
    ∧ resolution c' = resolution c.
Proof.
  unfold respond, Complaint_save. intros H Hr.
  repeat case_match; simplify_eq.
  all: eexists _, _; split_and!; done.
Qed.

(** ** [POST /:id/accept] *)

(** X5 -- An acceptance is carried out exactly when the requester is a citizen,
    the complaint is stored and is the requester's, and it has at least
    one response.  The status plays no part: a complaint that is pending,
    escalated or already resolved is accepted as well. *)
Theorem accept_succeeds_iff st u id now :
  succeeded (snd (accept st u id now)) = true
  ↔ user_role u = USER_ROLES.CITIZEN
    ∧ ∃ c, complaints st !! id = Some c
           ∧ user c = user_id u
           ∧ responses c ≠ [].
Proof.
  unfold accept, Complaint_save.
  destruct (bool_decide (user_role u = USER_ROLES.CITIZEN)) eqn:Hrole; cbn.
  - apply bool_decide_eq_true_1 in Hrole.
    destruct (complaints st !! id) as [c|] eqn:Hc; cbn.
    + destruct (bool_decide (user c = user_id u)) eqn:Hu; cbn.
      * apply bool_decide_eq_true_1 in Hu.
        destruct (last (responses c)) as [r|] eqn:Hl; cbn.
        -- split; [|done]. intros _. split; [done|]. exists c.
           split_and!; try done. intros Hnil. by rewrite Hnil in Hl.
        -- split; [done|]. intros (_ & c0 & [= <-] & _ & Hne).
           apply last_None in Hl. done.
      * apply bool_decide_eq_false_1 in Hu.
        split; [done|]. by intros (_ & c0 & [= <-] & Hu' & _).
    + split; [done|]. by intros (_ & c0 & ? & _).
  - apply bool_decide_eq_false_1 in Hrole. split; [done|]. by intros [? _].
Qed.

(** X6 -- An acceptance that is carried out sets the status to resolved and the
    resolution to the responder, role and text of the latest response,
    stamped with the time of the request; the stage, the handler, the
    responses and the escalation history of the complaint and the other
    complaints are left as they were, and no office performance record
    other than that of the latest responder changes. *)
Theorem accept_carried_out st u id now st' r :
  accept st u id now = (st', r) →
  succeeded r = true →
  ∃ c latestResponse c',
    complaints st !! id = Some c
    ∧ last (responses c) = Some latestResponse
    ∧ r = Json 200 "Response accepted and complaint resolved"
            (Some (id, c'))
    ∧ complaints st' = <[id := c']> (complaints st)
    ∧ users st' = users st
    ∧ status c' = COMPLAINT_STATUS.RESOLVED
    ∧ resolution c'
      = Some {| resolvedBy := responder latestResponse;
                resolverRole := responderRole latestResponse;
                resolution_text := response latestResponse;
                resolvedAt := now |}
    ∧ currentStage c' = currentStage c
    ∧ currentHandler c' = currentHandler c
    ∧ responses c' = responses c
    ∧ escalationHistory c' = escalationHistory c
    ∧ ∀ k, k ≠ (responder latestResponse, responderRole latestResponse) →
           performances st' !! k = performances st !! k.
Proof.
  unfold accept, Complaint_save. intros H Hr.
  repeat case_match; simplify_eq.
  eexists _, _, _. split_and!; try done.
  intros k Hk. cbn. by rewrite lookup_insert_ne.
Qed.

Lemma serve_keeps_resolved st r id c :
  complaints st !! id = Some c →
  status c = COMPLAINT_STATUS.RESOLVED →
  responds_to id r = false →
  ∃ c',
    complaints (fst (serve st r)) !! id = Some c'
    ∧ status c' = COMPLAINT_STATUS.RESOLVED
    ∧ user c' = user c.
Proof.
  intros Hc Hst Hr.
  assert (fresh (dom (complaints st)) ≠ id) as Hfresh.
  { intros <-. by rewrite fresh_not_stored in Hc. }
  destruct r as [v body now|v id' reason now|v id' resp comment now|v id' now];
    cbn in *.
  - unfold submit, submit_first_stage, submit_second_stage, Complaint_save,
      Complaint_insert.
    repeat case_match; simplify_eq; cbn; try (by exists c).
    all: try (rewrite lookup_insert_ne by done; by exists c).
    all: match goal with
         | Hf : second_stage_filter _ _ = true |- _ =>
             apply second_stage_filter_spec in Hf as (_ & _ & Hp & _)
         end.
    all: rewrite !lookup_insert_ne; [by exists c|done|].
    all: intros ->; simplify_eq; congruence.
  - destruct (escalate st v id' reason now) as [st' r] eqn:H.
    destruct (succeeded r) eqn:Hs; cbn.
    + destruct (escalate_done _ _ _ _ _ _ _ H Hs)
        as (c0 & s' & e & Ho & Hn & _ & _ & _ & -> & _).
      destruct Ho as (_ & Hc0 & _).
      rewrite lookup_insert_ne; [by exists c|].
      intros ->. by simplify_eq.
    + destruct (escalate_failed _ _ _ _ _ _ _ H Hs) as [-> _]. by exists c.
  - apply bool_decide_eq_false_1 in Hr.
    unfold respond, Complaint_save.
    repeat case_match; simplify_eq; cbn; try (by exists c).
    all: rewrite lookup_insert_ne by done; by exists c.
  - unfold accept, Complaint_save.
    repeat case_match; simplify_eq; cbn; try (by exists c).
    destruct (decide (id' = id)) as [->|Hne].
    + rewrite lookup_insert_eq. eexists. split; [done|].
      by simplify_eq.
    + rewrite lookup_insert_ne by done. by exists c.
Qed.

Lemma run_keeps_resolved rs id :
  Forall (fun r => responds_to id r = false) rs →
  ∀ st c,
    complaints st !! id = Some c →
    status c = COMPLAINT_STATUS.RESOLVED →
    ∃ c',
      complaints (run st rs) !! id = Some c'
      ∧ status c' = COMPLAINT_STATUS.RESOLVED
      ∧ user c' = user c.
Proof.
  induction 1 as [|r rs Hr _ IH]; intros st c Hc Hst; cbn.
  - by exists c.
  - destruct (serve_keeps_resolved st r id c Hc Hst Hr)
      as (c1 & Hc1 & Hst1 & Hu1).
    destruct (IH _ _ Hc1 Hst1) as (c' & Hc' & Hst' & Hu').
    exists c'. split_and!; [done|done|congruence].
Qed.

(** X7 -- Once an acceptance is carried out, and whatever requests are
    served afterwards as long as none of them asks for a response to the
    complaint, every request of the citizen to escalate the complaint is
    refused with AlreadyResolvedError and changes nothing. *)
Theorem accepted_complaint_is_not_escalated st u id now st' r rs :
  accept st u id now = (st', r) →
  succeeded r = true →
  Forall (fun r => responds_to id r = false) rs →
  ∀ req_reason now',
    escalate (run st' rs) u id req_reason now'
    = (run st' rs, AlreadyResolvedError).
Proof.
  unfold accept, Complaint_save. intros H Hr Hrs req_reason now'.
  destruct (bool_decide (user_role u = USER_ROLES.CITIZEN)) eqn:Hrole;
    cbn in H; [|by simplify_eq].
  destruct (complaints st !! id) as [c|] eqn:Hc; [|by simplify_eq].
  destruct (bool_decide (user c = user_id u)) eqn:Hu; cbn in H;
    [|by simplify_eq].
  destruct (last (responses c)) as [l|] eqn:Hl; [|by simplify_eq].
  apply bool_decide_eq_true_1 in Hrole, Hu. simplify_eq.
  match goal with
  | |- context [run ?s rs] =>
      destruct (run_keeps_resolved rs id Hrs s _ (lookup_insert_eq _ _ _)
                  eq_refl) as (c' & Hc' & Hst' & Hu')
  end.
  eapply escalate_owner_resolved; [|done].
  split_and!; [done|done|]. by rewrite Hu'.
Qed.

(** X4 -- A response of the current handler to a resolved complaint reopens
    it: the status becomes in_progress while the resolution stays
    recorded, and past the first stage a request of the owner to escalate
    it succeeds again exactly when the complaint is eligible. *)
Theorem response_reopens_resolved_complaint
    st u id body_response body_internalComment now st' r c :
  complaints st !! id = Some c →
  status c = COMPLAINT_STATUS.RESOLVED →
  respond st u id body_response body_internalComment now = (st', r) →
  succeeded r = true →
  ∃ c',
    complaints st' !! id = Some c'
    ∧ status c' = COMPLAINT_STATUS.IN_PROGRESS
    ∧ resolution c' = resolution c
    ∧ ∀ v req_reason now',
        user_role v = USER_ROLES.CITIZEN →
        user c = user_id v →
        currentStage c ≠ COMPLAINT_STAGES.STAKEHOLDER_FIRST →
        currentStage c ≠ COMPLAINT_STAGES.KENTIBA →
        (∃ st'' c'',
           escalate st' v id req_reason now'
           = (st'', Json 200 "Complaint escalated successfully"
                      (Some (id, c''))))
        ↔ eligible c' now' = true.
Proof.
  unfold respond, Complaint_save. intros Hc Hst H Hr.
  rewrite Hc in H.
  repeat case_match; simplify_eq.
  all: eexists; split_and!; [cbn; apply lookup_insert_eq|done|done|].
  all: intros v req_reason now' Hv Hu Hf Hk.
  all: apply escalate_succeeds_iff; try done.
  all: split_and!; [done|cbn; apply lookup_insert_eq|done].
Qed.

(** X8 -- An acceptance can be repeated: after one is carried out, a second
    acceptance of the same complaint by the same citizen is carried out
    as well, and the latest responder's [resolvedComplaints] has then been
    raised by 2 for the one complaint. *)
Theorem acceptance_counts_again st u id now st1 r1 now' :
  accept st u id now = (st1, r1) →
  succeeded r1 = true →
  ∃ c latestResponse st2 r2,
    complaints st !! id = Some c
    ∧ last (responses c) = Some latestResponse
    ∧ accept st1 u id now' = (st2, r2)
    ∧ succeeded r2 = true
    ∧ resolvedComplaints
        (OfficePerformance_findOrNew (responder latestResponse)
           (responderRole latestResponse) st2)
      = (resolvedComplaints
           (OfficePerformance_findOrNew (responder latestResponse)
              (responderRole latestResponse) st)
         + 2)%Z.
Proof.
  unfold accept, Complaint_save, OfficePerformance_findOrNew.
  intros H Hr.
  destruct (bool_decide (user_role u = USER_ROLES.CITIZEN)) eqn:Hrole;
    cbn in H; [|by simplify_eq].
  destruct (complaints st !! id) as [c|] eqn:Hc; [|by simplify_eq].
  destruct (bool_decide (user c = user_id u)) eqn:Hu; cbn in H;
    [|by simplify_eq].
  destruct (last (responses c)) as [l|] eqn:Hl; [|by simplify_eq].
  simplify_eq. exists c, l. cbn.
  rewrite lookup_insert_eq. cbn. rewrite Hu, Hl. cbn.
  eexists _, _. split_and!; try done.
  cbn. rewrite !lookup_insert_eq. cbn. lia.
Qed.

(** ** [POST /]: first stage submissions and the books of a second stage *)

Lemma first_stage_request_dispatch body :
  first_stage_request body →
  (if bool_decide (isSecondStage body = Some "true")
   then originalComplaintId body else None) = None.
Proof. intros [Hne| ->]; case_bool_decide; done. Qed.

(** X9 -- A submission of a citizen whose body does not carry
    [isSecondStage] "true" takes the first stage branch whatever else it
    carries, and is carried out exactly when the body names a registered,
    approved stakeholder office and carries a non-empty title,
    description and location. *)
Theorem first_stage_succeeds_iff st u body now :
  user_role u = USER_ROLES.CITIZEN →
  isSecondStage body ≠ Some "true" →
  succeeded (snd (submit st u body now)) = true
  ↔ (∃ office,
       office ∈ users st
       ∧ stakeholderOfficeId body = Some (uid office)
       ∧ role office = USER_ROLES.STAKEHOLDER_OFFICE
       ∧ isApproved office = true)
    ∧ required_fields body.
Proof.
  intros Hrole Hfirst. unfold submit.
  rewrite (bool_decide_eq_true_2 _ Hrole). cbn [negb].
  rewrite (first_stage_request_dispatch body) by (by left).
  unfold submit_first_stage, Complaint_insert, required_fields.
  rewrite <- !required_string_Some.
  destruct (stakeholderOfficeId body) as [oid|] eqn:Hoid.
  - match goal with
    | |- context [List.find ?f ?l] => destruct (List.find f l) as [o|] eqn:Hf
    end.
    + apply find_some in Hf as [Hin Hp].
      rewrite !andb_true_iff, !bool_decide_eq_true in Hp.
      destruct Hp as [[Huid Hro] Happ].
      destruct (required_string (body_title body)),
        (required_string (body_description body)),
        (required_string (body_location body)); cbn.
      all: split; [try done|try by intros (_ & [? ?] & [? ?] & [? ?] & _)].
      intros _. split; [|by split_and!].
      exists o. split_and!; try done; [by apply list_elem_of_In|by rewrite Huid].
    + split; [done|]. intros [(o & Hin & [= Huid] & Hro & Happ) _].
      apply list_elem_of_In in Hin.
      pose proof (find_none _ _ Hf o Hin) as Hn. cbn in Hn.
      rewrite Hro, Happ, Huid in Hn.
      by rewrite !bool_decide_eq_true_2 in Hn.
  - split; [done|]. by intros [(o & _ & ? & _) _].
Qed.

(** X10 -- A first stage submission that is carried out stores one new
    complaint under an id that was not in use, of the requester, against
    the named office, at stakeholder_first with the stakeholder office as
    handler, pending, due three days after the request, without
    responses, history or links; the stored complaints are left as they
    were; and the named office's record has [totalComplaints] raised by 1
    and nothing else changed. *)
Theorem first_stage_carried_out st u body now st' r :
  first_stage_request body →
  submit st u body now = (st', r) →
  succeeded r = true →
  ∃ new_id c' officeId p',
    r = Json 201 "Complaint submitted successfully" (Some (new_id, c'))
    ∧ complaints st !! new_id = None
    ∧ complaints st' = <[new_id := c']> (complaints st)
    ∧ stakeholderOfficeId body = Some officeId
    ∧ user c' = user_id u
    ∧ stakeholderOffice c' = officeId
    ∧ currentStage c' = COMPLAINT_STAGES.STAKEHOLDER_FIRST
    ∧ currentHandler c' = COMPLAINT_HANDLERS.STAKEHOLDER_OFFICE
    ∧ status c' = COMPLAINT_STATUS.PENDING
    ∧ submittedAt c' = now
    ∧ stage_due c' = Some (now + 3 * day_ms)%Z
    ∧ responses c' = []
    ∧ escalationHistory c' = []
    ∧ relatedComplaint c' = None
    ∧ secondStageComplaint c' = None
    ∧ performances st'
      = <[(officeId, COMPLAINT_HANDLERS.STAKEHOLDER_OFFICE) := p']>
          (performances st)
    ∧ (let p :=
         OfficePerformance_findOrNew officeId
           COMPLAINT_HANDLERS.STAKEHOLDER_OFFICE st in
       totalComplaints p' = (totalComplaints p + 1)%Z
       ∧ resolvedComplaints p' = resolvedComplaints p
       ∧ escalatedComplaints p' = escalatedComplaints p
       ∧ failureRecords p' = failureRecords p).
Proof.
  intros Hfirst. unfold submit.
  rewrite (first_stage_request_dispatch _ Hfirst).
  unfold submit_first_stage, Complaint_insert. intros H Hr.
  repeat case_match; simplify_eq.
  eexists _, _, _, _. split_and!; try done.
  apply fresh_not_stored.
Qed.

(** X11 -- A second stage submission that is carried out enters one element in
    the history of the original, from the handler of the two complaints
    to the handler one level up, although no complaint changes handler;
    it books no failure; and it raises [totalComplaints] by 1 in the
    record keyed by the office id of the body and the role of that
    handler, leaving the other records as they were. *)
Theorem second_stage_books st u body now orig_id st' r :
  isSecondStage body = Some "true" →
  originalComplaintId body = Some orig_id →
  submit st u body now = (st', r) →
  succeeded r = true →
  ∃ orig orig' new_id new officeId p',
    complaints st !! orig_id = Some orig
    ∧ complaints st' !! orig_id = Some orig'
    ∧ r = Json 201 "Second stage complaint submitted successfully"
            (Some (new_id, new))
    ∧ stakeholderOfficeId body = Some officeId
    ∧ currentHandler orig' = currentHandler orig
    ∧ escalationHistory orig'
      = escalationHistory orig
        ++ [{| from := currentHandler new;
               to := match currentHandler new with
                     | COMPLAINT_HANDLERS.STAKEHOLDER_OFFICE =>
                         COMPLAINT_HANDLERS.WEREDA_ANTI_CORRUPTION
                     | _ => COMPLAINT_HANDLERS.KIFLEKETEMA_ANTI_CORRUPTION
                     end;
               reason := "Escalated to second stage by citizen";
               date := now |}]
    ∧ performances st'
      = <[(officeId, currentHandler new) := p']> (performances st)
    ∧ (let p :=
         OfficePerformance_findOrNew officeId (currentHandler new) st in
       totalComplaints p' = (totalComplaints p + 1)%Z
       ∧ resolvedComplaints p' = resolvedComplaints p
       ∧ escalatedComplaints p' = escalatedComplaints p
       ∧ failureRecords p' = failureRecords p).
Proof.
  intros Hss Hid. unfold submit. rewrite Hss, Hid.
  rewrite (bool_decide_eq_true_2 (Some "true" = Some "true")) by done.
  unfold submit_second_stage, Complaint_save, Complaint_insert.
  intros H Hr.
  repeat case_match; simplify_eq.
  all: eexists _, _, _, _, _, _; split_and!;
    [done|cbn; apply lookup_insert_eq|done..].
Qed.

(** ** The read routes *)

Lemma matches_with_status q s c :
  query_status q = None →
  matches (with_status s q) c
  = matches q c && bool_decide (status_value (status c) = s).
Proof. unfold matches. cbn. intros ->. by rewrite andb_true_r. Qed.

Lemma count_by_status q (l : list Complaint) :
  query_status q = None →
  length (filter (fun c => matches q c = true) l)
  = length (filter (fun c => matches (with_status "pending" q) c = true) l)
    + length
        (filter (fun c => matches (with_status "in_progress" q) c = true) l)
    + length (filter (fun c => matches (with_status "resolved" q) c = true) l)
    + length
        (filter (fun c => matches (with_status "escalated" q) c = true) l).
Proof.
  intros Hq. induction l as [|c l IH]; [done|].
  rewrite !filter_cons, !matches_with_status by done.
  destruct (matches q c), (status c); cbn; eval_decide; cbn;
    repeat case_decide; try done; cbn; lia.
Qed.

(** X23 -- The statistics of the dashboard add up: for every requester who is
    not a citizen the total equals the sum of the pending, in progress,
    resolved and escalated counts; a citizen is refused. *)
Theorem dashboard_stats_add_up st u :
  match dashboard_stats st u with
  | Stats total pending inProgress resolved escalated =>
      user_role u ≠ USER_ROLES.CITIZEN
      ∧ total = pending + inProgress + resolved + escalated
  | StatsRefused code _ =>
      user_role u = USER_ROLES.CITIZEN ∧ code = 403
  end.
Proof.
  unfold dashboard_stats, Complaint_countDocuments.
  case_bool_decide as Hrole; [done|]. split; [done|].
  apply count_by_status. by repeat case_bool_decide.
Qed.

Lemma populate_uid ref st usr : populate ref st = Some usr → uid usr = ref.
Proof.
  unfold populate. intros Hf. apply find_some in Hf as [_ Hp].
  by apply bool_decide_eq_true_1 in Hp.
Qed.

(** X24 -- On a reachable store the list and the detail view agree: a stored
    complaint whose citizen and office are registered users matches the
    filter [GET /] builds for a requester exactly when [GET /:id] shows
    it to that requester. *)
Theorem listed_iff_shown st u id c :
  reachable st →
  complaints st !! id = Some c →
  is_Some (populate (user c) st) →
  is_Some (populate (stakeholderOffice c) st) →
  matches (list_query u None) c = true ↔ view st u id = Shown c.
Proof.
  intros Hreach Hc [usr Husr] [off Hoff].
  pose proof (reachable_coherent st Hreach id c Hc) as Hh.
  pose proof (populate_uid _ _ _ Husr) as Hu.
  pose proof (populate_uid _ _ _ Hoff) as Ho.
  unfold view, list_query, matches. rewrite Hc, Husr, Hoff, Hu, Ho, Hh.
  destruct u as [i ro]. cbn [user_role user_id].
  destruct ro; eval_decide; cbn; rewrite ?andb_true_r.
  - case_bool_decide; [done|]. split; [done|]. eval_decide. done.
  - case_bool_decide; [done|]. split; [done|]. eval_decide. done.
  - destruct (currentStage c); cbn; eval_decide; cbn; done.
  - destruct (currentStage c); cbn; eval_decide; cbn; done.
  - done.
Qed.

(** ** More on [POST /:id/escalate] *)

(** X14 -- An escalation that is carried out moves the complaint exactly one
    stage ahead, to the handler that owns the new stage, and sets its
    status to pending; the history element is dated with the request and
    carries the reason of the request or, when that is missing or empty,
    "Escalated due to unresolved complaint" for a handler change and
    "Escalated to next stage" otherwise; the responses, the resolution
    and the links of the complaint, the other complaints and the users
    are left as they were. *)
Theorem escalate_carried_out st u id req_reason now st' r :
  escalate st u id req_reason now = (st', r) →
  succeeded r = true →
  ∃ c c' e,
    complaints st !! id = Some c
    ∧ r = Json 200 "Complaint escalated successfully" (Some (id, c'))
    ∧ complaints st' = <[id := c']> (complaints st)
    ∧ users st' = users st
    ∧ stage_index (currentStage c') = S (stage_index (currentStage c))
    ∧ currentHandler c' = stage_handler (currentStage c')
    ∧ status c' = COMPLAINT_STATUS.PENDING
    ∧ escalationHistory c' = escalationHistory c ++ [e]
    ∧ date e = now
    ∧ reason e
      = or_default req_reason
          (if crosses_handler (currentStage c) (currentStage c')
           then "Escalated due to unresolved complaint"
           else "Escalated to next stage")
    ∧ responses c' = responses c
    ∧ resolution c' = resolution c
    ∧ relatedComplaint c' = relatedComplaint c
    ∧ secondStageComplaint c' = secondStageComplaint c.
Proof.
  intros H Hr.
  destruct (escalate_success_inv _ _ _ _ _ _ _ H Hr)
    as (c & s' & Ho & _ & Hn & _ & Ha).
  destruct Ho as (_ & Hc & _).
  revert Ha. unfold escalate_apply, Complaint_save.
  destruct (crosses_handler (currentStage c) s') eqn:Hx;
    cbn [forallb]; rewrite andb_true_r;
    match goal with
    | |- context [valid_escalation ?e] =>
        destruct (valid_escalation e) eqn:Hv; [|intros; by simplify_eq]
    end;
    intros Ha; simplify_eq.
  all: eexists c, _, _; split_and!; [done|reflexivity|..].
  all: try (destruct (failing_office _ _ _) as [[? ?]|]; done).
  all: try (unfold escalate_update; by destruct (stage_due_field s')).
  all: try (unfold escalate_update; destruct (stage_due_field s'); cbn;
            by rewrite ?Hx, ?(next_stage_index _ _ Hn)).
Qed.

(** X15 -- Eligibility is not lost by waiting or by a further response: a
    complaint that is eligible at some time is still eligible at every
    later time after the current handler has responded to it. *)
Theorem eligibility_survives_response
    st u id body_response body_internalComment t st' r c now now' :
  complaints st !! id = Some c →
  eligible c now = true →
  (now ≤ now')%Z →
  respond st u id body_response body_internalComment t = (st', r) →
  succeeded r = true →
  ∃ c', complaints st' !! id = Some c' ∧ eligible c' now' = true.
Proof.
  unfold respond, Complaint_save. intros Hc He Hle H Hr.
  rewrite Hc in H.
  repeat case_match; simplify_eq.
  all: eexists; split; [cbn; apply lookup_insert_eq|].
  all: revert He; unfold eligible, stage_due; cbn.
  all: rewrite !orb_true_iff; intros [Hd|Hn]; [left|right].
  all: try (destruct (stage_due_field (currentStage c)) as [f|];
            [destruct f|]; cbn in *; try done;
            match goal with
            | H : date_gt _ ?d = true |- _ =>
                destruct d; cbn in *; [|done];
                apply Z.ltb_lt in H; apply Z.ltb_lt; lia
            end).
  all: rewrite length_app; cbn; apply Nat.ltb_lt in Hn; apply Nat.ltb_lt; lia.
Qed.

(** X16 -- In every reachable store the handler of a complaint is the one that
    owns its stage. *)
Theorem reachable_handler_owns_stage st id c :
  reachable st →
  complaints st !! id = Some c →
  currentHandler c = stage_handler (currentStage c).
Proof. intros Hreach. by apply reachable_coherent. Qed.

(** ** Instances on the small deployment *)

Lemma second_stage_is_reachable us : reachable (second_stage us).
Proof. exists us, second_stage_requests. reflexivity. Qed.

Lemma refused_request_leaves_store_witness :
  let st := submitted all_officers in
  let r := Escalate citizen 0 None day_ms in
  snd (serve st r) = EscalationNotAllowedError
  ∧ (400 ≤ 400)%nat
  ∧ fst (serve st r) = st.
Proof.
  intros st r.
  assert (snd (serve st r) = EscalationNotAllowedError) as Hf
    by (vm_compute; done).
  split_and!; [done|lia|].
  exact (refused_request_leaves_store st r 400 _ None Hf (le_n 400)).
Defined.

Lemma respond_carried_out_witness :
  let st := submitted all_officers in
  let st' := run st [Respond office 0 (Some "Noted") None 1000] in
  let r := Json 200 "Response submitted successfully"
             (Some (0, stored st' 0)) in
  respond st office 0 (Some "Noted") None 1000 = (st', r)
  ∧ succeeded r = true
  ∧ ∃ c c',
      complaints st !! 0 = Some c
      ∧ r = Json 200 "Response submitted successfully" (Some (0, c'))
      ∧ complaints st' = <[0 := c']> (complaints st)
      ∧ performances st' = performances st
      ∧ users st' = users st
      ∧ responses c'
        = responses c
          ++ [{| responder := user_id office;
                 responderRole := currentHandler c;
                 response := Some "Noted";
                 response_status := COMPLAINT_STATUS.IN_PROGRESS;
                 internalComment := None;
                 createdAt := 1000 |}]
      ∧ status c' = COMPLAINT_STATUS.IN_PROGRESS
      ∧ currentStage c' = currentStage c
      ∧ currentHandler c' = currentHandler c
      ∧ escalationHistory c' = escalationHistory c
      ∧ resolution c' = resolution c.
Proof.
  intros st st' r.
  assert (respond st office 0 (Some "Noted") None 1000 = (st', r)) as H
    by (vm_compute; done).
  split_and!; [done|done|].
  exact (respond_carried_out st office 0 (Some "Noted") None 1000 st' r
           H eq_refl).
Defined.

Lemma response_reopens_resolved_complaint_witness :
  let st := second_stage_resolved all_officers in
  let st' := run st [Respond office 1 (Some "Again") None 7000] in
  let r := Json 200 "Response submitted successfully"
             (Some (1, stored st' 1)) in
  let c := stored st 1 in
  complaints st !! 1 = Some c
  ∧ status c = COMPLAINT_STATUS.RESOLVED
  ∧ respond st office 1 (Some "Again") None 7000 = (st', r)
  ∧ succeeded r = true
  ∧ ∃ c',
      complaints st' !! 1 = Some c'
      ∧ status c' = COMPLAINT_STATUS.IN_PROGRESS
      ∧ resolution c' = resolution c
      ∧ ∀ v req_reason now',
          user_role v = USER_ROLES.CITIZEN →
          user c = user_id v →
          currentStage c ≠ COMPLAINT_STAGES.STAKEHOLDER_FIRST →
          currentStage c ≠ COMPLAINT_STAGES.KENTIBA →
          (∃ st'' c'',
             escalate st' v 1 req_reason now'
             = (st'', Json 200 "Complaint escalated successfully"
                        (Some (1, c''))))
          ↔ eligible c' now' = true.
Proof.
  intros st st' r c.
  assert (complaints st !! 1 = Some c) as Hc by (vm_compute; done).
  assert (respond st office 1 (Some "Again") None 7000 = (st', r)) as H
    by (vm_compute; done).
  split_and!; [done|done|done|done|].
  exact (response_reopens_resolved_complaint st office 1 (Some "Again") None
           7000 st' r c Hc eq_refl H eq_refl).
Defined.

Lemma accept_carried_out_witness :
  let st := one_resolved_at_once in
  let st' := run st [Accept citizen 1 day_ms] in
  let r := Json 200 "Response accepted and complaint resolved"
             (Some (1, stored st' 1)) in
  accept st citizen 1 day_ms = (st', r)
  ∧ succeeded r = true
  ∧ ∃ c latestResponse c',
      complaints st !! 1 = Some c
      ∧ last (responses c) = Some latestResponse
      ∧ r = Json 200 "Response accepted and complaint resolved"
              (Some (1, c'))
      ∧ complaints st' = <[1 := c']> (complaints st)
      ∧ users st' = users st
      ∧ status c' = COMPLAINT_STATUS.RESOLVED
      ∧ resolution c'
        = Some {| resolvedBy := responder latestResponse;
                  resolverRole := responderRole latestResponse;
                  resolution_text := response latestResponse;
                  resolvedAt := day_ms |}
      ∧ currentStage c' = currentStage c
      ∧ currentHandler c' = currentHandler c
      ∧ responses c' = responses c
      ∧ escalationHistory c' = escalationHistory c
      ∧ ∀ k, k ≠ (responder latestResponse, responderRole latestResponse) →
             performances st' !! k = performances st !! k.
Proof.
  intros st st' r.
  assert (accept st citizen 1 day_ms = (st', r)) as H by (vm_compute; done).
  split_and!; [done|done|].
  exact (accept_carried_out st citizen 1 day_ms st' r H eq_refl).
Defined.

Lemma accepted_complaint_is_not_escalated_witness :
  let st := run (initial all_officers) one_resolved_requests in
  let st' := run st [Accept citizen 1 (5 * day_ms)] in
  let r := Json 200 "Response accepted and complaint resolved"
             (Some (1, stored st' 1)) in
  let rs := [Submit citizen first_stage_body (6 * day_ms);
             Respond office 0 (Some "Closed") None (7 * day_ms);
             Accept citizen 1 (8 * day_ms)] in
  accept st citizen 1 (5 * day_ms) = (st', r)
  ∧ succeeded r = true
  ∧ Forall (fun r => responds_to 1 r = false) rs
  ∧ ∀ req_reason now',
      escalate (run st' rs) citizen 1 req_reason now'
      = (run st' rs, AlreadyResolvedError).
Proof.
  intros st st' r rs.
  assert (accept st citizen 1 (5 * day_ms) = (st', r)) as H
    by (vm_compute; done).
  assert (Forall (fun r => responds_to 1 r = false) rs) as Hrs
    by (repeat constructor).
  split_and!; [done|done|done|].
  exact (accepted_complaint_is_not_escalated st citizen 1 (5 * day_ms)%Z
           st' r rs H eq_refl Hrs).
Defined.

Lemma acceptance_counts_again_witness :
  let st := one_resolved_at_once in
  let st1 := run st [Accept citizen 1 day_ms] in
  let r1 := Json 200 "Response accepted and complaint resolved"
              (Some (1, stored st1 1)) in
  accept st citizen 1 day_ms = (st1, r1)
  ∧ succeeded r1 = true
  ∧ ∃ c latestResponse st2 r2,
      complaints st !! 1 = Some c
      ∧ last (responses c) = Some latestResponse
      ∧ accept st1 citizen 1 (2 * day_ms) = (st2, r2)
      ∧ succeeded r2 = true
      ∧ resolvedComplaints
          (OfficePerformance_findOrNew (responder latestResponse)
             (responderRole latestResponse) st2)
        = (resolvedComplaints
             (OfficePerformance_findOrNew (responder latestResponse)
                (responderRole latestResponse) st)
           + 2)%Z.
Proof.
  intros st st1 r1.
  assert (accept st citizen 1 day_ms = (st1, r1)) as H by (vm_compute; done).
  split_and!; [done|done|].
  exact (acceptance_counts_again st citizen 1 day_ms st1 r1 (2 * day_ms)%Z
           H eq_refl).
Defined.

Lemma first_stage_succeeds_iff_witness :
  let st := initial all_officers in
  user_role citizen = USER_ROLES.CITIZEN
  ∧ isSecondStage first_stage_body ≠ Some "true"
  ∧ (succeeded (snd (submit st citizen first_stage_body 0)) = true
     ↔ (∃ office,
          office ∈ users st
          ∧ stakeholderOfficeId first_stage_body = Some (uid office)
          ∧ role office = USER_ROLES.STAKEHOLDER_OFFICE
          ∧ isApproved office = true)
       ∧ required_fields first_stage_body).
Proof.
  intros st.
  assert (isSecondStage first_stage_body ≠ Some "true") as Hf by done.
  split_and!; [done|done|].
  exact (first_stage_succeeds_iff st citizen first_stage_body 0 eq_refl Hf).
Defined.

Lemma first_stage_carried_out_witness :
  let st := initial all_officers in
  let st' := submitted all_officers in
  let r := Json 201 "Complaint submitted successfully"
             (Some (0, complaint_0)) in
  first_stage_request first_stage_body
  ∧ submit st citizen first_stage_body 0 = (st', r)
  ∧ succeeded r = true
  ∧ ∃ new_id c' officeId p',
      r = Json 201 "Complaint submitted successfully" (Some (new_id, c'))
      ∧ complaints st !! new_id = None
      ∧ complaints st' = <[new_id := c']> (complaints st)
      ∧ stakeholderOfficeId first_stage_body = Some officeId
      ∧ user c' = user_id citizen
      ∧ stakeholderOffice c' = officeId
      ∧ currentStage c' = COMPLAINT_STAGES.STAKEHOLDER_FIRST
      ∧ currentHandler c' = COMPLAINT_HANDLERS.STAKEHOLDER_OFFICE
      ∧ status c' = COMPLAINT_STATUS.PENDING
      ∧ submittedAt c' = 0%Z
      ∧ stage_due c' = Some (0 + 3 * day_ms)%Z
      ∧ responses c' = []
      ∧ escalationHistory c' = []
      ∧ relatedComplaint c' = None
      ∧ secondStageComplaint c' = None
      ∧ performances st'
        = <[(officeId, COMPLAINT_HANDLERS.STAKEHOLDER_OFFICE) := p']>
            (performances st)
      ∧ (let p :=
           OfficePerformance_findOrNew officeId
             COMPLAINT_HANDLERS.STAKEHOLDER_OFFICE st in
         totalComplaints p' = (totalComplaints p + 1)%Z
         ∧ resolvedComplaints p' = resolvedComplaints p
         ∧ escalatedComplaints p' = escalatedComplaints p
         ∧ failureRecords p' = failureRecords p).
Proof.
  intros st st' r.
  assert (first_stage_request first_stage_body) as Hf by (by left).
  assert (submit st citizen first_stage_body 0 = (st', r)) as H
    by (vm_compute; done).
  split_and!; [done|done|done|].
  exact (first_stage_carried_out st citizen first_stage_body 0 st' r
           Hf H eq_refl).
Defined.

Lemma second_stage_books_witness :
  let st := answered_twice all_officers in
  let body := second_stage_body (Some "Permit") 2 in
  let st' := second_stage all_officers in
  let r := Json 201 "Second stage complaint submitted successfully"
             (Some (1, stored st' 1)) in
  isSecondStage body = Some "true"
  ∧ originalComplaintId body = Some 0
  ∧ submit st citizen body 3000 = (st', r)
  ∧ succeeded r = true
  ∧ ∃ orig orig' new_id new officeId p',
      complaints st !! 0 = Some orig
      ∧ complaints st' !! 0 = Some orig'
      ∧ r = Json 201 "Second stage complaint submitted successfully"
              (Some (new_id, new))
      ∧ stakeholderOfficeId body = Some officeId
      ∧ currentHandler orig' = currentHandler orig
      ∧ escalationHistory orig'
        = escalationHistory orig
          ++ [{| from := currentHandler new;
                 to := match currentHandler new with
                       | COMPLAINT_HANDLERS.STAKEHOLDER_OFFICE =>
                           COMPLAINT_HANDLERS.WEREDA_ANTI_CORRUPTION
                       | _ => COMPLAINT_HANDLERS.KIFLEKETEMA_ANTI_CORRUPTION
                       end;
                 reason := "Escalated to second stage by citizen";
                 date := 3000 |}]
      ∧ performances st'
        = <[(officeId, currentHandler new) := p']> (performances st)
      ∧ (let p :=
           OfficePerformance_findOrNew officeId (currentHandler new) st in
         totalComplaints p' = (totalComplaints p + 1)%Z
         ∧ resolvedComplaints p' = resolvedComplaints p
         ∧ escalatedComplaints p' = escalatedComplaints p
         ∧ failureRecords p' = failureRecords p).
Proof.
  intros st body st' r.
  assert (submit st citizen body 3000 = (st', r)) as H by (vm_compute; done).
  split_and!; [done|done|done|done|].
  exact (second_stage_books st citizen body 3000 0 st' r
           eq_refl eq_refl H eq_refl).
Defined.

Lemma reachable_status_sound_witness :
  let st := second_stage all_officers in
  reachable st
  ∧ complaints st !! 0 = Some (stored st 0)
  ∧ status_sound (stored st 0).
Proof.
  intros st.
  assert (complaints st !! 0 = Some (stored st 0)) as Hc
    by (vm_compute; done).
  split_and!; [apply second_stage_is_reachable|done|].
  exact (reachable_status_sound st 0 (stored st 0)
           (second_stage_is_reachable all_officers) Hc).
Defined.

Lemma reachable_later_dues_unset_witness :
  let st := second_stage all_officers in
  reachable st
  ∧ complaints st !! 1 = Some (stored st 1)
  ∧ later_dues_unset (stored st 1).
Proof.
  intros st.
  assert (complaints st !! 1 = Some (stored st 1)) as Hc
    by (vm_compute; done).
  split_and!; [apply second_stage_is_reachable|done|].
  exact (reachable_later_dues_unset st 1 (stored st 1)
           (second_stage_is_reachable all_officers) Hc).
Defined.

Lemma reachable_history_valid_witness :
  let st := second_stage all_officers in
  let e := {| from := COMPLAINT_HANDLERS.STAKEHOLDER_OFFICE;
              to := COMPLAINT_HANDLERS.WEREDA_ANTI_CORRUPTION;
              reason := "Escalated to second stage by citizen";
              date := 3000 |} in
  reachable st
  ∧ complaints st !! 0 = Some (stored st 0)
  ∧ e ∈ escalationHistory (stored st 0)
  ∧ valid_escalation e = true.
Proof.
  intros st e.
  assert (complaints st !! 0 = Some (stored st 0)) as Hc
    by (vm_compute; done).
  assert (e ∈ escalationHistory (stored st 0)) as He
    by (vm_compute; apply list_elem_of_here).
  split_and!; [apply second_stage_is_reachable|done|done|].
  exact (reachable_history_valid st 0 (stored st 0) e
           (second_stage_is_reachable all_officers) Hc He).
Defined.

Lemma reachable_links_sound_witness :
  reachable (second_stage all_officers)
  ∧ links_sound (complaints (second_stage all_officers)).
Proof.
  split; [apply second_stage_is_reachable|].
  exact (reachable_links_sound (second_stage all_officers)
           (second_stage_is_reachable all_officers)).
Defined.

Lemma reachable_handler_owns_stage_witness :
  let st := second_stage all_officers in
  reachable st
  ∧ complaints st !! 1 = Some (stored st 1)
  ∧ currentHandler (stored st 1)
    = stage_handler (currentStage (stored st 1)).
Proof.
  intros st.
  assert (complaints st !! 1 = Some (stored st 1)) as Hc
    by (vm_compute; done).
  split_and!; [apply second_stage_is_reachable|done|].
  exact (reachable_handler_owns_stage st 1 (stored st 1)
           (second_stage_is_reachable all_officers) Hc).
Defined.

Lemma stored_complaint_keeps_witness :
  let st := submitted all_officers in
  let rs := [Respond office 0 (Some "Noted") None 1000;
             Submit citizen (second_stage_body (Some "Permit") 2) 3000;
             Accept citizen 0 4000] in
  complaints st !! 0 = Some complaint_0
  ∧ ∃ c', complaints (run st rs) !! 0 = Some c' ∧ keeps complaint_0 c'.
Proof.
  intros st rs.
  assert (complaints st !! 0 = Some complaint_0) as Hc by (vm_compute; done).
  split; [done|].
  exact (stored_complaint_keeps st rs 0 complaint_0 Hc).
Defined.

Lemma performance_records_grow_witness :
  let st := submitted all_officers in
  let rs := [Respond office 0 (Some "Noted") None 1000;
             Accept citizen 0 4000] in
  let k := (2, COMPLAINT_HANDLERS.STAKEHOLDER_OFFICE) in
  let p := count_complaint 0 new_OfficePerformance in
  performances st !! k = Some p
  ∧ ∃ p', performances (run st rs) !! k = Some p' ∧ grows p p'.
Proof.
  intros st rs k p.
  assert (performances st !! k = Some p) as Hp by (vm_compute; done).
  split; [done|].
  exact (performance_records_grow st rs k p Hp).
Defined.

Lemma listed_iff_shown_witness :
  let st := second_stage registered in
  let c := stored st 0 in
  reachable st
  ∧ complaints st !! 0 = Some c
  ∧ is_Some (populate (user c) st)
  ∧ is_Some (populate (stakeholderOffice c) st)
  ∧ (matches (list_query citizen None) c = true
     ↔ view st citizen 0 = Shown c).
Proof.
  intros st c.
  assert (complaints st !! 0 = Some c) as Hc by (vm_compute; done).
  assert (is_Some (populate (user c) st)) as Hu by (vm_compute; eauto).
  assert (is_Some (populate (stakeholderOffice c) st)) as Ho
    by (vm_compute; eauto).
  split_and!; [apply second_stage_is_reachable|done|done|done|].
  exact (listed_iff_shown st citizen 0 c
           (second_stage_is_reachable registered) Hc Hu Ho).
Defined.

Lemma escalate_carried_out_witness :
  let st := second_stage all_officers in
  let now := (4 * day_ms)%Z in
  let st' := run st [Escalate citizen 1 None now] in
  let r := Json 200 "Complaint escalated successfully"
             (Some (1, stored st' 1)) in
  escalate st citizen 1 None now = (st', r)
  ∧ succeeded r = true
  ∧ ∃ c c' e,
      complaints st !! 1 = Some c
      ∧ r = Json 200 "Complaint escalated successfully" (Some (1, c'))
      ∧ complaints st' = <[1 := c']> (complaints st)
      ∧ users st' = users st
      ∧ stage_index (currentStage c') = S (stage_index (currentStage c))
      ∧ currentHandler c' = stage_handler (currentStage c')
      ∧ status c' = COMPLAINT_STATUS.PENDING
      ∧ escalationHistory c' = escalationHistory c ++ [e]
      ∧ date e = now
      ∧ reason e
        = or_default None
            (if crosses_handler (currentStage c) (currentStage c')
             then "Escalated due to unresolved complaint"
             else "Escalated to next stage")
      ∧ responses c' = responses c
      ∧ resolution c' = resolution c
      ∧ relatedComplaint c' = relatedComplaint c
      ∧ secondStageComplaint c' = secondStageComplaint c.
Proof.
  intros st now st' r.
  assert (escalate st citizen 1 None now = (st', r)) as H
    by (vm_compute; done).
  split_and!; [done|done|].
  exact (escalate_carried_out st citizen 1 None now st' r H eq_refl).
Defined.

Lemma eligibility_survives_response_witness :
  let st := second_stage all_officers in
  let st' := run st [Respond office 0 (Some "Third") None 5000] in
  let r := Json 200 "Response submitted successfully"
             (Some (0, stored st' 0)) in
  let c := stored st 0 in
  complaints st !! 0 = Some c
  ∧ eligible c 4000 = true
  ∧ (4000 ≤ 6000)%Z
  ∧ respond st office 0 (Some "Third") None 5000 = (st', r)
  ∧ succeeded r = true
  ∧ ∃ c', complaints st' !! 0 = Some c' ∧ eligible c' 6000 = true.
Proof.
  intros st st' r c.
  assert (complaints st !! 0 = Some c) as Hc by (vm_compute; done).
  assert (respond st office 0 (Some "Third") None 5000 = (st', r)) as H
    by (vm_compute; done).
  split_and!; [done|done|lia|done|done|].
  exact (eligibility_survives_response st office 0 (Some "Third") None 5000
           st' r c 4000 6000 Hc eq_refl ltac:(lia) H eq_refl).
Defined.

(** ** Leaving the first stage, and repeating a second stage submission *)

Lemma escalate_keeps_first_stage st u id req_reason now j c :
  complaints st !! j = Some c →
  currentStage c = COMPLAINT_STAGES.STAKEHOLDER_FIRST →
  complaints (fst (escalate st u id req_reason now)) !! j = Some c.
Proof.
  intros Hc Hs.
  destruct (escalate st u id req_reason now) as [st' r] eqn:H.
  destruct (succeeded r) eqn:Hr; cbn.
  - destruct (escalate_done _ _ _ _ _ _ _ H Hr)
      as (c0 & s' & e & Ho & _ & Hn & _ & _ & -> & _ & Hto & Hv & Hp).
    destruct Ho as (_ & Hc0 & _).
    destruct (decide (id = j)) as [->|Hne];
      [|by rewrite lookup_insert_ne].
    rewrite Hc in Hc0. simplify_eq. rewrite Hs in Hn, Hp.
    cbn in Hn. simplify_eq.
    rewrite (crosses_handler_cases COMPLAINT_STAGES.STAKEHOLDER_FIRST
               COMPLAINT_STAGES.STAKEHOLDER_SECOND eq_refl) in Hp.
    destruct Hp as [Hfrom _].
    by rewrite (stakeholder_first_entry_invalid e Hfrom Hto) in Hv.
  - by destruct (escalate_failed _ _ _ _ _ _ _ H Hr) as [-> _].
Qed.

(** X13 -- A complaint leaves stakeholder_first only through a second stage
    submission that names it as the original: no escalation, response,
    acceptance or other submission moves it. *)
Theorem first_stage_left_only_by_second_stage st r id c c' :
  complaints st !! id = Some c →
  currentStage c = COMPLAINT_STAGES.STAKEHOLDER_FIRST →
  complaints (fst (serve st r)) !! id = Some c' →
  currentStage c' ≠ COMPLAINT_STAGES.STAKEHOLDER_FIRST →
  ∃ u body now,
    r = Submit u body now
    ∧ isSecondStage body = Some "true"
    ∧ originalComplaintId body = Some id.
Proof.
  intros Hc Hs Hc' Hs'.
  assert (fresh (dom (complaints st)) ≠ id) as Hfresh.
  { intros <-. by rewrite fresh_not_stored in Hc. }
  destruct r as [u body now|u j reason now|u j resp comment now|u j now];
    cbn in Hc'.
  - exists u, body, now. split; [done|].
    unfold submit in Hc'.
    destruct (bool_decide (user_role u = USER_ROLES.CITIZEN));
      cbn in Hc'; [|rewrite Hc in Hc'; by simplify_eq].
    destruct (bool_decide (isSecondStage body = Some "true")) eqn:Hss.
    + apply bool_decide_eq_true_1 in Hss.
      destruct (originalComplaintId body) as [o|] eqn:Ho.
      * split; [done|]. f_equal.
        destruct (decide (o = id)) as [->|Hne]; [done|]. exfalso.
        unfold submit_second_stage, Complaint_save, Complaint_insert in Hc'.
        repeat case_match; simplify_eq; cbn in Hc';
          rewrite ?lookup_insert_ne in Hc' by done;
          rewrite Hc in Hc'; by simplify_eq.
      * exfalso. unfold submit_first_stage, Complaint_insert in Hc'.
        repeat case_match; simplify_eq; cbn in Hc';
          rewrite ?lookup_insert_ne in Hc' by done;
          rewrite Hc in Hc'; by simplify_eq.
    + exfalso. unfold submit_first_stage, Complaint_insert in Hc'.
      repeat case_match; simplify_eq; cbn in Hc';
        rewrite ?lookup_insert_ne in Hc' by done;
        rewrite Hc in Hc'; by simplify_eq.
  - exfalso.
    rewrite (escalate_keeps_first_stage st u j reason now id c Hc Hs) in Hc'.
    by simplify_eq.
  - exfalso. unfold respond, Complaint_save in Hc'.
    repeat case_match; simplify_eq; cbn in Hc';
      try (destruct (decide (j = id)) as [->|Hne];
           [rewrite lookup_insert_eq in Hc'
           |rewrite lookup_insert_ne in Hc' by done]);
      rewrite ?Hc in *; simplify_eq; by cbn in Hs'.
  - exfalso. unfold accept, Complaint_save in Hc'.
    repeat case_match; simplify_eq; cbn in Hc';
      try (destruct (decide (j = id)) as [->|Hne];
           [rewrite lookup_insert_eq in Hc'
           |rewrite lookup_insert_ne in Hc' by done]);
      rewrite ?Hc in *; simplify_eq; by cbn in Hs'.
Qed.

(** X12 -- A second stage submission that was carried out cannot be repeated:
    as long as the original stays as the submission left it, every
    further second stage submission that names it is refused and changes
    nothing, whoever sends it. *)
Theorem second_stage_not_repeated st u body now orig_id st' r :
  isSecondStage body = Some "true" →
  originalComplaintId body = Some orig_id →
  submit st u body now = (st', r) →
  succeeded r = true →
  ∀ v body' now',
    isSecondStage body' = Some "true" →
    originalComplaintId body' = Some orig_id →
    ∃ r', submit st' v body' now' = (st', r') ∧ succeeded r' = false.
Proof.
  intros Hss Hid H Hr v body' now' Hss' Hid'.
  destruct (submit_second_stage_done _ _ _ _ _ _ _ Hss Hid H Hr)
    as (orig & s' & new_c & e & _ & _ & _ & _ & _ & _ & _ & _ & Hcs & _).
  cbn zeta in Hcs.
  unfold submit. rewrite Hss', Hid'.
  rewrite (bool_decide_eq_true_2 (Some "true" = Some "true")) by done.
  destruct (bool_decide (user_role v = USER_ROLES.CITIZEN)); cbn;
    [|by eexists].
  rewrite Hcs, lookup_insert_eq.
  assert (second_stage_filter v
            (superseded_doc orig (fresh (dom (complaints st))) s' e now)
          = false) as ->.
  { unfold second_stage_filter. cbn. eval_decide.
    by rewrite andb_false_r. }
  by eexists.
Qed.

Lemma first_stage_left_only_by_second_stage_witness :
  let st := answered_twice all_officers in
  let r := Submit citizen (second_stage_body (Some "Permit") 2) 3000 in
  let c := stored st 0 in
  let c' := stored (second_stage all_officers) 0 in
  complaints st !! 0 = Some c
  ∧ currentStage c = COMPLAINT_STAGES.STAKEHOLDER_FIRST
  ∧ complaints (fst (serve st r)) !! 0 = Some c'
  ∧ currentStage c' ≠ COMPLAINT_STAGES.STAKEHOLDER_FIRST
  ∧ ∃ u body now,
      r = Submit u body now
      ∧ isSecondStage body = Some "true"
      ∧ originalComplaintId body = Some 0.
Proof.
  intros st r c c'.
  assert (complaints st !! 0 = Some c) as Hc by (vm_compute; done).
  assert (complaints (fst (serve st r)) !! 0 = Some c') as Hc'
    by (vm_compute; done).
  assert (currentStage c' ≠ COMPLAINT_STAGES.STAKEHOLDER_FIRST) as Hs'
    by (vm_compute; done).
  split_and!; [done|done|done|done|].
  exact (first_stage_left_only_by_second_stage st r 0 c c'
           Hc eq_refl Hc' Hs').
Defined.

Lemma second_stage_not_repeated_witness :
  let st := answered_twice all_officers in
  let body := second_stage_body (Some "Permit") 2 in
  let st' := second_stage all_officers in
  let r := Json 201 "Second stage complaint submitted successfully"
             (Some (1, stored st' 1)) in
  isSecondStage body = Some "true"
  ∧ originalComplaintId body = Some 0
  ∧ submit st citizen body 3000 = (st', r)
  ∧ succeeded r = true
  ∧ ∀ v body' now',
      isSecondStage body' = Some "true" →
      originalComplaintId body' = Some 0 →
      ∃ r', submit st' v body' now' = (st', r') ∧ succeeded r' = false.
Proof.
  intros st body st' r.
  assert (submit st citizen body 3000 = (st', r)) as H by (vm_compute; done).
  split_and!; [done|done|done|done|].
  exact (second_stage_not_repeated st citizen body 3000 0 st' r
           eq_refl eq_refl H eq_refl).
Defined.
